(** * openai_agents_server: crawl, cache, search and section extraction

    A shallow embedding of [openai_agents_server.py].  A Python [str] is a
    Rocq string with one character for each code point, the code points
    being those below U+0100: on these [str.lower] maps a character to a
    character, and the white space of [str.strip] and [str.split] is the
    twelve characters of [Py.isspace].  Python [int]s are [Z], the two
    module-level caches are finite maps, and the coroutines are functions in
    a state-and-exception monad over the caches and the log of HTTP requests.
    The HTTP client, [urljoin] and the HTML parser are collaborators of the
    program and are taken as parameters; the selectors and the text
    extraction of the program run on the parsed tree.  The tasks handed to
    [asyncio.gather] may run interleaved; the embedding follows the schedule
    in which each runs to its end before the next one starts.  An exception
    is the message [str(e)], since every handler of the source catches
    [Exception] and only formats the message. *)

From Stdlib Require Import ZArith Ascii Lia.
From Stdlib Require String DecimalString.
From stdpp Require Import base option list gmap strings.

Set Warnings "-register-all".
Local Open Scope Z_scope.

(** ** Python string primitives *)

Module Py.

(** [len(s)] *)
Definition len (s : string) : Z := Z.of_nat (String.length s).

(** [c.isspace()]: the white space that [strip] and [split] remove, which
    is the control characters 9 to 13 and 28 to 31, the space, U+0085 and
    U+00A0. *)
Definition isspace (c : ascii) : bool :=
  let n := nat_of_ascii c in
  ((9 <=? n) && (n <=? 13) || (28 <=? n) && (n <=? 32)
   || (n =? 133) || (n =? 160))%nat.

(** [c.lower()]: the letters A to Z, and the capital letters U+00C0 to
    U+00DE but for the multiplication sign U+00D7, move up by 32. *)
Definition lower_char (c : ascii) : ascii :=
  let n := nat_of_ascii c in
  if ((65 <=? n) && (n <=? 90)
      || (192 <=? n) && (n <=? 222) && negb (n =? 215))%nat
  then ascii_of_nat (n + 32) else c.

(** [s.lower()] *)
Fixpoint lower (s : string) : string :=
  match s with
  | EmptyString => EmptyString
  | String c s' => String (lower_char c) (lower s')
  end.

(** [s.startswith(p)] *)
Fixpoint startswith (s p : string) : bool :=
  match p, s with
  | EmptyString, _ => true
  | String _ _, EmptyString => false
  | String a p', String b s' => if decide (a = b) then startswith s' p' else false
  end.

Fixpoint drop (n : nat) (s : string) : string :=
  match n, s with
  | O, _ => s
  | S _, EmptyString => EmptyString
  | S n', String _ s' => drop n' s'
  end.

Fixpoint take (n : nat) (s : string) : string :=
  match n, s with
  | O, _ => EmptyString
  | S _, EmptyString => EmptyString
  | S n', String c s' => String c (take n' s')
  end.

(** [s.endswith(p)] *)
Definition endswith (s p : string) : bool :=
  (String.length p <=? String.length s)%nat
  && bool_decide (drop (String.length s - String.length p) s = p).

(** [s.find(sub)]: the lowest index at which [sub] occurs, [-1] if none. *)
Fixpoint find_from (s sub : string) (i : Z) : Z :=
  if startswith s sub then i
  else match s with
       | EmptyString => -1
       | String _ s' => find_from s' sub (i + 1)
       end.

Definition find (s sub : string) : Z := find_from s sub 0.

(** [sub in s] *)
Fixpoint contains (sub s : string) : bool :=
  startswith s sub
  || match s with
     | EmptyString => false
     | String _ s' => contains sub s'
     end.

(** A slice bound as Python resolves it: negative bounds count from the
    end, and every bound is clamped to [0, len]. *)
Definition bound (n i : Z) : Z :=
  if i <? 0 then Z.max 0 (i + n) else Z.min i n.

(** [s[start:stop]] *)
Definition slice (s : string) (start stop : Z) : string :=
  let a := bound (len s) start in
  let b := bound (len s) stop in
  take (Z.to_nat (b - a)) (drop (Z.to_nat a) s).

(** [s.strip()] *)
Fixpoint lstrip (s : string) : string :=
  match s with
  | EmptyString => EmptyString
  | String c s' => if isspace c then lstrip s' else s
  end.

Fixpoint rstrip (s : string) : string :=
  match s with
  | EmptyString => EmptyString
  | String c s' =>
      match rstrip s' with
      | EmptyString => if isspace c then EmptyString else String c EmptyString
      | r => String c r
      end
  end.

Definition strip (s : string) : string := rstrip (lstrip s).

(** [s.split()]: the maximal runs of non-space characters. *)
Fixpoint split_go (cur : option string) (s : string) : list string :=
  match s with
  | EmptyString => option_list (String.rev <$> cur)
  | String c s' =>
      if isspace c
      then option_list (String.rev <$> cur) ++ split_go None s'
      else split_go (Some (String c (default EmptyString cur))) s'
  end.

Definition split (s : string) : list string := split_go None s.

(** [s.split(sep)] for a one-character separator. *)
Fixpoint split_on_go (sep : ascii) (cur : string) (s : string) : list string :=
  match s with
  | EmptyString => [String.rev cur]
  | String c s' =>
      if decide (c = sep)
      then String.rev cur :: split_on_go sep EmptyString s'
      else split_on_go sep (String c cur) s'
  end.

Definition split_on (sep : ascii) (s : string) : list string :=
  split_on_go sep EmptyString s.

(** [s.replace(old, new)] for a non-empty [old]; the fuel is the length
    of [s], which bounds the number of steps. *)
Fixpoint replace_go (fuel : nat) (s old new : string) : string :=
  match fuel with
  | O => s
  | S fuel' =>
      if startswith s old
      then new +:+ replace_go fuel' (drop (String.length old) s) old new
      else match s with
           | EmptyString => EmptyString
           | String c s' => String c (replace_go fuel' s' old new)
           end
  end.

Definition replace (s old new : string) : string :=
  replace_go (String.length s) s old new.

(** [sep.join(l)] *)
Fixpoint join (sep : string) (l : list string) : string :=
  match l with
  | [] => EmptyString
  | [x] => x
  | x :: l' => x +:+ sep +:+ join sep l'
  end.

(** [int(c)] for a one-character string: [None] stands for [ValueError]. *)
Definition int_of_char (c : ascii) : option Z :=
  let n := nat_of_ascii c in
  if ((48 <=? n) && (n <=? 57))%nat then Some (Z.of_nat (n - 48)) else None.

(** Truth value of a string: empty strings are false. *)
Definition truthy (s : string) : bool :=
  match s with EmptyString => false | _ => true end.

End Py.

(** ** Constants, JSON values and tool replies *)

Definition DOCS_URL : string := "https://openai.github.io/openai-agents-python/".
Definition GITHUB_URL : string := "https://github.com/openai/openai-agents-python".
Definition RAW_GITHUB_URL : string :=
  "https://raw.githubusercontent.com/openai/openai-agents-python/main/".

(** The values handed to [json.dumps]; a dict keeps its insertion order. *)
Inductive json : Type :=
| JNull
| JInt (z : Z)
| JString (s : string)
| JList (l : list json)
| JDict (d : list (string * json)).

(** What a tool returns: a plain message, or [json.dumps(j, indent=2)]. *)
Inductive reply : Type :=
| Text (s : string)
| Dumps (j : json).

Definition is_json (r : reply) : bool :=
  match r with Dumps _ => true | Text _ => false end.

(** [d.get(k)] on a dict value. *)
Fixpoint dict_get (k : string) (d : list (string * json)) : option json :=
  match d with
  | [] => None
  | (k', v) :: d' => if decide (k = k') then Some v else dict_get k d'
  end.

Definition json_get (k : string) (j : json) : option json :=
  match j with JDict d => dict_get k d | _ => None end.

Definition JStrings (l : list string) : json := JList (map JString l).

(** [x if x else None] for a list of messages. *)
Definition errors_or_none (errs : list string) : json :=
  match errs with [] => JNull | _ => JStrings errs end.

(** ** The per-document match of [search_docs] and [search_github] *)

(** Lines 189-191: the excerpt [content[start:end]] around [index]. *)
Definition snippet_at (content term : string) (index : Z) : string :=
  let start := Z.max 0 (index - 100) in
  let stop := Z.min (Py.len content) (index + Py.len term + 100) in
  Py.slice content start stop.

(** Lines 188-191: the excerpt around the first occurrence of [term] in
    the lowercased document. *)
Definition snippet (content term : string) : string :=
  let index := Py.find (Py.lower content) term in
  snippet_at content term index.

Definition snippet_field (content term : string) : string :=
  "..." +:+ snippet content term +:+ "...".

(** [for term in query_terms: if term in low: ...; break] *)
Fixpoint first_term (low : string) (query_terms : list string) : option string :=
  match query_terms with
  | [] => None
  | term :: rest => if Py.contains term low then Some term else first_term low rest
  end.

(** [any(term in low for term in query_terms)] *)
Definition any_term (low : string) (query_terms : list string) : bool :=
  existsb (fun term => Py.contains term low) query_terms.

(** The results one documentation page adds to [results]. *)
Definition search_page (query_terms : list string) (url title content : string)
  : list json :=
  if any_term (Py.lower content) query_terms then
    match first_term (Py.lower content) query_terms with
    | Some term =>
        [JDict [("url", JString url); ("title", JString title);
                ("snippet", JString (snippet_field content term))]]
    | None => []
    end
  else [].

(** The results one repository file adds to [results]. *)
Definition search_file (query_terms : list string) (path content : string)
  : list json :=
  if any_term (Py.lower content) query_terms then
    match first_term (Py.lower content) query_terms with
    | Some term =>
        [JDict [("path", JString path);
                ("url", JString (GITHUB_URL +:+ "/blob/main/" +:+ path));
                ("snippet", JString (snippet_field content term));
                ("matched_term", JString term)]]
    | None => []
    end
  else [].

(** ** The parsed document

    What [BeautifulSoup(markup, 'html.parser')] hands to the program: text
    nodes, comments, and tags with a name, attributes, the source line of
    the opening tag and the child nodes in document order.  A [Comment]
    stands for a comment and for the other special strings of a page (a
    doctype, a declaration, a processing instruction): a [str] without a
    name that [get_text] leaves out. *)

Inductive node : Type :=
| NavigableString (s : string)
| Comment (s : string)
| Tag (name : string) (attrs : list (string * string)) (sourceline : nat)
      (contents : list node).

Definition soup : Type := list node.

Definition node_name (n : node) : option string :=
  match n with
  | NavigableString _ | Comment _ => None
  | Tag name _ _ _ => Some name
  end.

Definition node_contents (n : node) : list node :=
  match n with NavigableString _ | Comment _ => [] | Tag _ _ _ cs => cs end.

Definition node_sourceline (n : node) : nat :=
  match n with NavigableString _ | Comment _ => O | Tag _ _ l _ => l end.

(** [tag.get(key)] *)
Fixpoint attr_get (key : string) (attrs : list (string * string)) : option string :=
  match attrs with
  | [] => None
  | (k, v) :: rest => if decide (k = key) then Some v else attr_get key rest
  end.

Definition node_attr (key : string) (n : node) : option string :=
  match n with
  | NavigableString _ | Comment _ => None
  | Tag _ attrs _ _ => attr_get key attrs
  end.

(** The strings below a node that count as text, in document order. *)
Fixpoint strings (n : node) : list string :=
  match n with
  | NavigableString s => [s]
  | Comment _ => []
  | Tag _ _ _ cs => concat (map strings cs)
  end.

(** [node.get_text()] *)
Definition get_text (n : node) : string := Py.join "" (strings n).

(** The stripped strings that are not empty. *)
Definition stripped_strings (n : node) : list string :=
  filter (fun s => s <> EmptyString) (map Py.strip (strings n)).

(** [node.get_text(strip=True)] and [node.get_text(separator, strip=True)] *)
Definition get_text_strip (n : node) : string := Py.join "" (stripped_strings n).
Definition get_text_sep (sep : string) (n : node) : string :=
  Py.join sep (stripped_strings n).

(** An element together with where it stands: the siblings after it and
    its ancestors, nearest first. *)
Record element : Type := Element {
  el : node;
  next_siblings : list node;
  parents : list node
}.

Fixpoint elements_of (ps : list node) (n : node) (after : list node) : list element :=
  Element n after ps ::
  match n with
  | NavigableString _ | Comment _ => []
  | Tag _ _ _ cs =>
      (fix go (l : list node) : list element :=
         match l with
         | [] => []
         | c :: l' => elements_of (n :: ps) c l' ++ go l'
         end) cs
  end.

Fixpoint elements_in (ps : list node) (l : list node) : list element :=
  match l with
  | [] => []
  | c :: l' => elements_of ps c l' ++ elements_in ps l'
  end.

(** Every node of the document in document order. *)
Definition soup_elements (doc : soup) : list element := elements_in [] doc.

Definition has_name (name : string) (e : element) : bool :=
  bool_decide (node_name (el e) = Some name).

(** [soup.find_all(name)] *)
Definition find_all (name : string) (doc : soup) : list element :=
  filter (fun e => has_name name e = true) (soup_elements doc).

(** The class tokens of a tag. *)
Definition classes (n : node) : list string :=
  match node_attr "class" n with Some v => Py.split v | None => [] end.

Definition has_class (c : string) (n : node) : bool :=
  bool_decide (c ∈ classes n).

(** [tag.find_all(name)] below one node, and the descendants of a node. *)
Definition descendants (n : node) : list element :=
  elements_in [n] (node_contents n).

(** [soup.select(...)] and [tag.select(...)]: the tags that satisfy a
    selector, in document order. *)
Definition select (p : node -> bool) (doc : soup) : list node :=
  el <$> filter (fun e => p (el e) = true) (soup_elements doc).

Definition select_in (p : node -> bool) (n : node) : list node :=
  el <$> filter (fun e => p (el e) = true) (descendants n).

(** [a or b] on values that are [None] when missing. *)
Definition or_else {A : Type} (a b : option A) : option A :=
  match a with Some _ => a | None => b end.

(** [a or b] on lists: an empty list is false. *)
Definition or_list {A : Type} (a b : list A) : list A :=
  match a with [] => b | _ => a end.

Definition is_tag (name : string) (n : node) : bool :=
  bool_decide (node_name n = Some name).

(** ["name.cls"] *)
Definition sel_class (name cls : string) (n : node) : bool :=
  is_tag name n && has_class cls n.

(** ["name[key='v']"] *)
Definition sel_attr_eq (name key v : string) (n : node) : bool :=
  is_tag name n && bool_decide (node_attr key n = Some v).

(** ["name[key]"] *)
Definition sel_attr (name key : string) (n : node) : bool :=
  is_tag name n && bool_decide (is_Some (node_attr key n)).

(** ["name[key*='v']"] *)
Definition sel_attr_sub (name key v : string) (n : node) : bool :=
  is_tag name n
  && match node_attr key n with Some x => Py.contains v x | None => false end.

(** [tag.get(key, "")] *)
Definition get_attr (key : string) (n : node) : string :=
  default EmptyString (node_attr key n).

(** The main text of a page, as [fetch_doc_page] and [get_doc] extract it. *)
Definition main_content (doc : soup) : option node :=
  or_else (head (select (is_tag "article") doc))
    (or_else (head (select (is_tag "main") doc))
       (head (select (sel_class "div" "markdown-body") doc))).

(** [soup.get_text(separator='\n', strip=True)] on a whole document. *)
Definition soup_text_sep (sep : string) (doc : soup) : string :=
  Py.join sep (concat (map stripped_strings doc)).

Definition newline : string := String (ascii_of_nat 10) EmptyString.

Definition page_text (doc : soup) : string :=
  match main_content doc with
  | Some n => get_text_sep newline n
  | None => soup_text_sep newline doc
  end.

(** ** The world: caches, network, and coroutines *)

(** What [client.get] gives back: an exception of the transport, or a
    response with a status code and a body. *)
Inductive response : Type :=
| ConnectError (e : string)
| Response (status_code : Z) (text : string).

(** The collaborators of the program.  [http_get] answers a request from
    the requests already made and the URL; [status_error] is the message of
    the exception [raise_for_status] raises for a status, if it raises. *)
Record collaborators : Type := Collaborators {
  http_get : list string -> string -> response;
  status_error : Z -> string -> option string;
  urljoin : string -> string -> string;
  parse : string -> soup
}.

(** [doc_cache], [github_cache], and the log of the requests sent. *)
Record world : Type := World {
  doc_cache : gmap string string;
  github_cache : gmap string string;
  requests : list string
}.

Definition set_doc_cache (f : gmap string string -> gmap string string) (w : world) :=
  World (f (doc_cache w)) (github_cache w) (requests w).
Definition set_github_cache (f : gmap string string -> gmap string string) (w : world) :=
  World (doc_cache w) (f (github_cache w)) (requests w).
Definition log_request (url : string) (w : world) :=
  World (doc_cache w) (github_cache w) (requests w ++ [url]).

Inductive outcome (A : Type) : Type :=
| Return (a : A)
| Raise (e : string).
Arguments Return {A} a.
Arguments Raise {A} e.

Definition io (A : Type) : Type := world -> outcome A * world.

Definition ret {A : Type} (a : A) : io A := fun w => (Return a, w).
Definition raise {A : Type} (e : string) : io A := fun w => (Raise e, w).
Definition bind {A B : Type} (m : io A) (k : A -> io B) : io B :=
  fun w => match m w with
           | (Return a, w') => k a w'
           | (Raise e, w') => (Raise e, w')
           end.
(** [try: m  except Exception as e: h e] *)
Definition try_except {A : Type} (m : io A) (h : string -> io A) : io A :=
  fun w => match m w with
           | (Return a, w') => (Return a, w')
           | (Raise e, w') => h e w'
           end.

Notation "'await' x <~ m 'in' k" := (bind m (fun x => k))
  (at level 10, x name, m at level 100, k at level 200, only parsing).
Notation "'await' ' pat <~ m 'in' k" :=
  (bind m (fun x => match x with pat => k end))
  (at level 10, pat pattern, m at level 100, k at level 200, only parsing).

Section Server.

Variable E : collaborators.

(** [await client.get(url)] *)
Definition client_get (url : string) : io (Z * string) :=
  fun w =>
    match http_get E (requests w) url with
    | ConnectError e => (Raise e, log_request url w)
    | Response code body => (Return (code, body), log_request url w)
    end.

(** [response.raise_for_status()] *)
Definition raise_for_status (code : Z) (url : string) : io unit :=
  match status_error E code url with
  | Some e => raise e
  | None => ret tt
  end.

(** *** Lines 24-47 *)
Definition fetch_doc_page (url : string) : io string :=
  fun w =>
    match doc_cache w !! url with
    | Some content => (Return content, w)
    | None =>
        let full_url :=
          if Py.startswith url "http" then url else urljoin E DOCS_URL url in
        (await '(code, html) <~ client_get full_url in
         await _ <~ raise_for_status code full_url in
         let content := page_text (parse E html) in
         fun w' => (Return content, set_doc_cache (insert url content) w')) w
    end.

(** *** Lines 50-65 *)
Definition fetch_github_file (path : string) : io string :=
  fun w =>
    match github_cache w !! path with
    | Some content => (Return content, w)
    | None =>
        let url := urljoin E RAW_GITHUB_URL path in
        (await '(code, content) <~ client_get url in
         await _ <~ raise_for_status code url in
         fun w' => (Return content, set_github_cache (insert path content) w')) w
    end.

(** *** Lines 68-155: the listing of the repository root *)

Definition blob_prefix : string := "/openai/openai-agents-python/blob/main/".
Definition tree_prefix : string := "/openai/openai-agents-python/tree/main/".

(** An entry [{"name": ..., "path": ...}] of a listing. *)
Record entry : Type := Entry { entry_name : string; entry_path : string }.

(** The dict [get_github_structure] returns; [structure_error] is its
    ["error"] key, when present. *)
Record structure : Type := Structure {
  structure_error : option string;
  files : list entry;
  directories : list entry
}.

(** The rows of the file explorer, by the first selector that finds any. *)
Definition file_items (doc : soup) : list node :=
  or_list (select (sel_class "div" "Box-row") doc)
    (or_list (select (sel_attr_eq "div" "role" "row") doc)
       (select (sel_class "tr" "js-navigation-item") doc)).

Definition repo_content_area (doc : soup) : option node :=
  or_else (head (select (sel_class "div" "repository-content") doc))
    (head (select (sel_attr_eq "div" "data-pjax" "#repo-content-pjax-container") doc)).

(** The link of a row: lines 112-116 and 1396-1400. *)
Definition row_link (item : node) : option node :=
  or_else
    (or_else (head (select_in (sel_attr "a" "data-pjax") item))
       (or_else (head (select_in (sel_attr_sub "a" "href" "/blob/main/") item))
          (head (select_in (sel_attr_sub "a" "href" "/tree/main/") item))))
    (head (select_in (is_tag "a") item)).

Definition aria_label (svg : option node) : string :=
  match svg with Some s => get_attr "aria-label" s | None => EmptyString end.

(** Lines 123-127 and 1407-1411. *)
Definition row_is_dir (svg : option node) (href : string) : bool :=
  let label := aria_label svg in
  if Py.truthy label
  then Py.contains "directory" (Py.lower label) || Py.contains "dir" (Py.lower label)
  else if Py.truthy href then Py.contains "/tree/main/" href else false.

(** One row of the root listing, lines 109-140. *)
Definition root_row (acc : list entry * list entry) (item : node)
  : list entry * list entry :=
  match row_link item with
  | None => acc
  | Some link =>
      let href := get_attr "href" link in
      let name := get_text_strip link in
      let is_dir := row_is_dir (head (select_in (is_tag "svg") item)) href in
      let path :=
        if Py.contains "/blob/main/" href then Py.replace href blob_prefix ""
        else if Py.contains "/tree/main/" href then Py.replace href tree_prefix ""
        else EmptyString in
      if Py.truthy path then
        if is_dir then (acc.1, acc.2 ++ [Entry name path])
        else (acc.1 ++ [Entry name path], acc.2)
      else acc
  end.

(** One link of the content area, lines 95-105. *)
Definition root_link (acc : list entry * list entry) (link : node)
  : list entry * list entry :=
  let href := get_attr "href" link in
  if Py.contains "/blob/main/" href || Py.contains "/tree/main/" href then
    let is_dir := Py.contains "/tree/main/" href in
    let name := get_text_strip link in
    let path := Py.replace (Py.replace href tree_prefix "") blob_prefix "" in
    if is_dir && Py.truthy path && Py.truthy name
    then (acc.1, acc.2 ++ [Entry name path])
    else if Py.truthy path && Py.truthy name
         then (acc.1 ++ [Entry name path], acc.2)
         else acc
  else acc.

Definition default_dirs : list string := ["examples"; "src"; "docs"; "tests"].

Definition root_structure_of (doc : soup) : structure :=
  let '(fs, ds) :=
    match file_items doc with
    | [] =>
        match repo_content_area doc with
        | Some area => foldl root_link ([], []) (select_in (is_tag "a") area)
        | None => ([], [])
        end
    | items => foldl root_row ([], []) items
    end in
  match fs, ds with
  | [], [] => Structure None [] ((fun d => Entry d d) <$> default_dirs)
  | _, _ => Structure None fs ds
  end.

Definition get_github_structure : io structure :=
  try_except
    (let url := GITHUB_URL +:+ "/tree/main" in
     await '(code, html) <~ client_get url in
     await _ <~ raise_for_status code url in
     ret (root_structure_of (parse E html)))
    (fun e => ret (Structure (Some e) [] [])).

(** *** Lines 158-231: [search_docs] *)

Definition is_site_link (href : string) : bool :=
  negb (Py.startswith href "http://" || Py.startswith href "https://"
        || Py.startswith href "#" || Py.startswith href "javascript:").

(** Lines 177-181. *)
Definition page_links (doc : soup) : list string :=
  filter (fun href => is_site_link href = true)
    (get_attr "href" <$> select (sel_attr "a" "href") doc).

(** Lines 201-223: the loop over the linked pages. *)
Fixpoint search_links (query_terms links : list string) (results : list json)
  : io (list json) :=
  match links with
  | [] => ret results
  | link :: rest =>
      await results' <~
        try_except
          (let page_url := urljoin E DOCS_URL link in
           await page_content <~ fetch_doc_page page_url in
           ret (results ++ search_page query_terms page_url link page_content))
          (fun _ => ret results) in
      search_links query_terms rest results'
  end.

Definition search_docs (query : string) : io reply :=
  let query := Py.lower (Py.strip query) in
  if negb (Py.truthy query) then ret (Text "Please provide a search query.")
  else
    let query_terms := Py.split query in
    try_except
      (await content <~ fetch_doc_page DOCS_URL in
       let links := page_links (parse E content) in
       let results := search_page query_terms DOCS_URL "Main Page" content in
       await results <~ search_links query_terms (take 20 links) results in
       match results with
       | [] =>
           ret (Text ("No results found for your query: '" +:+ query
                      +:+ "'. Try a different search term or check the documentation index."))
       | _ => ret (Dumps (JList results))
       end)
      (fun e => ret (Text ("Error searching documentation: " +:+ e))).

(** *** Lines 235-373: [search_github] *)

(** Lines 256-282: the files of the root listing.  The accumulator is
    [(results, search_errors)]. *)
Fixpoint search_root_files (query_terms : list string) (fs : list entry)
    (acc : list json * list string) : io (list json * list string) :=
  match fs with
  | [] => ret acc
  | file :: rest =>
      await acc' <~
        try_except
          (let path := entry_path file in
           if negb (Py.truthy path) then ret acc
           else
             await file_content <~ fetch_github_file path in
             ret (acc.1 ++ search_file query_terms path file_content, acc.2))
          (fun e => ret (acc.1, acc.2 ++ ["Error checking root file "
                                           +:+ entry_name file +:+ ": " +:+ e])) in
      search_root_files query_terms rest acc'
  end.

Definition is_text_file (file_path : string) : bool :=
  Py.endswith file_path ".py" || Py.endswith file_path ".md".

(** Lines 300-328: the rows of one directory page.  The accumulator is
    [(dir_results, search_errors)]. *)
Fixpoint search_rows (query_terms : list string) (items : list node)
    (acc : list json * list string) : io (list json * list string) :=
  match items with
  | [] => ret acc
  | item :: rest =>
      match head (select_in (sel_attr "a" "data-pjax") item) with
      | None => search_rows query_terms rest acc
      | Some link =>
          let file_path := Py.replace (get_attr "href" link) blob_prefix "" in
          if is_text_file file_path then
            await acc' <~
              try_except
                (await file_content <~ fetch_github_file file_path in
                 ret (acc.1 ++ search_file query_terms file_path file_content, acc.2))
                (fun e => ret (acc.1, acc.2 ++ ["Error processing file "
                                                 +:+ file_path +:+ ": " +:+ e])) in
            search_rows query_terms rest acc'
          else search_rows query_terms rest acc
      end
  end.

(** Lines 285-332: returns [dir_results] and the grown [search_errors]. *)
Definition search_directory (query_terms : list string) (dir_path : string)
    (search_errors : list string) : io (list json * list string) :=
  fun w =>
    let url := GITHUB_URL +:+ "/tree/main/" +:+ dir_path in
    match client_get url w with
    | (Raise e, w') =>
        (Return ([], search_errors ++ ["Error searching directory "
                                        +:+ dir_path +:+ ": " +:+ e]), w')
    | (Return (code, html), w') =>
        if decide (code = 404)
        then (Return ([], search_errors ++ ["Directory not found: " +:+ dir_path]), w')
        else
          match status_error E code url with
          | Some e =>
              (Return ([], search_errors ++ ["Error searching directory "
                                              +:+ dir_path +:+ ": " +:+ e]), w')
          | None =>
              search_rows query_terms (select (sel_class "div" "Box-row") (parse E html))
                ([], search_errors) w'
          end
    end.

Definition github_key_dirs : list string :=
  ["openai"; "examples"; "docs"; "src"; "src/agents"; "tests"].

(** Lines 338-349: the directory searches, run in the declared order, and
    the merge of their results. *)
Fixpoint search_directories (query_terms dirs : list string)
    (acc : list json * list string) : io (list json * list string) :=
  match dirs with
  | [] => ret acc
  | dir_name :: rest =>
      await '(dir_results, errs) <~ search_directory query_terms dir_name acc.2 in
      await '(rest_results, errs') <~ search_directories query_terms rest ([], errs) in
      ret (acc.1 ++ dir_results ++ rest_results, errs')
  end.

Definition search_github (query : string) : io reply :=
  let query := Py.lower (Py.strip query) in
  if negb (Py.truthy query) then ret (Text "Please provide a search query.")
  else
    let query_terms := Py.split query in
    try_except
      (await structure0 <~ get_github_structure in
       let '(search_errors, structure1) :=
         match structure_error structure0 with
         | Some e => (["Error getting repository structure: " +:+ e], Structure None [] [])
         | None => ([], structure0)
         end in
       await acc <~ search_root_files query_terms (files structure1) ([], search_errors) in
       await '(results, search_errors) <~
         search_directories query_terms github_key_dirs acc in
       let debug_info :=
         JDict [("search_query", JString query);
                ("search_terms", JStrings query_terms);
                ("directories_searched", JStrings github_key_dirs);
                ("errors", errors_or_none search_errors)] in
       match results with
       | [] =>
           ret (Dumps (JDict
             [("error", JString ("No results found in the GitHub repository for query: '"
                                 +:+ query +:+ "'. Try different search terms."));
              ("debug_info", debug_info)]))
       | _ => ret (Dumps (JDict [("results", JList results); ("debug_info", debug_info)]))
       end)
      (fun e => ret (Text ("Error searching GitHub repository: " +:+ e))).

(** *** Lines 526-680: [search_files] *)

Definition file_match (name path : string) : json :=
  JDict [("name", JString name); ("path", JString path);
         ("url", JString (GITHUB_URL +:+ "/blob/main/" +:+ path))].

(** Lines 554-566: the files of the root listing, matched by name. *)
Definition root_matches (filename_pattern : string) (fs : list entry) : list json :=
  flat_map (fun file =>
              let name := Py.lower (entry_name file) in
              if Py.contains filename_pattern name
              then [file_match name (entry_path file)] else []) fs.

Definition none_has_no_get : string := "'NoneType' object has no attribute 'get'".

(** Lines 587-612: one row of a directory page.  The state is
    [(matches, search_errors, subdirs)]. *)
Definition files_row (filename_pattern dir_path : string)
    (st : list json * list string * list string) (item : node)
  : list json * list string * list string :=
  let '(matches, search_errors, subdirs) := st in
  match head (select_in (sel_attr "a" "data-pjax") item) with
  | None => st
  | Some link =>
      let name := get_text_strip link in
      match head (select_in (is_tag "svg") item) with
      | None =>
          (matches,
           search_errors ++ ["Error processing item in " +:+ dir_path +:+ ": "
                             +:+ none_has_no_get],
           subdirs)
      | Some svg =>
          let label := get_attr "aria-label" svg in
          let is_dir :=
            if Py.truthy label then Py.contains "dir" (Py.lower label) else false in
          if is_dir then
            (matches, search_errors, subdirs ++ [dir_path +:+ "/" +:+ name])
          else if Py.contains filename_pattern (Py.lower name) then
            (matches ++ [file_match name (dir_path +:+ "/" +:+ name)],
             search_errors, subdirs)
          else st
      end
  end.

(** [len(subdir.split('/')) <= 3] *)
Definition within_depth (subdir : string) : bool :=
  (length (Py.split_on "/" subdir) <=? 3)%nat.

(** Lines 614-617: the searches of the subdirectories that pass the depth
    test, one after the other. *)
Fixpoint descend (search : string -> list json * list string -> io (list json * list string))
    (subdirs : list string) (acc : list json * list string)
  : io (list json * list string) :=
  match subdirs with
  | [] => ret acc
  | subdir :: rest =>
      if within_depth subdir then
        await acc' <~ search subdir acc in
        descend search rest acc'
      else descend search rest acc
  end.

(** Lines 569-619.  The recursion of the source is bounded by the depth
    test on the path; [fuel] counts the nested calls still allowed, and
    three are enough for every path (see [files_search_directory_fuel]).
    The accumulator is [(matches, search_errors)]. *)
Fixpoint files_search_directory (fuel : nat) (filename_pattern dir_path : string)
    (acc : list json * list string) : io (list json * list string) :=
  match fuel with
  | O => ret acc
  | S fuel' =>
      fun w =>
        let url := GITHUB_URL +:+ "/tree/main/" +:+ dir_path in
        let failed e :=
          (acc.1, acc.2 ++ ["Error searching directory " +:+ dir_path +:+ ": " +:+ e]) in
        match client_get url w with
        | (Raise e, w') => (Return (failed e), w')
        | (Return (code, html), w') =>
            if decide (code = 404)
            then (Return (acc.1, acc.2 ++ ["Directory not found: " +:+ dir_path]), w')
            else
              match status_error E code url with
              | Some e => (Return (failed e), w')
              | None =>
                  let items := select (sel_class "div" "Box-row") (parse E html) in
                  let '(matches, search_errors, subdirs) :=
                    foldl (files_row filename_pattern dir_path) (acc.1, acc.2, []) items in
                  descend (files_search_directory fuel' filename_pattern)
                          subdirs (matches, search_errors) w'
              end
        end
  end.

Definition files_key_dirs : list string := ["examples"; "src"; "docs"; "test"; "tests"].
Definition direct_paths : list string :=
  ["examples"; "src/agents"; "docs"; "test"; "tests"].

(** Lines 626-635 and 647-651: the searches of a list of directories, in
    the declared order. *)
Fixpoint files_search_all (filename_pattern : string) (dirs : list string)
    (acc : list json * list string) : io (list json * list string) :=
  match dirs with
  | [] => ret acc
  | directory :: rest =>
      await acc' <~ files_search_directory 3 filename_pattern directory acc in
      files_search_all filename_pattern rest acc'
  end.

Definition search_files (filename_pattern : string) : io reply :=
  try_except
    (let filename_pattern := Py.lower (Py.strip filename_pattern) in
     if negb (Py.truthy filename_pattern)
     then ret (Text "Please provide a filename pattern to search for.")
     else
       await '(search_errors, structure1) <~
         try_except
           (await structure0 <~ get_github_structure in
            match structure_error structure0 with
            | Some e => ret (["Error getting repository structure: " +:+ e],
                             Structure None [] [])
            | None => ret ([], structure0)
            end)
           (fun e => ret (["Error getting repository structure: " +:+ e],
                          Structure None [] [])) in
       let matches := root_matches filename_pattern (files structure1) in
       await acc <~ files_search_all filename_pattern files_key_dirs
                      (matches, search_errors) in
       await '(matches, search_errors) <~
         match acc.1 with
         | [] => files_search_all filename_pattern direct_paths acc
         | _ => ret acc
         end in
       let debug_info :=
         JDict [("search_pattern", JString filename_pattern);
                ("directories_searched", JStrings files_key_dirs);
                ("errors", errors_or_none search_errors)] in
       match matches, search_errors with
       | [], _ :: _ =>
           ret (Dumps (JDict
             [("error", JString ("No files found matching '" +:+ filename_pattern
                 +:+ "'. There were errors during search that might have affected results."));
              ("debug_info", debug_info)]))
       | [], [] =>
           ret (Dumps (JDict
             [("error", JString ("No files found matching '" +:+ filename_pattern
                 +:+ "'. Try a different search pattern."));
              ("debug_info", debug_info)]))
       | _, _ => ret (Dumps (JDict [("matches", JList matches); ("debug_info", debug_info)]))
       end)
    (fun e => ret (Text ("Error searching for files: " +:+ e))).

(** *** Lines 377-522: [get_section] *)

Definition heading_tags : list string := ["h1"; "h2"; "h3"; "h4"; "h5"; "h6"].

(** Lines 383-385 and 1227-1229. *)
Definition page_url (page : string) : string :=
  let full_url := if Py.startswith page "http" then page else urljoin E DOCS_URL page in
  if negb (Py.endswith full_url ".html") then full_url +:+ ".html" else full_url.

Definition heading_matches (section_lower : string) (heading : element) : bool :=
  let heading_text := Py.lower (get_text (el heading)) in
  bool_decide (section_lower = heading_text) || Py.contains section_lower heading_text.

(** Lines 405-409: the inner loop, left at the first match. *)
Fixpoint first_heading (section_lower : string) (headings : list element)
  : option element :=
  match headings with
  | [] => None
  | heading :: rest =>
      if heading_matches section_lower heading then Some heading
      else first_heading section_lower rest
  end.

(** Lines 403-411: the outer loop over the tag names. *)
Fixpoint exact_match (doc : soup) (section_lower : string) (tags : list string)
  : option element :=
  match tags with
  | [] => None
  | tag :: rest =>
      match first_heading section_lower (find_all tag doc) with
      | Some heading => Some heading
      | None => exact_match doc section_lower rest
      end
  end.

(** Line 424: how many words of the section name the heading contains. *)
Definition match_score (section_lower : string) (heading : element) : Z :=
  let heading_text := Py.lower (get_text (el heading)) in
  Z.of_nat (length (filter (fun word => Py.contains word heading_text = true)
                           (Py.split section_lower))).

(** All the headings in the order the loops visit them. *)
Definition all_headings (doc : soup) : list element :=
  flat_map (fun tag => find_all tag doc) heading_tags.

(** Lines 415-431. *)
Definition partial_match (doc : soup) (section_lower : string) : option element :=
  let step (best : option element * Z) (heading : element) :=
    let match_score := match_score section_lower heading in
    if best.2 <? match_score then (Some heading, match_score) else best in
  let best := foldl step (None, 0) (all_headings doc) in
  if 0 <? best.2 then best.1 else None.

Definition find_heading (doc : soup) (section_lower : string) : option element :=
  or_else (exact_match doc section_lower heading_tags)
          (partial_match doc section_lower).

(** Truth value of a node: a tag is always true, a string or a comment
    when not empty. *)
Definition node_truthy (n : node) : bool :=
  match n with
  | NavigableString s | Comment s => Py.truthy s
  | Tag _ _ _ _ => true
  end.

(** [name[0] == 'h' and len(name) == 2]: the second character. *)
Definition heading_digit (n : node) : option ascii :=
  match n with
  | Tag (String "h" (String c EmptyString)) _ _ _ => Some c
  | _ => None
  end.

Definition invalid_literal (c : ascii) : string :=
  "invalid literal for int() with base 10: '" +:+ String c "'".

(** [int(name[1])] *)
Definition int_of_digit (c : ascii) : outcome Z :=
  match Py.int_of_char c with
  | Some z => Return z
  | None => Raise (invalid_literal c)
  end.

(** Lines 462-465: what a node adds to [content]. *)
Definition node_content (current : node) : list string :=
  match current with
  | Tag _ _ _ _ => [get_text_strip current]
  | NavigableString s | Comment s =>
      if Py.truthy (Py.strip s) then [Py.strip s] else []
  end.

(** Is the node a heading that ends the section?  Lines 456-460. *)
Definition is_boundary (heading_level : Z) (current : node) : outcome bool :=
  match heading_digit current with
  | Some c =>
      match int_of_digit c with
      | Return current_level => Return (bool_decide (current_level <= heading_level))
      | Raise e => Raise e
      end
  | None => Return false
  end.

(** Lines 455-467: the walk over the siblings after the heading; returns
    [content] and [next_heading]. *)
Fixpoint walk_siblings (heading_level : Z) (siblings : list node)
    (content : list string) : outcome (list string * option node) :=
  match siblings with
  | [] => Return (content, None)
  | current :: rest =>
      if negb (node_truthy current) then Return (content, None)
      else
        match is_boundary heading_level current with
        | Raise e => Raise e
        | Return true => Return (content, Some current)
        | Return false =>
            walk_siblings heading_level rest (content ++ node_content current)
        end
  end.

(** Lines 483-492: the same walk over the children of the enclosing
    [div], which visits every child. *)
Fixpoint walk_children (heading_level : Z) (children : list node)
    (content : list string) : outcome (list string) :=
  match children with
  | [] => Return content
  | child :: rest =>
      match is_boundary heading_level child with
      | Raise e => Raise e
      | Return true => Return content
      | Return false =>
          walk_children heading_level rest (content ++ node_content child)
      end
  end.

(** Equality of attribute dicts, whatever the order of the keys. *)
Definition attrs_eqb (a b : list (string * string)) : bool :=
  forallb (fun k => bool_decide (attr_get k a = attr_get k b)) (a.*1 ++ b.*1).

(** [child == found_heading]: two tags with the same name, attributes and
    contents, or two strings with the same text. *)
Fixpoint node_eqb (a b : node) : bool :=
  match a, b with
  | (NavigableString s | Comment s), (NavigableString t | Comment t) =>
      bool_decide (s = t)
  | Tag n1 a1 _ c1, Tag n2 a2 _ c2 =>
      bool_decide (n1 = n2) && attrs_eqb a1 a2
      && (fix all2 (l1 l2 : list node) : bool :=
            match l1, l2 with
            | [], [] => true
            | x :: l1', y :: l2' => node_eqb x y && all2 l1' l2'
            | _, _ => false
            end) c1 c2
  | _, _ => false
  end.

(** [div_children[heading_index+1:]], when the heading is found. *)
Fixpoint children_after (heading : node) (children : list node) : option (list node) :=
  match children with
  | [] => None
  | child :: rest =>
      if node_eqb child heading then Some rest else children_after heading rest
  end.

(** [found_heading.find_parent('div', class_=[...])] *)
Definition find_parent_div (ps : list node) : option node :=
  head (filter (fun p => (is_tag "div" p
                          && (has_class "section" p || has_class "markdown-body" p
                              || has_class "content" p)) = true) ps).

(** Lines 469-492. *)
Definition fallback_content (heading_level : Z) (found_heading : element)
  : outcome (list string) :=
  match find_parent_div (parents found_heading) with
  | Some parent_div =>
      match children_after (el found_heading) (node_contents parent_div) with
      | Some children => walk_children heading_level children []
      | None => Return []
      end
  | None => Return []
  end.

(** Lines 504-512. *)
Definition section_code_examples (doc : soup) (found_heading : node)
    (next_heading : option node) : list string :=
  flat_map (fun code_block =>
      if (node_sourceline found_heading <? node_sourceline (el code_block))%nat then
        match next_heading with
        | Some nh =>
            if (node_sourceline (el code_block) <? node_sourceline nh)%nat
            then [get_text (el code_block)] else []
        | None => []
        end
      else [])
    (find_all "pre" doc).

(** The heading level [int(found_heading.name[1])]. *)
Definition level_of (heading : node) : outcome Z :=
  match node_name heading with
  | Some (String _ (String c _)) => int_of_digit c
  | _ => Raise "string index out of range"
  end.

(** Lines 397-519: the extraction from the parsed page. *)
Definition extract_section (doc : soup) (section full_url : string) : outcome reply :=
  let section_lower := Py.lower section in
  match find_heading doc section_lower with
  | None =>
      let all_sections := (fun h => Py.strip (get_text (el h))) <$> all_headings doc in
      Return (Dumps (JDict
        [("error", JString ("Section '" +:+ section +:+ "' not found in the documentation."));
         ("available_sections", JStrings (take 15 all_sections));
         ("page_url", JString full_url)]))
  | Some found_heading =>
      match level_of (el found_heading) with
      | Raise e => Raise e
      | Return heading_level =>
          match walk_siblings heading_level (next_siblings found_heading) [] with
          | Raise e => Raise e
          | Return (content, next_heading) =>
              let content' :=
                match content with
                | [] => fallback_content heading_level found_heading
                | _ => Return content
                end in
              match content' with
              | Raise e => Raise e
              | Return [] =>
                  Return (Dumps (JDict
                    [("error", JString ("Found section '" +:+ section
                                        +:+ "' but couldn't extract content."));
                     ("heading", JString (get_text (el found_heading)));
                     ("page_url", JString full_url)]))
              | Return content =>
                  Return (Dumps (JDict
                    [("section", JString (get_text (el found_heading)));
                     ("content", JString (Py.join newline content));
                     ("code_examples",
                       JStrings (section_code_examples doc (el found_heading) next_heading));
                     ("page_url", JString full_url)]))
              end
          end
      end
  end.

Definition lift {A : Type} (o : outcome A) : io A := fun w => (o, w).

Definition get_section (page section : string) : io reply :=
  try_except
    (if negb (Py.truthy page) || negb (Py.truthy section)
     then ret (Text "Please provide both a page path and section name.")
     else
       let full_url := page_url page in
       await '(code, html) <~ client_get full_url in
       if decide (code = 404)
       then ret (Text ("Documentation page not found: " +:+ page))
       else
         await _ <~ raise_for_status code full_url in
         lift (extract_section (parse E html) section full_url))
    (fun e => ret (Text ("Error retrieving section: " +:+ e))).

(** *** Lines 1221-1298: [get_doc] *)

Definition site_pages (doc : soup) : list json :=
  flat_map (fun a =>
      let href := get_attr "href" a in
      if is_site_link href then
        let title := get_text_strip a in
        [JDict [("title", JString (if Py.truthy title then title else href));
                ("href", JString href)]]
      else [])
    (select (sel_attr "a" "href") doc).

Definition doc_headings (main : node) : list json :=
  flat_map (fun '(tag, level) =>
      (fun heading => JDict [("level", JInt level);
                             ("text", JString (get_text_strip heading))])
      <$> select_in (is_tag tag) main)
    [("h1", 1); ("h2", 2); ("h3", 3); ("h4", 4)].

Definition get_doc (path : string) : io reply :=
  try_except
    (if negb (Py.truthy path)
     then ret (Text "Please provide a documentation page path.")
     else
       let url := page_url path in
       await '(code, html) <~ client_get url in
       if decide (code = 404) then
         await '(index_code, index_html) <~ client_get DOCS_URL in
         await _ <~ raise_for_status index_code DOCS_URL in
         ret (Dumps (JDict
           [("error", JString ("Documentation page not found: " +:+ path));
            ("available_pages", JList (take 20 (site_pages (parse E index_html))))]))
       else
         await _ <~ raise_for_status code url in
         let doc := parse E html in
         let page_title :=
           match head (select (is_tag "title") doc) with
           | Some title => get_text title
           | None => "Unknown Title"
           end in
         match main_content doc with
         | Some main =>
             ret (Dumps (JDict
               [("title", JString page_title);
                ("url", JString url);
                ("content", JString (get_text_sep newline main));
                ("structure", JList (doc_headings main));
                ("code_examples", JStrings (get_text <$> select_in (is_tag "pre") main))]))
         | None =>
             ret (Dumps (JDict
               [("title", JString page_title);
                ("url", JString url);
                ("content", JString (soup_text_sep newline doc));
                ("note", JString
                   "Could not identify main content area, returning full page text.")]))
         end)
    (fun e => ret (Text ("Error retrieving documentation: " +:+ e))).

(** *** Lines 1302-1516: [list_github_structure] and [process_directory] *)

Record file_info : Type := FileInfo {
  file_name : string;
  file_path : string;
  file_extension : string;
  file_url : option string
}.

(** What [process_directory] returns: the note of the depth limit, an
    error, or the listing of a directory, whose directory entries may
    carry the listing of the subdirectory under ["contents"]. *)
Inductive listing : Type :=
| Note (note : string)
| Failed (error : string)
| Listing (fs : list file_info) (ds : list dir_info) (path : string)
with dir_info : Type :=
| DirInfo (name path : string) (contents : option listing).

Definition dir_name (d : dir_info) : string := match d with DirInfo n _ _ => n end.
Definition dir_path_of (d : dir_info) : string := match d with DirInfo _ p _ => p end.
Definition dir_contents (d : dir_info) : option listing :=
  match d with DirInfo _ _ c => c end.

(** [s.split('.')[-1] if '.' in s else ""] *)
Definition extension_of (s : string) : string :=
  if Py.contains "." s then default EmptyString (last (Py.split_on "." s))
  else EmptyString.

Definition new_file (name path : string) : file_info :=
  FileInfo name path (extension_of name)
           (Some (GITHUB_URL +:+ "/blob/main/" +:+ path)).

(** The state of the scan of one page: [structure["files"]],
    [structure["directories"]] and [subdirs]. *)
Definition scan : Type := list file_info * list dir_info * list string.

(** Lines 1392-1440: one row found by the selectors. *)
Definition dir_row (dir_path : string) (st : scan) (item : node) : scan :=
  let '(fs, ds, subdirs) := st in
  match row_link item with
  | None => st
  | Some link =>
      let href := get_attr "href" link in
      let name := get_text_strip link in
      let is_dir := row_is_dir (head (select_in (is_tag "svg") item)) href in
      let item_path :=
        if is_dir then Py.replace href tree_prefix "" else Py.replace href blob_prefix "" in
      if Py.startswith item_path (dir_path +:+ "/") then
        let rel_path := Py.replace item_path (dir_path +:+ "/") "" in
        if negb (Py.contains "/" rel_path) then
          if is_dir
          then (fs, ds ++ [DirInfo name item_path None], subdirs ++ [item_path])
          else (fs ++ [new_file name item_path], ds, subdirs)
        else st
      else st
  end.

(** Lines 1364-1389: one link of the content area. *)
Definition dir_link (dir_path : string) (st : scan) (link : node) : scan :=
  let '(fs, ds, subdirs) := st in
  let href := get_attr "href" link in
  if (Py.contains "/blob/main/" href || Py.contains "/tree/main/" href)
     && (Py.contains ("/tree/main/" +:+ dir_path +:+ "/") href
         || Py.contains ("/blob/main/" +:+ dir_path +:+ "/") href)
  then
    if Py.contains "/tree/main/" href then
      let path := Py.replace href (tree_prefix +:+ dir_path +:+ "/") "" in
      if Py.truthy path && negb (Py.contains "/" path) then
        let full_path := dir_path +:+ "/" +:+ path in
        (fs, ds ++ [DirInfo path full_path None], subdirs ++ [full_path])
      else st
    else
      let path := Py.replace href (blob_prefix +:+ dir_path +:+ "/") "" in
      if Py.truthy path && negb (Py.contains "/" path) then
        (fs ++ [new_file path (dir_path +:+ "/" +:+ path)], ds, subdirs)
      else st
  else st.

(** Lines 1445-1455: the entries made up for an empty listing. *)
Definition with_defaults (dir_path : string) (st : scan) : scan :=
  match st with
  | ([], [], subdirs) =>
      if decide (dir_path = "examples") then
        ([FileInfo "basic_agent.py" "examples/basic_agent.py" "py" None;
          FileInfo "handoffs.py" "examples/handoffs.py" "py" None], [], subdirs)
      else if decide (dir_path = "src") then
        ([], [DirInfo "agents" "src/agents" None], subdirs)
      else st
  | _ => st
  end.

(** Lines 1348-1455: the scan of one directory page. *)
Definition scan_page (dir_path : string) (doc : soup) : scan :=
  with_defaults dir_path
    match file_items doc with
    | [] =>
        match repo_content_area doc with
        | Some area => foldl (dir_link dir_path) ([], [], []) (select_in (is_tag "a") area)
        | None => ([], [], [])
        end
    | items => foldl (dir_row dir_path) ([], [], []) items
    end.

(** Lines 1469-1474: the result of a subdirectory goes under ["contents"]
    of the first entry with its name or its path. *)
Fixpoint attach (subdir : string) (result : listing) (ds : list dir_info)
  : list dir_info :=
  match ds with
  | [] => []
  | d :: rest =>
      if bool_decide (dir_name d = default EmptyString (last (Py.split_on "/" subdir)))
         || bool_decide (dir_path_of d = subdir)
      then DirInfo (dir_name d) (dir_path_of d) (Some result) :: rest
      else d :: attach subdir result rest
  end.

(** Lines 1467-1474: the results are attached in the order of [subdirs]. *)
Definition attach_all (results : list (string * listing)) (ds : list dir_info)
  : list dir_info :=
  foldl (fun ds '(subdir, result) => attach subdir result ds) ds results.

(** [await asyncio.gather] of the tasks: the results come in the order of
    the tasks.  The event loop may switch between the tasks wherever one
    waits; the embedding follows the schedule in which each task runs to
    its end before the next one starts, so the order of the requests of
    different tasks in the log is that of this schedule only. *)
Fixpoint gather {A : Type} (task : string -> io A) (args : list string) : io (list A) :=
  match args with
  | [] => ret []
  | arg :: rest =>
      await result <~ task arg in
      await results <~ gather task rest in
      ret (result :: results)
  end.

(** Lines 1333-1481.  The subdirectories are processed one after the
    other in the order of [subdirs].  [max_depth] only takes the values 2, 1 (and the 0
    of the guard), so it is a natural number here; [max_depth <= 0] is
    the case [O]. *)
Fixpoint process_directory (dir_path : string) (max_depth : nat) : io listing :=
  match max_depth with
  | O => ret (Note "Max depth reached")
  | S depth =>
      try_except
        (let url := GITHUB_URL +:+ "/tree/main/" +:+ dir_path in
         await '(code, html) <~ client_get url in
         if decide (code = 404)
         then ret (Failed ("Directory not found: " +:+ dir_path))
         else
           await _ <~ raise_for_status code url in
           let '(fs, ds, subdirs) := scan_page dir_path (parse E html) in
           if (1 <? max_depth)%nat then
             await subdir_results <~
               gather (fun subdir => process_directory subdir depth) subdirs in
             ret (Listing fs (attach_all (zip subdirs subdir_results) ds) dir_path)
           else ret (Listing fs ds dir_path))
        (fun e => ret (Failed ("Error processing directory " +:+ dir_path +:+ ": " +:+ e)))
  end.

Definition entry_json (e : entry) : json :=
  JDict [("name", JString (entry_name e)); ("path", JString (entry_path e))].

Definition structure_json (s : structure) : json :=
  JDict (match structure_error s with
         | Some e => [("error", JString e)]
         | None => []
         end
         ++ [("files", JList (entry_json <$> files s));
             ("directories", JList (entry_json <$> directories s))]).

Definition file_json (f : file_info) : json :=
  JDict ([("name", JString (file_name f)); ("path", JString (file_path f));
          ("extension", JString (file_extension f))]
         ++ match file_url f with Some u => [("url", JString u)] | None => [] end).

Fixpoint listing_json (l : listing) : json :=
  match l with
  | Note note => JDict [("note", JString note)]
  | Failed e => JDict [("error", JString e)]
  | Listing fs ds path =>
      JDict [("files", JList (map file_json fs));
             ("directories", JList (map dir_json ds));
             ("path", JString path)]
  end
with dir_json (d : dir_info) : json :=
  match d with
  | DirInfo name path contents =>
      JDict ([("name", JString name); ("path", JString path)]
             ++ match contents with
                | Some l => [("contents", listing_json l)]
                | None => []
                end)
  end.

Definition structure_key_dirs : list string := ["examples"; "src"; "docs"; "tests"].

(** Lines 1484-1497: the key directories, each with the default
    [max_depth=2]. *)
Definition process_all (dirs : list string) : io (list (string * listing)) :=
  await results <~ gather (fun dir_name => process_directory dir_name 2) dirs in
  ret (zip dirs results).

Definition list_github_structure : io reply :=
  try_except
    (await root0 <~ get_github_structure in
     let root_structure :=
       match structure_error root0 with
       | Some _ => Structure None [] ((fun d => Entry d d) <$> structure_key_dirs)
       | None => root0
       end in
     await dir_structures <~ process_all structure_key_dirs in
     ret (Dumps (JDict
       [("repository", JString "openai/openai-agents-python");
        ("url", JString GITHUB_URL);
        ("root", structure_json root_structure);
        ("directories", JDict (prod_map id listing_json <$> dir_structures));
        ("summary", JDict
           [("total_root_files", JInt (Z.of_nat (length (files root_structure))));
            ("total_root_directories",
              JInt (Z.of_nat (length (directories root_structure))));
            ("explored_directories", JStrings (dir_structures.*1))])])))
    (fun e => ret (Text ("Error retrieving GitHub repository structure: " +:+ e))).

End Server.

(** ** The other tools *)

Section Tools.

Variable E : collaborators.

(** *** Lines 1189-1195: [get_github_file] *)
Definition get_github_file (path : string) : io string :=
  try_except (fetch_github_file E path)
             (fun e => ret ("Error retrieving GitHub file: " +:+ e)).

(** *** Lines 1199-1217: [get_doc_index] *)
Definition get_doc_index : io reply :=
  try_except
    (await content <~ fetch_doc_page E DOCS_URL in
     ret (Dumps (JList (site_pages (parse E content)))))
    (fun e => ret (Text ("Error retrieving documentation index: " +:+ e))).

(** *** Lines 976-1050 of [get_api_docs]: the headings and their sections *)

(** [name in heading_tags], then [int(name[1])]. *)
Definition tag_level (name : string) : option Z :=
  if bool_decide (name ∈ heading_tags) then
    match name with
    | String _ (String c _) => Py.int_of_char c
    | _ => None
    end
  else None.

(** Lines 1001-1004: a heading of the same or a higher rank. *)
Definition api_boundary (heading_level : Z) (current : node) : bool :=
  match node_name current with
  | Some name =>
      match tag_level name with
      | Some current_level => bool_decide (current_level <= heading_level)
      | None => false
      end
  | None => false
  end.

(** [current.name == 'pre' or current.name == 'code'] *)
Definition is_code (current : node) : bool :=
  is_tag "pre" current || is_tag "code" current.

(** Lines 1006-1012: what a node adds to [(content, code_examples)]. *)
Definition api_step (st : list string * list string) (current : node)
  : list string * list string :=
  if is_code current then (st.1, st.2 ++ [get_text_strip current])
  else (st.1 ++ node_content current, st.2).

(** Lines 1000-1014. *)
Fixpoint api_walk (heading_level : Z) (siblings : list node)
    (st : list string * list string) : list string * list string :=
  match siblings with
  | [] => st
  | current :: rest =>
      if negb (node_truthy current) then st
      else if api_boundary heading_level current then st
      else api_walk heading_level rest (api_step st current)
  end.

(** Lines 1030-1041: the same over the children of the enclosing [div]. *)
Fixpoint api_walk_children (heading_level : Z) (children : list node)
    (st : list string * list string) : list string * list string :=
  match children with
  | [] => st
  | child :: rest =>
      if api_boundary heading_level child then st
      else api_walk_children heading_level rest (api_step st child)
  end.

(** Lines 996-1041: the section below one heading. *)
Definition api_extract (heading : element) (heading_level : Z)
  : list string * list string :=
  let st := api_walk heading_level (next_siblings heading) ([], []) in
  match st.1 with
  | [] =>
      match find_parent_div (parents heading) with
      | Some parent_div =>
          match children_after (el heading) (node_contents parent_div) with
          | Some children => api_walk_children heading_level children st
          | None => st
          end
      | None => st
      end
  | _ => st
  end.

(** Line 983. *)
Definition api_heading_matches (query : string) (query_terms : list string)
    (heading : element) : bool :=
  let heading_text := Py.lower (Py.strip (get_text (el heading))) in
  Py.contains query heading_text
  || existsb (fun term => Py.contains term heading_text) query_terms.

(** Lines 977-988: the headings found, each with its level. *)
Definition api_found_elements (doc : soup) (query : string) (query_terms : list string)
  : list (element * Z) :=
  flat_map (fun '(tag, level) =>
      (fun heading => (heading, level))
      <$> filter (fun heading => api_heading_matches query query_terms heading = true)
                 (find_all tag doc))
    [("h1", 1); ("h2", 2); ("h3", 3); ("h4", 4); ("h5", 5); ("h6", 6)].

(** Lines 991-1050: the entries of [results["matches"]]. *)
Definition api_matches (doc : soup) (query : string) (query_terms : list string)
    (api_doc_url : string) : list json :=
  flat_map (fun '(heading, level) =>
      let '(content, code_examples) := api_extract heading level in
      match content, code_examples with
      | [], [] => []
      | _, _ =>
          [JDict [("heading", JString (Py.strip (get_text (el heading))));
                  ("content", JString (Py.join newline content));
                  ("code_examples", JStrings code_examples);
                  ("url", JString (api_doc_url +:+ "#" +:+ get_attr "id" (el heading)))]]
      end)
    (api_found_elements doc query query_terms).

(** *** Lines 714, 741, ... of [get_code_examples]: the content shown *)

(** [content[:1500] + ("..." if len(content) > 1500 else "")] *)
Definition example_content (content : string) : string :=
  Py.slice content 0 1500 +:+ (if 1500 <? Py.len content then "..." else "").

(** *** Lines 1529-1678: [run_diagnostics] *)

(** One entry of [key_pages] or [key_sections], or [raw_access]: the status
    code of the answer, or the error of the request. *)
Inductive probe : Type :=
| Probed (name url : string) (status_code : Z)
| ProbeFailed (name url error : string).

(** The ["available"] key of an entry. *)
Definition available (p : probe) : bool :=
  match p with
  | Probed _ _ code => bool_decide (code = 200)
  | ProbeFailed _ _ _ => false
  end.

(** What is known of one subsystem: the status code of its main page, the
    entries, the ["health"] counts and status, and the raw access when it
    is probed; or the error that ended the check. *)
Inductive subsystem : Type :=
| Examined (main_status : Z) (entries : list probe)
           (available_count total_checked : nat) (status : string)
           (raw_access : option probe)
| Unreachable (error : string).

Record report : Type := Report {
  diagnostics_run_at : string;
  documentation : subsystem;
  github : subsystem;
  doc_cache_entries : nat;
  github_cache_entries : nat;
  overall_health : string;
  report_errors : list string
}.

(** What the tool returns: [json.dumps(results)] or the message of the
    outer handler. *)
Inductive diagnosis : Type :=
| Diagnosis (results : report)
| DiagnosisError (message : string).

(** Lines 1557-1572 and 1605-1620: one request, its answer or its error. *)
Definition probe_page (name url : string) : io probe :=
  try_except
    (await '(code, _) <~ client_get E url in ret (Probed name url code))
    (fun e => ret (ProbeFailed name url e)).

(** The loop over the entries, one probe after the other. *)
Fixpoint probe_all (url_of : string -> string) (names : list string) : io (list probe) :=
  match names with
  | [] => ret []
  | name :: rest =>
      await p <~ probe_page name (url_of name) in
      await ps <~ probe_all url_of rest in
      ret (p :: ps)
  end.

(** Lines 1577-1583 and 1625-1631. *)
Definition health_status (available_count total_checked : nat) : string :=
  if (available_count =? total_checked)%nat then "good"
  else if (0 <? available_count)%nat then "degraded" else "down".

Definition count_available (entries : list probe) : nat :=
  length (filter (fun p => available p = true) entries).

Definition key_pages : list string :=
  ["index.html"; "api_reference.html"; "get_started.html"; "concepts.html"].
Definition key_sections : list string :=
  ["tree/main/examples"; "tree/main/src"; "tree/main/docs"].

(** Lines 1542-1587: returns the subsystem and what it adds to [errors]. *)
Definition check_documentation : io (subsystem * list string) :=
  try_except
    (await '(code, _) <~ client_get E DOCS_URL in
     await page_results <~ probe_all (fun page => urljoin E DOCS_URL page) key_pages in
     let available_pages := count_available page_results in
     ret (Examined code page_results available_pages (length key_pages)
                   (health_status available_pages (length key_pages)) None, []))
    (fun e => ret (Unreachable e, ["Documentation check error: " +:+ e])).

(** Lines 1590-1650. *)
Definition check_github : io (subsystem * list string) :=
  try_except
    (await '(code, _) <~ client_get E GITHUB_URL in
     await section_results <~
       probe_all (fun section => GITHUB_URL +:+ "/" +:+ section) key_sections in
     let available_sections := count_available section_results in
     await raw <~ probe_page "README.md" (RAW_GITHUB_URL +:+ "README.md") in
     ret (Examined code section_results available_sections (length key_sections)
                   (health_status available_sections (length key_sections)) (Some raw), []))
    (fun e => ret (Unreachable e, ["GitHub check error: " +:+ e])).

(** [results[...].get("health", {}).get("status", "unknown")] *)
Definition subsystem_status (s : subsystem) : string :=
  match s with
  | Examined _ _ _ _ status _ => status
  | Unreachable _ => "unknown"
  end.

(** Lines 1662-1669. *)
Definition overall (doc_status github_status : string) : string :=
  if bool_decide (doc_status = "good") && bool_decide (github_status = "good") then "good"
  else if bool_decide (doc_status = "down") && bool_decide (github_status = "down")
       then "down"
  else if bool_decide (doc_status = "unknown") && bool_decide (github_status = "unknown")
       then "unknown"
  else "degraded".

(** The clock is a parameter: [now] is [str(datetime.datetime.now())]. *)
Definition run_diagnostics (now : string) : io diagnosis :=
  try_except
    (await '(docs, doc_errors) <~ check_documentation in
     await '(repo, repo_errors) <~ check_github in
     fun w =>
       (Return (Diagnosis
          (Report now docs repo (size (doc_cache w)) (size (github_cache w))
                  (overall (subsystem_status docs) (subsystem_status repo))
                  (doc_errors ++ repo_errors))), w))
    (fun e => ret (DiagnosisError ("Error running diagnostics: " +:+ e))).

(** *** Lines 1118-1151 of [get_api_docs]: the definition found in a file *)

(** [str(n)] *)
Definition str_of_int (n : Z) : string :=
  DecimalString.NilZero.string_of_int (Z.to_int n).

(** [len(line) - len(line.lstrip())] *)
Definition indentation_of (line : string) : Z :=
  Py.len line - Py.len (Py.lstrip line).

(** [f"class {name}" in text or f"def {name}" in text] *)
Definition defines (class_or_function text : string) : bool :=
  Py.contains ("class " +:+ class_or_function) text
  || Py.contains ("def " +:+ class_or_function) text.

(** Lines 1125-1128: the index of the first line that names the
    definition, counted from [i]; [-1] when there is none. *)
Fixpoint definition_start_from (class_or_function : string) (lines : list string) (i : Z)
  : Z :=
  match lines with
  | [] => -1
  | line :: rest =>
      if defines class_or_function line then i
      else definition_start_from class_or_function rest (i + 1)
  end.

(** Lines 1139-1145: the lines that follow, as long as they are blank or
    indented deeper. *)
Fixpoint definition_body (indentation : Z) (lines : list string) : list string :=
  match lines with
  | [] => []
  | line :: rest =>
      if bool_decide (Py.strip line = EmptyString) || (indentation <? indentation_of line)
      then line :: definition_body indentation rest
      else []
  end.

(** Lines 1118-1145: [definition_start] and [definition_content], when
    the file holds the definition. *)
Definition source_definition (class_or_function file_content : string)
  : option (Z * list string) :=
  if defines class_or_function file_content then
    let lines := Py.split_on (ascii_of_nat 10) file_content in
    let definition_start := definition_start_from class_or_function lines 0 in
    if 0 <=? definition_start then
      match drop (Z.to_nat definition_start) lines with
      | first :: rest =>
          Some (definition_start, first :: definition_body (indentation_of first) rest)
      | [] => None
      end
    else None
  else None.

(** Lines 1147-1151: what the file adds to [source_results]. *)
Definition source_result (class_or_function file_path file_content : string) : list json :=
  match source_definition class_or_function file_content with
  | Some (definition_start, definition_content) =>
      [JDict [("source_file", JString file_path);
              ("url", JString (GITHUB_URL +:+ "/blob/main/" +:+ file_path +:+ "#L"
                               +:+ str_of_int (definition_start + 1)));
              ("definition", JString (Py.join newline definition_content))]]
  | None => []
  end.

(** *** Lines 684-935: [get_code_examples] *)

(** One entry of [examples]. *)
Record example : Type := Example {
  example_path : string;
  example_url : string;
  example_text : string;
  example_matched_by : string
}.

(** Lines 711-716 and the like: the entry of a file. *)
Definition new_example (path content matched_by : string) : example :=
  Example path (GITHUB_URL +:+ "/blob/main/" +:+ path) (example_content content)
          matched_by.

(** [any(ex.get("path") == path for ex in examples)] *)
Definition listed (path : string) (examples : list example) : bool :=
  bool_decide (path ∈ example_path <$> examples).

(** [if not any(...): examples.append({...})] *)
Definition add_example (path content matched_by : string) (examples : list example)
  : list example :=
  if listed path examples then examples
  else examples ++ [new_example path content matched_by].

(** [for x in l: ...] over a state that the body updates. *)
Fixpoint for_each {A S : Type} (body : S -> A -> io S) (l : list A) (st : S) : io S :=
  match l with
  | [] => ret st
  | x :: rest => await st' <~ body st x in for_each body rest st'
  end.

(** Lines 704-707: [json.loads] of what [search_files] returned, and the
    paths under ["matches"].  A message of [search_files] is no JSON
    ([None] stands for [JSONDecodeError]); the JSON of [search_files] is an
    object whose ["matches"], when present, is a list of objects that hold
    a string under ["path"]. *)
Definition matched_paths (search_files_result : reply) : option (list string) :=
  match search_files_result with
  | Text _ => None
  | Dumps result_data =>
      Some match json_get "matches" result_data with
           | Some (JList file_matches) =>
               (fun file_match =>
                  match json_get "path" file_match with
                  | Some (JString path) => path
                  | _ => EmptyString
                  end) <$> file_matches
           | _ => []
           end
  end.

(** Lines 706-718: one match of [search_files].  The state of the loops
    is [(examples, search_errors)]. *)
Definition add_match (term : string) (st : list example * list string) (path : string)
  : io (list example * list string) :=
  if (Py.endswith path ".py" || Py.endswith path ".md" || Py.endswith path ".ipynb")
     && negb (listed path st.1)
  then
    try_except
      (await content <~ fetch_github_file E path in
       ret (st.1 ++ [new_example path content ("filename contains '" +:+ term +:+ "'")],
            st.2))
      (fun e => ret (st.1, st.2 ++ ["Error fetching file " +:+ path +:+ ": " +:+ e]))
  else ret st.

(** Lines 700-720: one term of the topic. *)
Definition search_term (st : list example * list string) (term : string)
  : io (list example * list string) :=
  if 3 <=? Py.len term then
    await search_files_result <~ search_files E term in
    match matched_paths search_files_result with
    | Some paths => for_each (add_match term) paths st
    | None =>
        ret (st.1, st.2 ++ ["Error parsing search_files result for term '"
                            +:+ term +:+ "'"])
    end
  else ret st.

(** Lines 698-722.  Every exception of the loop is handled inside it, so
    the handler of line 721 finds the two lists as they were at entry. *)
Definition by_filename (topic_terms : list string) (st : list example * list string)
  : io (list example * list string) :=
  try_except (for_each search_term topic_terms st)
             (fun e => ret (st.1, st.2 ++ ["Error using search_files: " +:+ e])).

(** Lines 725-732. *)
Definition common_example_files (topic : string) : list string :=
  ["examples/" +:+ topic +:+ ".py";
   "examples/" +:+ topic +:+ "_example.py";
   "examples/" +:+ Py.replace topic "-" "_" +:+ ".py";
   "examples/" +:+ Py.replace topic "_" "-" +:+ ".py";
   "src/agents/examples/" +:+ topic +:+ ".py";
   "docs/examples/" +:+ topic +:+ ".py"].

(** Lines 734-745 and 901-912: a path that is tried as it is. *)
Definition add_direct (matched_by : string) (st : list example * list string)
    (path : string) : io (list example * list string) :=
  try_except
    (await content <~ fetch_github_file E path in
     ret (add_example path content matched_by st.1, st.2))
    (fun _ => ret st).

(** Lines 758-791: one row of the page of [examples]. *)
Definition examples_row (topic_terms : list string) (st : list example * list string)
    (item : node) : io (list example * list string) :=
  try_except
    (match head (select_in (sel_attr "a" "data-pjax") item) with
     | None => ret st
     | Some link =>
         let file_name := Py.lower (get_text_strip link) in
         let file_path := Py.replace (get_attr "href" link) blob_prefix "" in
         if any_term file_name topic_terms && is_text_file file_path then
           await file_content <~ fetch_github_file E file_path in
           ret (add_example file_path file_content
                  "filename in examples directory contains topic term" st.1, st.2)
         else if is_text_file file_path then
           await file_content <~ fetch_github_file E file_path in
           if any_term (Py.lower file_content) topic_terms then
             ret (add_example file_path file_content
                    "content in examples directory contains topic term" st.1, st.2)
           else ret st
         else ret st
     end)
    (fun e => ret (st.1, st.2 ++ ["Error processing example file: " +:+ e])).

(** Lines 748-793.  The rows handle their own exceptions, so the handler
    of line 792 is reached only before the first row. *)
Definition examples_directory (topic_terms : list string)
    (st : list example * list string) : io (list example * list string) :=
  try_except
    (let url := GITHUB_URL +:+ "/tree/main/examples" in
     await '(code, html) <~ client_get E url in
     await _ <~ raise_for_status E code url in
     for_each (examples_row topic_terms)
       (select (sel_class "div" "Box-row") (parse E html)) st)
    (fun e => ret (st.1, st.2 ++ ["Error accessing examples directory: " +:+ e])).

(** Lines 810-849: one row of the page of an additional directory. *)
Definition additional_row (topic_terms : list string) (dir_path : string)
    (st : list example * list string) (item : node) : io (list example * list string) :=
  try_except
    (match head (select_in (sel_attr "a" "data-pjax") item) with
     | None => ret st
     | Some link =>
         let file_name := Py.lower (get_text_strip link) in
         let file_path := Py.replace (get_attr "href" link) blob_prefix "" in
         if is_text_file file_path then
           try_except
             (await file_content <~ fetch_github_file E file_path in
              if any_term file_name topic_terms then
                ret (add_example file_path file_content
                       ("filename in " +:+ dir_path +:+ " contains topic term") st.1,
                     st.2)
              else if any_term (Py.lower file_content) topic_terms then
                ret (add_example file_path file_content
                       ("content in " +:+ dir_path +:+ " contains topic term") st.1,
                     st.2)
              else ret st)
             (fun e => ret (st.1, st.2 ++ ["Error fetching/processing file "
                                           +:+ file_path +:+ ": " +:+ e]))
         else ret st
     end)
    (fun e => ret (st.1, st.2 ++ ["Error processing file in " +:+ dir_path
                                  +:+ ": " +:+ e])).

Definition additional_example_dirs : list string :=
  ["src/agents/examples"; "docs/examples"; "tests"].

(** Lines 797-851: one additional directory; its handler too is reached
    only before the first row. *)
Definition additional_directory (topic_terms : list string)
    (st : list example * list string) (dir_path : string)
  : io (list example * list string) :=
  try_except
    (let url := GITHUB_URL +:+ "/tree/main/" +:+ dir_path in
     await '(code, html) <~ client_get E url in
     if decide (code = 404) then ret st
     else
       await _ <~ raise_for_status E code url in
       for_each (additional_row topic_terms dir_path)
         (select (sel_class "div" "Box-row") (parse E html)) st)
    (fun e => ret (st.1, st.2 ++ ["Error accessing directory " +:+ dir_path
                                  +:+ ": " +:+ e])).

(** Lines 864-888: one row of the page of [src/agents]. *)
Definition core_row (topic_terms : list string) (st : list example * list string)
    (item : node) : io (list example * list string) :=
  try_except
    (match head (select_in (sel_attr "a" "data-pjax") item) with
     | None => ret st
     | Some link =>
         let file_path := Py.replace (get_attr "href" link) blob_prefix "" in
         if Py.endswith file_path ".py" then
           try_except
             (await file_content <~ fetch_github_file E file_path in
              if any_term (Py.lower file_content) topic_terms then
                ret (add_example file_path file_content
                       "content match in core source file" st.1, st.2)
              else ret st)
             (fun e => ret (st.1, st.2 ++ ["Error fetching/processing file "
                                           +:+ file_path +:+ ": " +:+ e]))
         else ret st
     end)
    (fun e => ret (st.1, st.2 ++ ["Error processing file in src/agents: " +:+ e])).

(** Lines 854-890, with the handler as for the other directories. *)
Definition core_directory (topic_terms : list string) (st : list example * list string)
  : io (list example * list string) :=
  try_except
    (let url := GITHUB_URL +:+ "/tree/main/src/agents" in
     await '(code, html) <~ client_get E url in
     if decide (code = 404) then ret st
     else
       await _ <~ raise_for_status E code url in
       for_each (core_row topic_terms)
         (select (sel_class "div" "Box-row") (parse E html)) st)
    (fun e => ret (st.1, st.2 ++ ["Error accessing src/agents directory: " +:+ e])).

(** Lines 894-899. *)
Definition specific_handoff_files : list string :=
  ["examples/agent_patterns/agents_with_handoffs.py";
   "examples/handoffs.py";
   "src/agents/handoffs.py";
   "examples/agent_patterns/triage.py"].

(** Lines 697-912: the searches, in the order of the source; returns
    [(examples, search_errors)]. *)
Definition collect_examples (topic : string) (topic_terms : list string)
  : io (list example * list string) :=
  await st <~ by_filename topic_terms ([], []) in
  await st <~ for_each (add_direct "direct path match") (common_example_files topic) st in
  await st <~ examples_directory topic_terms st in
  await st <~ for_each (additional_directory topic_terms) additional_example_dirs st in
  await st <~ core_directory topic_terms st in
  if Py.contains "handoff" (Py.lower topic)
  then for_each (add_direct "direct handoff file match") specific_handoff_files st
  else ret st.

Definition example_json (ex : example) : json :=
  JDict [("path", JString (example_path ex));
         ("url", JString (example_url ex));
         ("content", JString (example_text ex));
         ("matched_by", JString (example_matched_by ex))].

Definition get_code_examples (topic : string) : io reply :=
  try_except
    (let topic := Py.lower (Py.strip topic) in
     if negb (Py.truthy topic)
     then ret (Text "Please provide a topic to search for code examples.")
     else
       let topic_terms := Py.split topic in
       await '(examples, search_errors) <~ collect_examples topic topic_terms in
       let debug_info :=
         JDict [("search_topic", JString topic);
                ("search_terms", JStrings topic_terms);
                ("errors", errors_or_none search_errors)] in
       match examples with
       | [] =>
           ret (Dumps (JDict
             [("error", JString ("No code examples found for '" +:+ topic
                 +:+ "'. Try a different search term or check the documentation and GitHub repository directly."));
              ("debug_info", debug_info)]))
       | _ =>
           ret (Dumps (JDict [("examples", JList (example_json <$> examples));
                              ("debug_info", debug_info)]))
       end)
    (fun e => ret (Text ("Error retrieving code examples: " +:+ e))).

(** *** Lines 939-1185: [get_api_docs] *)

(** A node with the siblings before it, nearest first, and after it. *)
Record placed : Type := Placed {
  placed_node : node;
  previous_siblings : list node;
  following_siblings : list node
}.

Fixpoint placed_of (before : list node) (n : node) (after : list node) : list placed :=
  Placed n before after ::
  match n with
  | NavigableString _ | Comment _ => []
  | Tag _ _ _ cs =>
      (fix go (before : list node) (l : list node) : list placed :=
         match l with
         | [] => []
         | c :: l' => placed_of before c l' ++ go (c :: before) l'
         end) [] cs
  end.

Fixpoint placed_in (before : list node) (l : list node) : list placed :=
  match l with
  | [] => []
  | c :: l' => placed_of before c l' ++ placed_in (c :: before) l'
  end.

(** [soup.find_all(['p', 'div', 'span', 'a'])] *)
Definition context_candidates (doc : soup) : list placed :=
  filter (fun e => match node_name (placed_node e) with
                   | Some name => bool_decide (name ∈ ["p"; "div"; "span"; "a"])
                   | None => false
                   end = true)
         (placed_in [] doc).

(** Lines 1062-1068 and 1075-1081: the texts of up to three siblings in
    the order of the walk, which ends at a node that is false. *)
Fixpoint context_walk (steps : nat) (siblings : list node) : list string :=
  match steps, siblings with
  | S steps', current :: rest =>
      if node_truthy current then
        match current with
        | Tag _ _ _ _ =>
            if Py.truthy (Py.strip (get_text current))
            then [Py.strip (get_text current)] else []
        | NavigableString _ | Comment _ => []
        end ++ context_walk steps' rest
      else []
  | _, _ => []
  end.

(** Lines 1058-1082: [context_elements] of an element. *)
Definition context_elements (e : placed) : list string :=
  rev (context_walk 3 (previous_siblings e))
  ++ [Py.strip (get_text (placed_node e))]
  ++ context_walk 3 (following_siblings e).

(** Lines 1053-1089: the first element whose text holds the query. *)
Definition api_context (doc : soup) (query api_doc_url : string) : list json :=
  match filter (fun e => Py.contains query (Py.lower (get_text (placed_node e))) = true)
               (context_candidates doc) with
  | e :: _ =>
      [JDict [("content", JString (Py.join newline (context_elements e)));
              ("url", JString api_doc_url);
              ("note", JString "Found in content but not as a specific API item")]]
  | [] => []
  end.

(** Lines 1107-1153: one row of the page of a source directory. *)
Definition source_row (class_or_function : string) (source_results : list json)
    (item : node) : io (list json) :=
  match head (select_in (sel_attr "a" "data-pjax") item) with
  | None => ret source_results
  | Some link =>
      let file_path := Py.replace (get_attr "href" link) blob_prefix "" in
      if Py.endswith file_path ".py" then
        try_except
          (await file_content <~ fetch_github_file E file_path in
           ret (source_results ++ source_result class_or_function file_path file_content))
          (fun _ => ret source_results)
      else ret source_results
  end.

Definition api_source_dirs : list string := ["src/agents"; "src"; "openai"].

(** Lines 1097-1155: one source directory.  A row handles the exceptions
    of its file, so the handler of line 1154 is reached only before the
    first row. *)
Definition source_directory (class_or_function : string) (source_results : list json)
    (dir_path : string) : io (list json) :=
  try_except
    (let url := GITHUB_URL +:+ "/tree/main/" +:+ dir_path in
     await '(code, html) <~ client_get E url in
     if decide (code = 404) then ret source_results
     else
       await _ <~ raise_for_status E code url in
       for_each (source_row class_or_function)
         (select (sel_class "div" "Box-row") (parse E html)) source_results)
    (fun _ => ret source_results).

(** Lines 1166-1173: what the search of the documentation adds to
    [results].  A message of [search_docs] is no JSON and is kept as it
    is; its JSON is kept unless it is an object with an ["error"]. *)
Definition documentation_search (search_results : reply) : list (string * json) :=
  match search_results with
  | Text message => [("documentation_search", JString message)]
  | Dumps (JDict d) =>
      match dict_get "error" d with
      | Some _ => []
      | None => [("documentation_search", JDict d)]
      end
  | Dumps doc_results => [("documentation_search", doc_results)]
  end.

Definition get_api_docs (class_or_function : string) : io reply :=
  try_except
    (let class_or_function := Py.strip class_or_function in
     if negb (Py.truthy class_or_function)
     then ret (Text "Please provide a class or function name to look up.")
     else
       let query := Py.lower class_or_function in
       let query_terms := Py.split query in
       let api_doc_url := urljoin E DOCS_URL "api_reference.html" in
       await '(code, html) <~ client_get E api_doc_url in
       if decide (code = 404) then
         ret (Dumps (JDict
           [("error", JString "API reference page not found. The documentation structure might have changed.");
            ("query", JString class_or_function)]))
       else
         await _ <~ raise_for_status E code api_doc_url in
         let doc := parse E html in
         let matches :=
           match api_matches doc query query_terms api_doc_url with
           | [] => api_context doc query api_doc_url
           | found => found
           end in
         await source <~
           try_except
             (await source_results <~
                for_each (source_directory class_or_function) api_source_dirs [] in
              match source_results with
              | [] => ret []
              | _ => ret [("source_code", JList source_results)]
              end)
             (fun e => ret [("source_error", JString e)]) in
         await searched <~
           match matches, dict_get "source_code" source with
           | [], None =>
               await search_results <~ search_docs E class_or_function in
               ret (documentation_search search_results)
           | _, _ => ret []
           end in
         match matches, dict_get "source_code" source, searched with
         | [], None, [] =>
             ret (Dumps (JDict
               [("error", JString ("Could not find API documentation for '"
                   +:+ class_or_function
                   +:+ "'. Try checking the full documentation or using a different search term."));
                ("query", JString class_or_function)]))
         | _, _, _ =>
             ret (Dumps (JDict ([("query", JString class_or_function);
                                 ("matches", JList matches)]
                                ++ source ++ searched)))
         end)
    (fun e => ret (Text ("Error retrieving API documentation: " +:+ e))).

End Tools.

(** ** Sample inputs *)

(** A space, a tab, the no-break space U+00A0 and the control U+0085. *)
Definition white_space : string :=
  String " " (String (ascii_of_nat 9)
    (String (ascii_of_nat 160) (String (ascii_of_nat 133) EmptyString))).

(** [c * n] *)
Fixpoint fill (c : ascii) (n : nat) : string :=
  match n with
  | O => EmptyString
  | S n' => String c (fill c n')
  end.

(** A document of 305 characters with the word at offset 150. *)
Definition long_document : string := fill "x" 150 +:+ "Agent" +:+ fill "y" 150.

Definition empty_world : world := World ∅ ∅ [].

(** A status check that raises on 4xx and 5xx. *)
Definition http_error (code : Z) (url : string) : option string :=
  if 400 <=? code then Some ("HTTP error for url '" +:+ url +:+ "'") else None.

(** Joining a base that ends in a slash with a plain relative name. *)
Definition join_plain (base url : string) : string :=
  if Py.startswith url "http" then url else base +:+ url.

(** No network at all: every request fails. *)
Definition offline : collaborators :=
  Collaborators (fun _ _ => ConnectError "All connection attempts failed")
                http_error join_plain (fun _ => []).

(** A site every page of which has the same markup, parsed to [doc]. *)
Definition site_of (doc : soup) : collaborators :=
  Collaborators (fun _ _ => Response 200 "<html>") http_error join_plain (fun _ => doc).

Definition nl : node := NavigableString newline.
Definition heading (tag : string) (line : nat) (text : string) : node :=
  Tag tag [] line [NavigableString text].
Definition para (line : nat) (text : string) : node :=
  Tag "p" [] line [NavigableString text].

(** A page with one paragraph, and the site and world around it. *)
Definition welcome_page : soup := [para 1 "Welcome to the SDK."; nl].
Definition welcome_site : collaborators := site_of welcome_page.

(** [<h2>Setup</h2> <p>Install it.</p> <h1>Setup guide</h1> <p>More.</p>],
    one element per line. *)
Definition setup_page : soup :=
  [heading "h2" 1 "Setup"; nl; para 2 "Install it."; nl;
   heading "h1" 3 "Setup guide"; nl; para 4 "More."; nl].

(** [<h2>Usage</h2> <p>First.</p> <hr> <p>Second.</p> <h2>Next</h2>
    <p>Other.</p>], one element per line. *)
Definition rule_page : soup :=
  [heading "h2" 1 "Usage"; nl; para 2 "First."; nl; Tag "hr" [] 3 []; nl;
   para 4 "Second."; nl; heading "h2" 5 "Next"; nl; para 6 "Other."; nl].

(** The same page without the rule. *)
Definition plain_page : soup :=
  [heading "h2" 1 "Usage"; nl; para 2 "First."; nl;
   para 4 "Second."; nl; heading "h2" 5 "Next"; nl; para 6 "Other."; nl].

(** [<h2>Usage</h2> <p>Run it:</p> <pre>agent.run()</pre> <h2>Next</h2>],
    one element per line. *)
Definition code_page : soup :=
  [heading "h2" 1 "Usage"; nl; para 2 "Run it:"; nl;
   Tag "pre" [] 3 [NavigableString "agent.run()"]; nl; heading "h2" 4 "Next"; nl].

(** The same page when the section is the last one. *)
Definition code_page_last : soup :=
  [heading "h2" 1 "Usage"; nl; para 2 "Run it:"; nl;
   Tag "pre" [] 3 [NavigableString "agent.run()"]; nl].

(** A row of the file explorer: an icon with its label and the link. *)
Definition listing_row (label href text : string) : node :=
  Tag "div" [("class", "Box-row")] 1
    [Tag "svg" [("aria-label", label)] 1 [];
     Tag "a" [("data-pjax", "#repo-content-pjax-container"); ("href", href)] 1
       [NavigableString text]].

Definition file_row_of (dir name : string) : node :=
  listing_row "File" (blob_prefix +:+ dir +:+ "/" +:+ name) name.
Definition dir_row_of (dir name : string) : node :=
  listing_row "Directory" (tree_prefix +:+ dir +:+ "/" +:+ name) name.

(** A repository where [src] holds [a.py] and [examples/], [src/examples]
    holds [b.py] and [nested/], and [src/examples/nested] holds [c.py] and
    [deeper/].  The body of a page is its address. *)
Definition crawl_pages (body : string) : soup :=
  if decide (body = GITHUB_URL +:+ "/tree/main/src") then
    [file_row_of "src" "a.py"; dir_row_of "src" "examples"]
  else if decide (body = GITHUB_URL +:+ "/tree/main/src/examples") then
    [file_row_of "src/examples" "b.py"; dir_row_of "src/examples" "nested"]
  else if decide (body = GITHUB_URL +:+ "/tree/main/src/examples/nested") then
    [file_row_of "src/examples/nested" "c.py"; dir_row_of "src/examples/nested" "deeper"]
  else [].

Definition crawl_site : collaborators :=
  Collaborators (fun _ url => Response 200 url) http_error join_plain crawl_pages.

(** Does the note of the depth limit appear anywhere in a listing? *)
Fixpoint has_note (l : listing) : bool :=
  match l with
  | Note _ => true
  | Failed _ => false
  | Listing _ ds _ =>
      existsb (fun d => match d with
                        | DirInfo _ _ (Some contents) => has_note contents
                        | DirInfo _ _ None => false
                        end) ds
  end.

(** The markup of a main page with one link into the site and one out of
    it, and what the parser makes of it; any other text parses to itself. *)
Definition index_markup : string := "<a href=agents.html>Agents</a> <a href=https://example.com/>Elsewhere</a>".
Definition index_page : soup :=
  [Tag "a" [("href", "agents.html")] 1 [NavigableString "Agents"];
   NavigableString " ";
   Tag "a" [("href", "https://example.com/")] 1 [NavigableString "Elsewhere"]].
Definition index_parse (markup : string) : soup :=
  if decide (markup = index_markup) then index_page else [NavigableString markup].

(** A site that serves only its main page. *)
Definition index_site : collaborators :=
  Collaborators (fun _ url => if decide (url = DOCS_URL) then Response 200 index_markup
                              else Response 404 EmptyString)
                http_error join_plain index_parse.

(** A source file with a class of two methods between an import and a
    function. *)
Definition agent_source : string :=
  Py.join newline
    ["import asyncio"; "class Agent:"; "    def run(self):"; "        pass"; "";
     "    def stop(self):"; "        pass"; "def helper():"; "    pass"].

(** A repository with the one file [examples/handoffs.py]: its raw file
    and the page of [examples] that lists it.  Every other page is empty,
    every other raw file is missing, and the body of an answer is its
    address. *)
Definition handoffs_site : collaborators :=
  Collaborators
    (fun _ url =>
       if Py.startswith url RAW_GITHUB_URL
          && negb (bool_decide (url = RAW_GITHUB_URL +:+ "examples/handoffs.py"))
       then Response 404 url else Response 200 url)
    http_error join_plain
    (fun body => if decide (body = GITHUB_URL +:+ "/tree/main/examples")
                 then [file_row_of "examples" "handoffs.py"] else []).

(** A page whose section "Usage" opens with a comment:
    [<h2>Usage</h2><!-- hidden --><p>First.</p>], then a line break and the
    next heading. *)
Definition comment_page : soup :=
  [heading "h2" 1 "Usage"; Comment " hidden "; para 1 "First."; nl;
   heading "h2" 2 "Next"; nl; para 3 "Other."; nl].

(** A main page whose text shows the markup of two links to the same
    page, as a page does that quotes HTML: the markup of the page, its text,
    and what the parser makes of each; any other text parses to itself. *)
Definition twice_markup : string :=
  "<main>&lt;a href=agents.html&gt;Agents&lt;/a&gt; &lt;a href=agents.html&gt;More&lt;/a&gt;</main>".
Definition twice_text : string :=
  "<a href=agents.html>Agents</a> <a href=agents.html>More</a>".
Definition twice_parse (markup : string) : soup :=
  if decide (markup = twice_markup) then [Tag "main" [] 1 [NavigableString twice_text]]
  else if decide (markup = twice_text) then
    [Tag "a" [("href", "agents.html")] 1 [NavigableString "Agents"];
     NavigableString " ";
     Tag "a" [("href", "agents.html")] 1 [NavigableString "More"]]
  else [NavigableString markup].

(** The site of that main page; every other page reads "Agents run tools.". *)
Definition twice_site : collaborators :=
  Collaborators (fun _ url => if decide (url = DOCS_URL) then Response 200 twice_markup
                              else Response 200 "Agents run tools.")
                http_error join_plain twice_parse.

(** Joining a base that ends in a slash with a relative name, as
    [urljoin] does when the name ends in an empty fragment: the "#" is
    dropped. *)
Definition join_defrag (base url : string) : string :=
  if Py.startswith url "http" then url
  else if Py.endswith url "#"
       then base +:+ Py.take (String.length url - 1) url
       else base +:+ url.

(** The site of [plain_page] with that join. *)
Definition fragment_site : collaborators :=
  Collaborators (fun _ _ => Response 200 "<html>") http_error join_defrag
                (fun _ => plain_page).

(** ** Notions used by the statements *)

(** A string made only of white space, or empty. *)
Fixpoint blank (s : string) : bool :=
  match s with
  | EmptyString => true
  | String c s' => Py.isspace c && blank s'
  end.

(** A node the walk passes: it is true and it is not a boundary. *)
Definition passed (heading_level : Z) (n : node) : Prop :=
  node_truthy n = true /\ is_boundary heading_level n = Return false.

(** A directory entry without contents. *)
Definition plain (d : dir_info) : Prop := dir_contents d = None.

Definition dir_has_note (d : dir_info) : bool :=
  match d with
  | DirInfo _ _ (Some contents) => has_note contents
  | DirInfo _ _ None => false
  end.

(** What holds after a coroutine has run from [w]: [Q] of its value and the
    new world when it returns, [R] of the exception and the new world when
    it raises. *)
Definition post {A : Type} (m : io A) (w : world)
    (Q : A -> world -> Prop) (R : string -> world -> Prop) : Prop :=
  match m w with
  | (Return a, w') => Q a w'
  | (Raise e, w') => R e w'
  end.

(** What one visit of a page adds to the results of [search_docs], seen
    from the cache at the end of the loop: the search of the text cached
    for the page, or nothing. *)
Definition page_hit (E : collaborators) (query_terms : list string)
    (cache : gmap string string) (link : string) (hit : list json) : Prop :=
  hit = []
  \/ exists content,
       cache !! urljoin E DOCS_URL link = Some content
       /\ hit = search_page query_terms (urljoin E DOCS_URL link) link content.

(** The same for a file of [search_github]. *)
Definition file_hit (query_terms : list string) (cache : gmap string string)
    (path : string) (hit : list json) : Prop :=
  hit = []
  \/ exists content,
       cache !! path = Some content /\ hit = search_file query_terms path content.

(** The same for a row of a directory page, which names its file by the
    first link with [data-pjax]. *)
Definition row_hit (query_terms : list string) (cache : gmap string string)
    (item : node) (hit : list json) : Prop :=
  hit = []
  \/ exists link,
       head (select_in (sel_attr "a" "data-pjax") item) = Some link
       /\ file_hit query_terms cache (Py.replace (get_attr "href" link) blob_prefix "") hit.

(** No term of the query occurs in a text. *)
Definition silent (query_terms : list string) (content : string) : Prop :=
  any_term (Py.lower content) query_terms = false.

(** Every cached text is silent. *)
Definition cache_silent (query_terms : list string) (cache : gmap string string) : Prop :=
  forall key content, cache !! key = Some content -> silent query_terms content.

(** Every page the site can serve has a silent text. *)
Definition docs_silent (E : collaborators) (query_terms : list string) : Prop :=
  forall log url code body,
    http_get E log url = Response code body ->
    silent query_terms (page_text (parse E body)).

(** Every raw file the repository can serve is silent. *)
Definition repo_silent (E : collaborators) (query_terms : list string) : Prop :=
  forall log path code body,
    http_get E log (urljoin E RAW_GITHUB_URL path) = Response code body ->
    silent query_terms body.

(** No file name that a page of the network lists contains the pattern:
    neither a file of the root listing nor the link of a row. *)
Definition names_silent (E : collaborators) (filename_pattern : string) : Prop :=
  forall log url code body,
    http_get E log url = Response code body ->
    (forall file, file ∈ files (root_structure_of (parse E body)) ->
                  Py.contains filename_pattern (Py.lower (entry_name file)) = false)
    /\ (forall item link,
           item ∈ select (sel_class "div" "Box-row") (parse E body) ->
           head (select_in (sel_attr "a" "data-pjax") item) = Some link ->
           Py.contains filename_pattern (Py.lower (get_text_strip link)) = false).

(** The invariant of the loops of [search_github]: nothing found so far,
    and a silent cache. *)
Definition nothing_found (query_terms : list string)
    (acc : list json * list string) (w : world) : Prop :=
  acc.1 = [] /\ cache_silent query_terms (github_cache w).

(** The invariant of the loops of [search_files]: no match so far. *)
Definition no_match (acc : list json * list string) (_ : world) : Prop := acc.1 = [].

(** One world grows into another: cached entries stay as they are, and the
    log of requests is extended. *)
Definition extends (w w' : world) : Prop :=
  doc_cache w ⊆ doc_cache w'
  /\ github_cache w ⊆ github_cache w'
  /\ requests w `prefix_of` requests w'.

(** A coroutine under which the world only grows. *)
Definition grows {A : Type} (m : io A) : Prop := forall w, extends w (m w).2.

(** A coroutine that never raises. *)
Definition returns {A : Type} (m : io A) : Prop :=
  forall w, post m w (fun _ _ => True) (fun _ _ => False).

(** The tags that are headings for [get_api_docs], with their levels. *)
Definition heading_levels : list (string * Z) :=
  [("h1", 1); ("h2", 2); ("h3", 3); ("h4", 4); ("h5", 5); ("h6", 6)].

(** A node the walk of [get_api_docs] passes. *)
Definition api_passed (heading_level : Z) (n : node) : Prop :=
  node_truthy n = true /\ api_boundary heading_level n = false.

(** The prose and the code of a run of nodes, as [get_api_docs] tells them
    apart. *)
Definition prose_of (nodes : list node) : list string :=
  flat_map node_content (filter (fun n => is_code n = false) nodes).
Definition code_of (nodes : list node) : list string :=
  get_text_strip <$> filter (fun n => is_code n = true) nodes.

(** The address of a directory page. *)
Definition tree_url (dir_path : string) : string :=
  GITHUB_URL +:+ "/tree/main/" +:+ dir_path.

(** What the scan of a page keeps true: every listed path is below the
    directory, and every subdirectory to visit is a listed directory. *)
Definition scan_ok (dir_path : string) (st : scan) : Prop :=
  Forall (fun f => Py.startswith (file_path f) (dir_path +:+ "/") = true) st.1.1
  /\ Forall (fun d => Py.startswith (dir_path_of d) (dir_path +:+ "/") = true) st.1.2
  /\ Forall (fun subdir => subdir ∈ dir_path_of <$> st.1.2) st.2.

(** The requests of one check of [run_diagnostics]: the main page and,
    when it answered, the entries. *)
Definition check_requests (main : string) (entries : list string) (s : subsystem)
  : list string :=
  main :: match s with Examined _ _ _ _ _ _ => entries | Unreachable _ => [] end.

(** Every entry of a subsystem that was examined is available; none is. *)
Definition all_available (s : subsystem) : Prop :=
  match s with
  | Examined _ entries _ _ _ _ => Forall (fun p => available p = true) entries
  | Unreachable _ => False
  end.
Definition none_available (s : subsystem) : Prop :=
  match s with
  | Examined _ entries _ _ _ _ => Forall (fun p => available p = false) entries
  | Unreachable _ => False
  end.
Definition unreachable (s : subsystem) : Prop :=
  match s with Examined _ _ _ _ _ _ => False | Unreachable _ => True end.

(** What holds of every list of examples: no two entries share a path,
    no content is longer than 1503 characters, and the address of an
    entry is that of its path. *)
Definition examples_ok (examples : list example) : Prop :=
  NoDup (example_path <$> examples)
  /\ Forall (fun ex => Py.len (example_text ex) <= 1503
                       /\ example_url ex
                          = GITHUB_URL +:+ "/blob/main/" +:+ example_path ex) examples.

(** A search step that, when it returns, returns such a list; [P] is what
    is known when it raises. *)
Definition keeps (P : Prop) (m : io (list example * list string)) : Prop :=
  forall w, post m w (fun st _ => examples_ok st.1) (fun _ _ => P).

(** The page of a directory whose path has at most three components. *)
Definition shallow_page (url : string) : Prop :=
  exists dir_path, url = tree_url dir_path /\ within_depth dir_path = true.

(** From [w] to [w'] the caches stayed as they were and only such pages
    were requested. *)
Definition only_pages (w w' : world) : Prop :=
  doc_cache w' = doc_cache w /\ github_cache w' = github_cache w
  /\ exists sent, requests w' = requests w ++ sent /\ Forall shallow_page sent.

(** An entry of [matches] for a pattern: the entry of a file whose
    lowercased name holds the pattern. *)
Definition names_match (filename_pattern : string) (m : json) : Prop :=
  exists name path,
    m = file_match name path /\ Py.contains filename_pattern (Py.lower name) = true.

(** The invariant of the loops of [search_files]: every match so far is
    such an entry. *)
Definition all_match (filename_pattern : string)
    (acc : list json * list string) (_ : world) : Prop :=
  Forall (names_match filename_pattern) acc.1.

(** * Properties *)

(** ** Strings *)

(** The white space among the 256 characters, and the characters that
    [lower] changes, each by 32. *)
Example isspace_table :
  List.filter (fun n => Py.isspace (ascii_of_nat n)) (seq 0 256)
  = [9; 10; 11; 12; 13; 28; 29; 30; 31; 32; 133; 160]%nat.
Proof. by vm_compute. Qed.
Example lower_table :
  List.filter (fun n => negb (nat_of_ascii (Py.lower_char (ascii_of_nat n)) =? n)%nat)
    (seq 0 256)
  = (seq 65 26 ++ seq 192 23 ++ seq 216 7)%list
  /\ forallb (fun n => (nat_of_ascii (Py.lower_char (ascii_of_nat n)) =? n + 32)%nat)
       (seq 65 26 ++ seq 192 23 ++ seq 216 7) = true.
Proof. split; by vm_compute. Qed.
Example lower_example : Py.lower "Hello World-9" = "hello world-9".
Proof. reflexivity. Qed.
Example strip_example : Py.strip "  a b  " = "a b".
Proof. reflexivity. Qed.
Example split_example : Py.split " Run  the agent " = ["Run"; "the"; "agent"].
Proof. reflexivity. Qed.
Example find_example : Py.find "abcabc" "ca" = 2 /\ Py.find "abcabc" "x" = -1.
Proof. split; reflexivity. Qed.
Example slice_example : Py.slice "abcdef" 2 4 = "cd" /\ Py.slice "abcdef" (-2) 99 = "ef".
Proof. split; reflexivity. Qed.
Example replace_example :
  Py.replace "/openai/openai-agents-python/blob/main/src/a.py"
             "/openai/openai-agents-python/blob/main/" "" = "src/a.py".
Proof. reflexivity. Qed.
Example split_on_example : Py.split_on "/" "src/agents/x" = ["src"; "agents"; "x"].
Proof. reflexivity. Qed.
Example endswith_example :
  Py.endswith "index.html" ".html" = true /\ Py.endswith DOCS_URL ".html" = false.
Proof. split; reflexivity. Qed.
Example join_example : Py.join ", " ["a"; "b"; "c"] = "a, b, c".
Proof. reflexivity. Qed.

Section StringFacts.

Implicit Types s sub p : string.

Lemma len_nonneg s : 0 <= Py.len s.
Proof. unfold Py.len. lia. Qed.

Lemma length_take n s : String.length (Py.take n s) = (n `min` String.length s)%nat.
Proof.
  revert s. induction n as [|n IH]; intros [|c s]; simpl; try done.
  by rewrite IH.
Qed.

Lemma length_drop n s : String.length (Py.drop n s) = (String.length s - n)%nat.
Proof.
  revert s. induction n as [|n IH]; intros [|c s]; simpl; try done.
Qed.

Lemma length_append s1 s2 :
  String.length (s1 +:+ s2) = (String.length s1 + String.length s2)%nat.
Proof. induction s1 as [|c s1 IH]; simpl; [done|]. by rewrite IH. Qed.

Lemma take_all n s : (String.length s <= n)%nat -> Py.take n s = s.
Proof.
  revert s. induction n as [|n IH]; intros [|c s] H; simpl in *; try done; [lia|].
  f_equal. apply IH. lia.
Qed.

Lemma drop_drop n m s : Py.drop n (Py.drop m s) = Py.drop (m + n) s.
Proof.
  revert s. induction m as [|m IH]; intros s; simpl; [done|].
  destruct s as [|c s]; [by destruct n|]. apply IH.
Qed.

Lemma drop_all n s : (String.length s <= n)%nat -> Py.drop n s = EmptyString.
Proof.
  revert s. induction n as [|n IH]; intros [|c s] H; simpl in *; try done; [lia|].
  apply IH. lia.
Qed.

Lemma take_empty n : Py.take n EmptyString = EmptyString.
Proof. by destruct n. Qed.

(** A cut that ends after the part looked at does not change that part. *)
Lemma take_drop_take t d n s :
  (d + t <= n)%nat -> Py.take t (Py.drop d (Py.take n s)) = Py.take t (Py.drop d s).
Proof.
  revert n s. induction d as [|d IH]; intros n s H; simpl.
  - revert n s H. induction t as [|t IH]; intros n s H; simpl; [done|].
    destruct n as [|n]; [lia|]. destruct s as [|c s]; simpl; [done|].
    f_equal. apply IH. lia.
  - destruct n as [|n]; [lia|]. destruct s as [|c s]; simpl.
    + by rewrite !take_empty.
    + apply IH. lia.
Qed.

Lemma startswith_length s p :
  Py.startswith s p = true -> (String.length p <= String.length s)%nat.
Proof.
  revert s. induction p as [|a p IH]; intros [|b s]; simpl; try done; try lia.
  case_decide; [|done]. intros Hs%IH. lia.
Qed.

(** [find_from] returns the first position where [sub] starts. *)
Lemma find_from_spec s sub i :
  match Py.contains sub s with
  | true =>
      exists k : nat,
        Py.find_from s sub i = i + Z.of_nat k
        /\ Py.startswith (Py.drop k s) sub = true
        /\ (k + String.length sub <= String.length s)%nat
        /\ forall j : nat, (j < k)%nat -> Py.startswith (Py.drop j s) sub = false
  | false => Py.find_from s sub i = -1
  end.
Proof.
  revert i. induction s as [|c s IH]; intros i.
  - cbn [Py.contains Py.find_from].
    destruct (Py.startswith "" sub) eqn:Hp; cbn [orb]; [|done].
    exists O. split_and!; [lia|done| |intros; lia].
    apply startswith_length in Hp. simpl in *. lia.
  - cbn [Py.contains Py.find_from].
    destruct (Py.startswith (String c s) sub) eqn:Hp; cbn [orb].
    + exists O. split_and!; [lia|done| |intros; lia].
      apply startswith_length in Hp. simpl in *. lia.
    + specialize (IH (i + 1)). destruct (Py.contains sub s); [|done].
      destruct IH as (k & Hk & Hs & Hl & Hmin).
      exists (S k). split_and!; [lia|done|simpl; lia|].
      intros [|j] Hj; [done|]. simpl. apply Hmin. lia.
Qed.

Lemma find_spec s sub :
  Py.contains sub s = true ->
  exists k : nat,
    Py.find s sub = Z.of_nat k
    /\ Py.startswith (Py.drop k s) sub = true
    /\ (k + String.length sub <= String.length s)%nat
    /\ forall j : nat, (j < k)%nat -> Py.startswith (Py.drop j s) sub = false.
Proof.
  intros H. pose proof (find_from_spec s sub 0) as Hf. rewrite H in Hf.
  destruct Hf as (k & Hk & ?). exists k. by rewrite <- (Z.add_0_l (Z.of_nat k)).
Qed.

Lemma find_absent s sub : Py.contains sub s = false -> Py.find s sub = -1.
Proof.
  intros H. pose proof (find_from_spec s sub 0) as Hf. by rewrite H in Hf.
Qed.

(** A slice between two positions of the string. *)
Lemma slice_inside s a b :
  0 <= a <= b -> b <= Py.len s ->
  Py.slice s a b = Py.take (Z.to_nat (b - a)) (Py.drop (Z.to_nat a) s).
Proof.
  intros Ha Hb. unfold Py.slice, Py.bound.
  destruct (Z.ltb_spec a 0), (Z.ltb_spec b 0); try lia.
  by rewrite !Z.min_l by lia.
Qed.

Lemma len_slice_inside s a b :
  0 <= a <= b -> b <= Py.len s -> Py.len (Py.slice s a b) = b - a.
Proof.
  intros Ha Hb. rewrite slice_inside by done. unfold Py.len in *.
  rewrite length_take, length_drop. lia.
Qed.

(** A slice between two bounds that are not negative, wherever they lie. *)
Lemma slice_nonneg s a b :
  0 <= a -> 0 <= b ->
  Py.slice s a b = Py.take (Z.to_nat (b - a)) (Py.drop (Z.to_nat a) s).
Proof.
  intros Ha Hb. unfold Py.slice, Py.bound.
  destruct (Z.ltb_spec a 0), (Z.ltb_spec b 0); try lia.
  destruct (Z.le_gt_cases a (Py.len s)) as [Hin|Hout].
  - rewrite (Z.min_l a) by lia.
    destruct (Z.le_gt_cases b (Py.len s)) as [Hb'|Hb'].
    + by rewrite Z.min_l by lia.
    + rewrite Z.min_r by lia. rewrite !take_all; [done| |];
        rewrite length_drop; unfold Py.len in *; lia.
  - rewrite (Z.min_r a) by lia.
    rewrite !(drop_all _ s) by (unfold Py.len in *; lia).
    by rewrite !take_empty.
Qed.

Lemma lstrip_blank s : blank s = true -> Py.lstrip s = EmptyString.
Proof.
  induction s as [|c s IH]; simpl; [done|].
  intros [Hc Hs]%andb_prop. rewrite Hc. auto.
Qed.

Lemma strip_blank s : blank s = true -> Py.strip s = EmptyString.
Proof. intros H. unfold Py.strip. by rewrite lstrip_blank. Qed.

Lemma rstrip_empty s : Py.rstrip s = EmptyString -> blank s = true.
Proof.
  induction s as [|c s IH]; simpl; [done|].
  destruct (Py.rstrip s); [|done].
  destruct (Py.isspace c); [|done]. intros _. by rewrite IH.
Qed.

Lemma lstrip_blank_inv s : blank (Py.lstrip s) = true -> blank s = true.
Proof.
  induction s as [|c s IH]; simpl; [done|].
  destruct (Py.isspace c) eqn:Hc; [done|]. simpl. by rewrite Hc.
Qed.

Lemma strip_empty_iff s : Py.strip s = EmptyString <-> blank s = true.
Proof.
  split; [|apply strip_blank].
  intros H. apply lstrip_blank_inv, rstrip_empty, H.
Qed.

End StringFacts.

(** ** A program logic for the coroutines *)

Section ProgramLogic.

Context {A B : Type}.
Implicit Types (Q : A -> world -> Prop) (R : string -> world -> Prop).

Lemma post_ret (a : A) w Q R : Q a w -> post (ret a) w Q R.
Proof. done. Qed.

Lemma post_bind (m : io B) (k : B -> io A) w Q R :
  post m w (fun b w' => post (k b) w' Q R) R -> post (bind m k) w Q R.
Proof. unfold post, bind. by destruct (m w) as [[b|e] w']. Qed.

Lemma post_try (m : io A) (h : string -> io A) w Q R :
  post m w Q (fun e w' => post (h e) w' Q R) -> post (try_except m h) w Q R.
Proof. unfold post, try_except. by destruct (m w) as [[a|e] w']. Qed.

Lemma post_mono (m : io A) w Q R Q' R' :
  post m w Q R ->
  (forall a w', Q a w' -> Q' a w') ->
  (forall e w', R e w' -> R' e w') ->
  post m w Q' R'.
Proof. unfold post. destruct (m w) as [[a|e] w']; auto. Qed.

End ProgramLogic.

(** ** The search engine *)

Section SearchFacts.

Variable E : collaborators.

Lemma first_term_spec low query_terms :
  match first_term low query_terms with
  | Some term =>
      Py.contains term low = true
      /\ exists before after,
           query_terms = before ++ term :: after
           /\ Forall (fun t => Py.contains t low = false) before
  | None => Forall (fun t => Py.contains t low = false) query_terms
  end.
Proof.
  induction query_terms as [|t ts IH]; simpl; [done|].
  destruct (Py.contains t low) eqn:Ht.
  - split; [done|]. by exists [], ts.
  - destruct (first_term low ts) as [term|].
    + destruct IH as (Hc & before & after & -> & Hb).
      split; [done|]. exists (t :: before), after. split; [done|]. by constructor.
    + by constructor.
Qed.

Lemma any_term_first low query_terms :
  any_term low query_terms = bool_decide (is_Some (first_term low query_terms)).
Proof.
  unfold any_term. induction query_terms as [|t ts IH]; simpl; [done|].
  by destruct (Py.contains t low).
Qed.

Lemma search_page_first query_terms url title content :
  search_page query_terms url title content =
  match first_term (Py.lower content) query_terms with
  | Some term =>
      [JDict [("url", JString url); ("title", JString title);
              ("snippet", JString (snippet_field content term))]]
  | None => []
  end.
Proof.
  unfold search_page. rewrite any_term_first.
  by destruct (first_term _ _).
Qed.

Lemma search_file_first query_terms path content :
  search_file query_terms path content =
  match first_term (Py.lower content) query_terms with
  | Some term =>
      [JDict [("path", JString path);
              ("url", JString (GITHUB_URL +:+ "/blob/main/" +:+ path));
              ("snippet", JString (snippet_field content term));
              ("matched_term", JString term)]]
  | None => []
  end.
Proof.
  unfold search_file. rewrite any_term_first.
  by destruct (first_term _ _).
Qed.

(** C1 (as amended).  The excerpt is built around the offset [i] that
    [find] returns for the lowercased document, an offset that is not
    negative whenever the term occurs there.  For every such offset, with
    [N] the length of the document itself, the excerpt is the part of the
    document from [max(0, i - 100)] to [min(N, i + len(term) + 100)], empty
    when the first lies beyond the second: it has at most [200 + len(term)]
    characters, it is a prefix of the document when [i <= 100], it runs to
    the end of the document when [i + len(term) + 100 >= N], the characters
    of the document from [i] to [i + len(term)] stand in it at offset
    [i - max(0, i - 100)] when they exist, and the reported field adds
    three dots on each side. *)
Theorem snippet_window (content term : string) (i : Z) :
  0 <= i ->
  let N := Py.len content in
  let start := Z.max 0 (i - 100) in
  let stop := Z.min N (i + Py.len term + 100) in
  snippet_at content term i
  = Py.take (Z.to_nat (stop - start)) (Py.drop (Z.to_nat start) content)
  /\ Py.len (snippet_at content term i) = Z.max 0 (stop - start)
  /\ Py.len (snippet_at content term i) <= 200 + Py.len term
  /\ (i <= 100 -> snippet_at content term i = Py.take (Z.to_nat stop) content)
  /\ (N <= i + Py.len term + 100 ->
      snippet_at content term i = Py.drop (Z.to_nat start) content)
  /\ (i + Py.len term <= N ->
      Py.slice (snippet_at content term i) (i - start) (i - start + Py.len term)
      = Py.slice content i (i + Py.len term))
  /\ snippet content term = snippet_at content term (Py.find (Py.lower content) term)
  /\ (Py.contains term (Py.lower content) = true ->
      0 <= Py.find (Py.lower content) term)
  /\ Py.len (snippet_field content term) = Py.len (snippet content term) + 6.
Proof.
  intros Hi. cbv zeta.
  set (N := Py.len content).
  assert (HN : N = Z.of_nat (String.length content)) by done.
  assert (Ht : Py.len term = Z.of_nat (String.length term)) by done.
  assert (Hs : snippet_at content term i
               = Py.take (Z.to_nat (Z.min N (i + Py.len term + 100) - Z.max 0 (i - 100)))
                   (Py.drop (Z.to_nat (Z.max 0 (i - 100))) content)).
  { unfold snippet_at. fold N. apply slice_nonneg; lia. }
  assert (Hl : Py.len (snippet_at content term i)
               = Z.max 0 (Z.min N (i + Py.len term + 100) - Z.max 0 (i - 100))).
  { rewrite Hs. unfold Py.len. rewrite length_take, length_drop. lia. }
  split_and!; try lia; try done.
  - intros Hle. rewrite Hs. rewrite Z.max_l by lia. simpl. f_equal. lia.
  - intros Hle. rewrite Hs.
    destruct (Z.le_gt_cases (Z.max 0 (i - 100)) N) as [Hin|Hout].
    + apply take_all. rewrite length_drop. lia.
    + rewrite drop_all by lia. apply take_empty.
  - intros Hle.
    rewrite (slice_nonneg content) by lia.
    rewrite slice_nonneg by lia. rewrite Hs.
    replace (Z.to_nat (i - Z.max 0 (i - 100) + Py.len term - (i - Z.max 0 (i - 100))))
      with (String.length term) by lia.
    replace (Z.to_nat (i + Py.len term - i)) with (String.length term) by lia.
    rewrite take_drop_take by lia.
    rewrite drop_drop. f_equal. f_equal. lia.
  - intros Hin. destruct (find_spec _ _ Hin) as (k & -> & _). lia.
  - unfold snippet_field, Py.len. rewrite !length_append. simpl. lia.
Qed.

Lemma snippet_window_witness :
  0 <= Py.find (Py.lower "An Agent runs tools.") "agent"
  /\ Py.len (snippet "An Agent runs tools." "agent") <= 200 + Py.len "agent".
Proof.
  assert (H0 : 0 <= Py.find (Py.lower "An Agent runs tools.") "agent") by (by vm_compute).
  split; [exact H0|].
  exact (proj1 (proj2 (proj2 (snippet_window "An Agent runs tools." "agent" _ H0)))).
Defined.

(** C1, as stated, fails: a term of five characters found at offset 150 of
    a document of 305 characters gives an excerpt of 205 characters, and a
    reported snippet of 211. *)
Lemma snippet_longer_than_200 :
  Py.len long_document = 305
  /\ Py.find (Py.lower long_document) "agent" = 150
  /\ Py.len (snippet long_document "agent") = 205
  /\ search_page ["agent"] DOCS_URL "Main Page" long_document
     = [JDict [("url", JString DOCS_URL); ("title", JString "Main Page");
               ("snippet", JString ("..." +:+ fill "x" 100 +:+ "Agent" +:+ fill "y" 100
                                    +:+ "..."))]]
  /\ ~ (forall content term,
          Py.contains term (Py.lower content) = true ->
          Py.len (snippet content term) <= 200).
Proof.
  split_and!.
  - by vm_compute.
  - by vm_compute.
  - by vm_compute.
  - by vm_compute.
  - intros H. specialize (H long_document "agent" eq_refl).
    vm_compute in H. by apply H.
Qed.

(** A text that a fetch returns is in the cache afterwards, and no entry
    of the cache is lost or changed. *)
Lemma fetch_doc_page_cached url w :
  post (fetch_doc_page E url) w
    (fun content w' => doc_cache w' !! url = Some content /\ doc_cache w ⊆ doc_cache w')
    (fun _ w' => doc_cache w ⊆ doc_cache w').
Proof.
  unfold post, fetch_doc_page.
  destruct (doc_cache w !! url) as [content|] eqn:Hw; [done|].
  unfold bind, client_get, raise_for_status, ret, raise.
  destruct (http_get E (requests w) _) as [e|code html]; [done|].
  destruct (status_error E code _); [done|]. simpl.
  split; [by rewrite lookup_insert_eq|by apply insert_subseteq].
Qed.

Lemma fetch_github_file_cached path w :
  post (fetch_github_file E path) w
    (fun content w' =>
       github_cache w' !! path = Some content /\ github_cache w ⊆ github_cache w')
    (fun _ w' => github_cache w ⊆ github_cache w').
Proof.
  unfold post, fetch_github_file.
  destruct (github_cache w !! path) as [content|] eqn:Hw; [done|].
  unfold bind, client_get, raise_for_status, ret, raise.
  destruct (http_get E (requests w) _) as [e|code html]; [done|].
  destruct (status_error E code _); [done|]. simpl.
  split; [by rewrite lookup_insert_eq|by apply insert_subseteq].
Qed.

(** The loops of the two tools search one document per round, in the order
    of the list and without a look at the rounds before, and each round
    appends what the search of that document gives, or nothing when the
    fetch fails. *)
Lemma search_links_hits query_terms links results w :
  post (search_links E query_terms links results) w
    (fun results' w' =>
       doc_cache w ⊆ doc_cache w'
       /\ exists hits,
            results' = results ++ concat hits
            /\ Forall2 (page_hit E query_terms (doc_cache w')) links hits)
    (fun _ _ => False).
Proof.
  revert results w. induction links as [|link links IH]; intros results w; simpl.
  - apply post_ret. split; [done|]. exists []. split; [by rewrite app_nil_r|constructor].
  - apply post_bind. unfold post at 1, try_except, bind, ret.
    pose proof (fetch_doc_page_cached (urljoin E DOCS_URL link) w) as Hfetch.
    unfold post in Hfetch.
    destruct (fetch_doc_page E _ w) as [[content|e] w1].
    + destruct Hfetch as [Hin Hsub].
      eapply post_mono; [apply IH| |done].
      intros results' w' (Hsub' & hits & -> & Hhits). split; [by etrans|].
      exists (search_page query_terms (urljoin E DOCS_URL link) link content :: hits).
      split; [by rewrite <- app_assoc|]. constructor; [|done].
      right. exists content. split; [|done]. by eapply lookup_weaken.
    + eapply post_mono; [apply IH| |done].
      intros results' w' (Hsub' & hits & -> & Hhits). split; [by etrans|].
      exists ([] :: hits).
      split; [done|]. constructor; [by left|done].
Qed.

Lemma search_root_files_hits query_terms fs acc w :
  post (search_root_files E query_terms fs acc) w
    (fun acc' w' =>
       github_cache w ⊆ github_cache w'
       /\ exists hits,
            acc'.1 = acc.1 ++ concat hits
            /\ Forall2 (fun file => file_hit query_terms (github_cache w') (entry_path file))
                       fs hits)
    (fun _ _ => False).
Proof.
  revert acc w. induction fs as [|file fs IH]; intros acc w; simpl.
  - apply post_ret. split; [done|]. exists []. split; [by rewrite app_nil_r|constructor].
  - apply post_bind. unfold post at 1, try_except, bind, ret.
    destruct (Py.truthy (entry_path file)); simpl.
    + pose proof (fetch_github_file_cached (entry_path file) w) as Hfetch.
      unfold post in Hfetch.
      destruct (fetch_github_file E _ w) as [[content|e] w1].
      * destruct Hfetch as [Hin Hsub].
        eapply post_mono; [apply IH| |done].
        intros acc' w' (Hsub' & hits & -> & Hhits). simpl. split; [by etrans|].
        exists (search_file query_terms (entry_path file) content :: hits).
        split; [by rewrite <- app_assoc|]. constructor; [|done].
        right. exists content. split; [|done]. by eapply lookup_weaken.
      * eapply post_mono; [apply IH| |done].
        intros acc' w' (Hsub' & hits & -> & Hhits). split; [by etrans|].
        exists ([] :: hits).
        split; [done|]. constructor; [by left|done].
    + eapply post_mono; [apply IH| |done].
      intros acc' w' (Hsub' & hits & -> & Hhits). split; [done|]. exists ([] :: hits).
      split; [done|]. constructor; [by left|done].
Qed.

Lemma search_rows_hits query_terms items acc w :
  post (search_rows E query_terms items acc) w
    (fun acc' w' =>
       github_cache w ⊆ github_cache w'
       /\ exists hits,
            acc'.1 = acc.1 ++ concat hits
            /\ Forall2 (row_hit query_terms (github_cache w')) items hits)
    (fun _ _ => False).
Proof.
  revert acc w. induction items as [|item items IH]; intros acc w; simpl.
  - apply post_ret. split; [done|]. exists []. split; [by rewrite app_nil_r|constructor].
  - assert (Hskip : forall acc w,
              post (search_rows E query_terms items acc) w
                (fun acc' w' =>
                   github_cache w ⊆ github_cache w'
                   /\ exists hits,
                        acc'.1 = acc.1 ++ concat hits
                        /\ Forall2 (row_hit query_terms (github_cache w'))
                                   (item :: items) hits)
                (fun _ _ => False)).
    { intros acc0 w0. eapply post_mono; [apply IH| |done].
      intros acc' w' (Hsub' & hits & -> & Hhits). split; [done|]. exists ([] :: hits).
      split; [done|]. constructor; [by left|done]. }
    destruct (head (select_in _ item)) as [link|] eqn:Hlink; [|apply Hskip].
    destruct (is_text_file _); [|apply Hskip].
    apply post_bind. unfold post at 1, try_except, bind, ret.
    pose proof (fetch_github_file_cached
                  (Py.replace (get_attr "href" link) blob_prefix "") w) as Hfetch.
    unfold post in Hfetch.
    destruct (fetch_github_file E _ w) as [[content|e] w1].
    + destruct Hfetch as [Hin Hsub].
      eapply post_mono; [apply IH| |done].
      intros acc' w' (Hsub' & hits & -> & Hhits). simpl. split; [by etrans|].
      eexists (search_file query_terms _ content :: hits).
      split; [by rewrite <- app_assoc|]. constructor; [|done].
      right. exists link. split; [done|]. right. exists content.
      split; [|done]. by eapply lookup_weaken.
    + eapply post_mono; [apply IH| |done].
      intros acc' w' (Hsub' & hits & -> & Hhits). split; [by etrans|].
      exists ([] :: hits).
      split; [done|]. constructor; [by left|done].
Qed.

(** C7 (as amended).  One visit of a document adds at most one result.  It
    is built around the first term of the query, in query order, that
    occurs in the lowercased document (no term before it occurs), and
    around the first occurrence of that term; when no term occurs nothing
    is added.  The loops of [search_docs] and [search_github] append, for
    each link, file or row of their list in turn, the result of the search
    of the text that the cache holds for it, or nothing: a page or a file
    that the list names twice is visited twice. *)
Theorem one_result_per_document
    (query_terms : list string) (url title path content : string) :
  (forall links results w,
      post (search_links E query_terms links results) w
        (fun results' w' =>
           exists hits,
             results' = results ++ concat hits
             /\ Forall2 (page_hit E query_terms (doc_cache w')) links hits)
        (fun _ _ => False))
  /\ (forall fs items acc w,
         post (search_root_files E query_terms fs acc) w
           (fun acc' w' =>
              exists hits,
                acc'.1 = acc.1 ++ concat hits
                /\ Forall2 (fun file =>
                              file_hit query_terms (github_cache w') (entry_path file))
                           fs hits)
           (fun _ _ => False)
         /\ post (search_rows E query_terms items acc) w
              (fun acc' w' =>
                 exists hits,
                   acc'.1 = acc.1 ++ concat hits
                   /\ Forall2 (row_hit query_terms (github_cache w')) items hits)
              (fun _ _ => False))
  /\ (length (search_page query_terms url title content) <= 1)%nat
  /\ (length (search_file query_terms path content) <= 1)%nat
  /\ match first_term (Py.lower content) query_terms with
     | Some term =>
         search_page query_terms url title content
         = [JDict [("url", JString url); ("title", JString title);
                   ("snippet", JString ("..." +:+ snippet content term +:+ "..."))]]
         /\ search_file query_terms path content
            = [JDict [("path", JString path);
                      ("url", JString (GITHUB_URL +:+ "/blob/main/" +:+ path));
                      ("snippet", JString ("..." +:+ snippet content term +:+ "..."));
                      ("matched_term", JString term)]]
         /\ Py.contains term (Py.lower content) = true
         /\ (exists before after,
               query_terms = before ++ term :: after
               /\ Forall (fun t => Py.contains t (Py.lower content) = false) before)
         /\ (exists k : nat,
               Py.find (Py.lower content) term = Z.of_nat k
               /\ snippet content term
                  = Py.slice content (Z.max 0 (Z.of_nat k - 100))
                      (Z.min (Py.len content) (Z.of_nat k + Py.len term + 100))
               /\ Py.startswith (Py.drop k (Py.lower content)) term = true
               /\ forall j : nat, (j < k)%nat ->
                    Py.startswith (Py.drop j (Py.lower content)) term = false)
     | None =>
         search_page query_terms url title content = []
         /\ search_file query_terms path content = []
         /\ Forall (fun t => Py.contains t (Py.lower content) = false) query_terms
     end.
Proof.
  split.
  { intros links results w. eapply post_mono; [apply search_links_hits| |done].
    intros results' w' (_ & hits & -> & Hhits). by exists hits. }
  split.
  { intros fs items acc w. split.
    - eapply post_mono; [apply search_root_files_hits| |done].
      intros acc' w' (_ & hits & -> & Hhits). by exists hits.
    - eapply post_mono; [apply search_rows_hits| |done].
      intros acc' w' (_ & hits & -> & Hhits). by exists hits. }
  rewrite search_page_first, search_file_first.
  pose proof (first_term_spec (Py.lower content) query_terms) as Hspec.
  destruct (first_term (Py.lower content) query_terms) as [term|].
  - destruct Hspec as [Hin Hfirst].
    split_and!; simpl; try lia; try done.
    destruct (find_spec _ _ Hin) as (k & Hk & Hpre & _ & Hmin).
    exists k. split_and!; try done.
    unfold snippet, snippet_at. by rewrite Hk.
  - split_and!; simpl; try lia; done.
Qed.

(** C8.  A query made only of white space, which is the same as one that
    is empty after trimming, is answered with the request for a query, and
    the world (both caches and the log of requests) is left as it was:
    nothing is fetched. *)
Theorem empty_query_rejected (query : string) (w : world) :
  blank query = true \/ Py.strip query = EmptyString ->
  blank query = true
  /\ Py.strip query = EmptyString
  /\ search_docs E query w = (Return (Text "Please provide a search query."), w)
  /\ search_github E query w = (Return (Text "Please provide a search query."), w).
Proof.
  intros Hq.
  assert (Hstrip : Py.strip query = EmptyString).
  { destruct Hq as [Hb|Hs]; [by apply strip_blank|done]. }
  split; [by apply strip_empty_iff|]. split; [done|].
  unfold search_docs, search_github. by rewrite Hstrip.
Qed.

End SearchFacts.

(** A query of a space, a tab, a no-break space and the control U+0085. *)
Lemma empty_query_rejected_witness :
  blank white_space = true
  /\ search_docs offline white_space empty_world
     = (Return (Text "Please provide a search query."), empty_world)
  /\ search_github offline white_space empty_world
     = (Return (Text "Please provide a search query."), empty_world).
Proof.
  split; [reflexivity|].
  apply (empty_query_rejected offline white_space empty_world). left. reflexivity.
Defined.

(** C7, as stated, fails: the links of the main page are not freed of
    duplicates, so a page that is linked twice is fetched once, searched
    twice and reported twice. *)
Lemma page_linked_twice_reported_twice :
  page_links (twice_parse twice_text) = ["agents.html"; "agents.html"]
  /\ (search_docs twice_site "tools" empty_world).1
     = Return (Dumps (JList
         [JDict [("url", JString "https://openai.github.io/openai-agents-python/agents.html");
                 ("title", JString "agents.html");
                 ("snippet", JString "...Agents run tools....")];
          JDict [("url", JString "https://openai.github.io/openai-agents-python/agents.html");
                 ("title", JString "agents.html");
                 ("snippet", JString "...Agents run tools....")]]))
  /\ requests (search_docs twice_site "tools" empty_world).2
     = [DOCS_URL; "https://openai.github.io/openai-agents-python/agents.html"].
Proof. split_and!; by vm_compute. Qed.

(** ** The two caches *)

Section CacheFacts.

Variable E : collaborators.

(** A request is logged and touches no cache. *)
Lemma client_get_log url w :
  requests (client_get E url w).2 = requests w ++ [url]
  /\ doc_cache (client_get E url w).2 = doc_cache w
  /\ github_cache (client_get E url w).2 = github_cache w.
Proof. unfold client_get. by destruct (http_get E (requests w) url). Qed.



End CacheFacts.


(** A failed fetch is tried again: without a network two calls send two
    requests and leave the cache empty. *)
Example failed_fetch_retried :
  let '(r1, w1) := fetch_github_file offline "README.md" empty_world in
  let '(r2, w2) := fetch_github_file offline "README.md" w1 in
  r1 = Raise "All connection attempts failed"
  /\ r2 = Raise "All connection attempts failed"
  /\ github_cache w2 = ∅
  /\ requests w2 = [RAW_GITHUB_URL +:+ "README.md"; RAW_GITHUB_URL +:+ "README.md"].
Proof. by vm_compute. Qed.

(** ** The section extractor *)

Section SectionFacts.

Variable E : collaborators.

Lemma truthy_nonempty s : s <> EmptyString -> Py.truthy s = true.
Proof. by destruct s. Qed.

(** C10 (as amended).  The address requested by [get_section] and
    [get_doc] is the page itself when it starts with "http", the page joined
    to the site otherwise.  The suffix ".html" is appended exactly when that
    address, not the page argument, does not end in ".html", and the request
    goes to the result.  In particular a full URL that does not end in
    ".html" is requested with ".html" appended. *)
Theorem html_suffix_appended (page : string) :
  page <> EmptyString ->
  let resolved := if Py.startswith page "http" then page else urljoin E DOCS_URL page in
  (Py.endswith resolved ".html" = false -> page_url E page = resolved +:+ ".html")
  /\ (Py.endswith resolved ".html" = true -> page_url E page = resolved)
  /\ (Py.startswith page "http" = true -> Py.endswith page ".html" = false ->
      page_url E page = page +:+ ".html")
  /\ (forall section w,
         section <> EmptyString ->
         requests (get_section E page section w).2 = requests w ++ [page_url E page])
  /\ (forall w,
         exists rest,
           requests (get_doc E page w).2 = requests w ++ page_url E page :: rest).
Proof.
  intros Hpage resolved.
  split_and!.
  - intros Hend. unfold page_url. fold resolved. by rewrite Hend.
  - intros Hend. unfold page_url. fold resolved. by rewrite Hend.
  - intros Hhttp Hend. unfold page_url. by rewrite Hhttp, Hend.
  - intros section w Hsection. unfold get_section.
    rewrite (truthy_nonempty page), (truthy_nonempty section) by done. simpl.
    unfold try_except, bind, client_get, raise_for_status, lift, ret, raise.
    destruct (http_get E (requests w) _) as [e|code html]; [done|].
    destruct (decide (code = 404)); [done|].
    destruct (status_error E code _); [done|].
    by destruct (extract_section _ _ _).
  - intros w. unfold get_doc.
    rewrite (truthy_nonempty page) by done. simpl.
    unfold try_except, bind, client_get, raise_for_status, ret, raise.
    destruct (http_get E (requests w) _) as [e|code html]; [by eexists|].
    destruct (decide (code = 404)).
    + simpl. destruct (http_get E _ DOCS_URL) as [e'|icode ihtml]; simpl.
      * eexists. by rewrite <- app_assoc.
      * destruct (status_error E icode _); simpl; eexists; by rewrite <- app_assoc.
    + destruct (status_error E code _); [by eexists|].
      destruct (main_content _); by eexists.
Qed.

End SectionFacts.

(** The site root, as the test client passes it to [get_section]. *)
Lemma html_suffix_appended_witness :
  DOCS_URL <> EmptyString
  /\ Py.endswith DOCS_URL ".html" = false
  /\ requests (get_section welcome_site DOCS_URL "installation" empty_world).2
     = ["https://openai.github.io/openai-agents-python/.html"].
Proof.
  split; [done|]. split; [reflexivity|].
  destruct (html_suffix_appended welcome_site DOCS_URL) as (_ & _ & _ & H & _); [done|].
  apply (H "installation" empty_world). done.
Defined.

(** C10, as stated, fails for a relative page: the page "agents.html#"
    does not end in ".html", but joined to the site it loses its empty
    fragment, the address ends in ".html", and nothing is appended. *)
Lemma empty_fragment_not_suffixed :
  "agents.html#" <> EmptyString
  /\ Py.endswith "agents.html#" ".html" = false
  /\ urljoin fragment_site DOCS_URL "agents.html#"
     = "https://openai.github.io/openai-agents-python/agents.html"
  /\ page_url fragment_site "agents.html#"
     = "https://openai.github.io/openai-agents-python/agents.html"
  /\ requests (get_section fragment_site "agents.html#" "Usage" empty_world).2
     = ["https://openai.github.io/openai-agents-python/agents.html"]
  /\ requests (get_doc fragment_site "agents.html#" empty_world).2
     = ["https://openai.github.io/openai-agents-python/agents.html"].
Proof. split_and!; by vm_compute. Qed.

(** *** The heading match *)

Lemma first_heading_spec section_lower headings :
  match first_heading section_lower headings with
  | Some h =>
      heading_matches section_lower h = true
      /\ exists before after,
           headings = before ++ h :: after
           /\ Forall (fun x => heading_matches section_lower x = false) before
  | None => Forall (fun x => heading_matches section_lower x = false) headings
  end.
Proof.
  induction headings as [|x xs IH]; simpl; [done|].
  destruct (heading_matches section_lower x) eqn:Hx.
  - split; [done|]. by exists [], xs.
  - destruct (first_heading section_lower xs) as [h|].
    + destruct IH as (Hm & before & after & -> & Hb).
      split; [done|]. exists (x :: before), after. split; [done|]. by constructor.
    + by constructor.
Qed.

Lemma exact_match_spec doc section_lower tags :
  match exact_match doc section_lower tags with
  | Some h =>
      heading_matches section_lower h = true
      /\ exists before after,
           flat_map (fun tag => find_all tag doc) tags = before ++ h :: after
           /\ Forall (fun x => heading_matches section_lower x = false) before
  | None =>
      Forall (fun x => heading_matches section_lower x = false)
             (flat_map (fun tag => find_all tag doc) tags)
  end.
Proof.
  induction tags as [|tag tags IH]; simpl; [done|].
  pose proof (first_heading_spec section_lower (find_all tag doc)) as Hf.
  destruct (first_heading section_lower (find_all tag doc)) as [h|].
  - destruct Hf as (Hm & before & after & -> & Hb).
    split; [done|]. exists before, (after ++ flat_map (fun tag => find_all tag doc) tags).
    split; [|done]. by rewrite <- app_assoc.
  - destruct (exact_match doc section_lower tags) as [h|].
    + destruct IH as (Hm & before & after & -> & Hb).
      split; [done|]. exists (find_all tag doc ++ before), after.
      split; [by rewrite <- app_assoc|]. by apply Forall_app.
    + by apply Forall_app.
Qed.

(** C2 (as amended).  The first phase scans the headings tag by tag, all
    [h1] first, then all [h2], and so on to [h6], each tag in document
    order, and accepts the first heading of that scan whose lowercased text
    contains (or is) the lowercased section name: no heading before it in
    the scan matches, and none is accepted when none matches. *)
Theorem exact_match_scan_order (doc : soup) (section_lower : string) :
  all_headings doc
  = find_all "h1" doc ++ find_all "h2" doc ++ find_all "h3" doc
    ++ find_all "h4" doc ++ find_all "h5" doc ++ find_all "h6" doc
  /\ (forall tag, sublist (find_all tag doc) (soup_elements doc))
  /\ match exact_match doc section_lower heading_tags with
     | Some h =>
         heading_matches section_lower h = true
         /\ exists before after,
              all_headings doc = before ++ h :: after
              /\ Forall (fun x => heading_matches section_lower x = false) before
     | None => Forall (fun x => heading_matches section_lower x = false) (all_headings doc)
     end.
Proof.
  split_and!.
  - unfold all_headings. simpl. by rewrite app_nil_r.
  - intros tag. apply sublist_filter.
  - apply exact_match_spec.
Qed.

(** C2, as stated, fails: on [setup_page] the [h2] "Setup" comes first in
    the document and matches "setup", yet the [h1] "Setup guide" that
    follows it is the heading chosen and reported. *)
Lemma later_heading_chosen :
  let early := Element (heading "h2" 1 "Setup") (tail setup_page) [] in
  let late := Element (heading "h1" 3 "Setup guide") (drop 5 setup_page) [] in
  (exists pre mid post, soup_elements setup_page = pre ++ early :: mid ++ late :: post)
  /\ heading_matches "setup" early = true
  /\ exact_match setup_page "setup" heading_tags = Some late
  /\ extract_section setup_page "Setup" "https://openai.github.io/openai-agents-python/guide.html"
     = Return (Dumps (JDict
         [("section", JString "Setup guide");
          ("content", JString "More.");
          ("code_examples", JList []);
          ("page_url", JString "https://openai.github.io/openai-agents-python/guide.html")])).
Proof.
  split_and!; [|by vm_compute..].
  exists [], [Element (NavigableString "Setup") [] [heading "h2" 1 "Setup"];
              Element nl (drop 2 setup_page) [];
              Element (para 2 "Install it.") (drop 3 setup_page) [];
              Element (NavigableString "Install it.") [] [para 2 "Install it."];
              Element nl (drop 4 setup_page) []],
         [Element (NavigableString "Setup guide") [] [heading "h1" 3 "Setup guide"];
          Element nl (drop 6 setup_page) [];
          Element (para 4 "More.") (drop 7 setup_page) [];
          Element (NavigableString "More.") [] [para 4 "More."];
          Element nl [] []].
  by vm_compute.
Qed.

(** *** The walk over the siblings *)

Lemma walk_siblings_app heading_level before rest content :
  Forall (passed heading_level) before ->
  walk_siblings heading_level (before ++ rest) content
  = walk_siblings heading_level rest (content ++ flat_map node_content before).
Proof.
  intros Hb. revert content.
  induction Hb as [|n before [Ht Hn] _ IH]; intros content; simpl.
  - by rewrite app_nil_r.
  - rewrite Ht, Hn. simpl. rewrite IH. by rewrite <- app_assoc.
Qed.

(** Away from the slip of [heading_digit], the walk is the boundary walk:
    it collects every sibling before the first heading of level at most
    [heading_level], and stops there or at the end. *)
Lemma walk_siblings_boundary heading_level before b after :
  Forall (passed heading_level) before ->
  is_boundary heading_level b = Return true ->
  walk_siblings heading_level (before ++ b :: after) []
  = Return (flat_map node_content before, Some b).
Proof.
  intros Hb Hbound. rewrite walk_siblings_app by done. simpl.
  rewrite Hbound.
  assert (node_truthy b = true) as ->; [|done].
  unfold is_boundary in Hbound. by destruct b as [| |[|? [|? [|]]]].
Qed.

Lemma walk_siblings_end heading_level before :
  Forall (passed heading_level) before ->
  walk_siblings heading_level before [] = Return (flat_map node_content before, None).
Proof.
  intros Hb. rewrite <- (app_nil_r before) at 1. by rewrite walk_siblings_app.
Qed.

(** [while current]: the walk also ends at a string or a comment that is
    empty, without a next heading. *)
Lemma walk_siblings_false heading_level before last after :
  Forall (passed heading_level) before ->
  node_truthy last = false ->
  walk_siblings heading_level (before ++ last :: after) []
  = Return (flat_map node_content before, None).
Proof.
  intros Hb Hlast. rewrite walk_siblings_app by done. simpl. by rewrite Hlast.
Qed.

Lemma section_code_examples_none doc found_heading :
  section_code_examples doc found_heading None = [].
Proof.
  unfold section_code_examples.
  induction (find_all "pre" doc) as [|cb cbs IH]; simpl; [done|].
  rewrite IH. by destruct (_ <? _)%nat.
Qed.

Lemma walk_siblings_grows heading_level siblings content result next_heading :
  walk_siblings heading_level siblings content = Return (result, next_heading) ->
  exists more, result = content ++ more.
Proof.
  revert content. induction siblings as [|n siblings IH]; intros content; simpl.
  - intros [= <- _]. exists []. by rewrite app_nil_r.
  - destruct (node_truthy n); simpl.
    + destruct (is_boundary heading_level n) as [[]|]; [| |done].
      * intros [= <- _]. exists []. by rewrite app_nil_r.
      * intros [more ->]%IH. exists (node_content n ++ more). by rewrite app_assoc.
    + intros [= <- _]. exists []. by rewrite app_nil_r.
Qed.

(** C3.  On [rule_page] the section "Usage" has a rule between its two
    paragraphs.  The walk takes the tag [hr] for a heading, the conversion
    of its second letter raises, and the tool answers with an error instead
    of the text of the section; without the rule the same section is
    extracted up to the next [h2]. *)
Theorem rule_stops_extraction :
  walk_siblings 2 (tail rule_page) []
  = Raise "invalid literal for int() with base 10: 'r'"
  /\ (get_section (site_of rule_page) "guide" "Usage" empty_world).1
     = Return (Text "Error retrieving section: invalid literal for int() with base 10: 'r'")
  /\ (get_section (site_of plain_page) "guide" "Usage" empty_world).1
     = Return (Dumps (JDict
         [("section", JString "Usage");
          ("content", JString ("First." +:+ newline +:+ "Second."));
          ("code_examples", JList []);
          ("page_url", JString "https://openai.github.io/openai-agents-python/guide.html")])).
Proof. split_and!; by vm_compute. Qed.

(** *** Code blocks *)

Lemma pre_passed heading_level p :
  node_name p = Some "pre" -> passed heading_level p /\ node_content p = [get_text_strip p].
Proof.
  destruct p as [| |name attrs line cs]; simpl; [done|done|].
  intros [= ->]. by repeat split.
Qed.

(** C9 (as amended).  A [pre] sibling that the walk reaches is handled as
    any other tag: its stripped text is appended to [content].  The list of
    code examples is filled by a separate pass: when the walk stopped at a
    boundary heading, it holds the text of exactly the [pre] elements of
    the page whose source line lies strictly between the line of the
    matched heading and the line of the boundary. *)
Theorem pre_in_content_and_examples
    (doc : soup) (found_heading boundary : node) (heading_level : Z)
    (before after : list node) (p : node) (content0 content : list string)
    (next_heading : option node) :
  Forall (passed heading_level) before ->
  node_name p = Some "pre" ->
  walk_siblings heading_level (before ++ p :: after) content0
  = Return (content, next_heading) ->
  get_text_strip p ∈ content
  /\ forall x,
       In x (section_code_examples doc found_heading (Some boundary))
       <-> exists code_block,
             In code_block (find_all "pre" doc)
             /\ (node_sourceline found_heading < node_sourceline (el code_block))%nat
             /\ (node_sourceline (el code_block) < node_sourceline boundary)%nat
             /\ x = get_text (el code_block).
Proof.
  intros Hb Hp Hwalk. split.
  - rewrite walk_siblings_app in Hwalk by done.
    destruct (pre_passed heading_level p Hp) as [[Ht Hn] Hc].
    simpl in Hwalk. rewrite Ht, Hn in Hwalk. simpl in Hwalk.
    apply walk_siblings_grows in Hwalk as [more ->].
    rewrite Hc. set_solver.
  - intros x. unfold section_code_examples. rewrite in_flat_map. split.
    + intros (cb & Hin & Hx). exists cb. split; [done|].
      destruct (Nat.ltb_spec (node_sourceline found_heading) (node_sourceline (el cb)));
        [|done].
      destruct (Nat.ltb_spec (node_sourceline (el cb)) (node_sourceline boundary));
        [|done].
      destruct Hx as [<-|[]]. done.
    + intros (cb & Hin & H1 & H2 & ->). exists cb. split; [done|].
      apply Nat.ltb_lt in H1, H2. rewrite H1, H2. by left.
Qed.

Lemma pre_in_content_and_examples_witness :
  walk_siblings 2 (tail code_page) []
  = Return (["Run it:"; "agent.run()"], Some (heading "h2" 4 "Next"))
  /\ "agent.run()" ∈ ["Run it:"; "agent.run()"].
Proof.
  split; [reflexivity|].
  refine (proj1 (pre_in_content_and_examples code_page (heading "h2" 1 "Usage")
                   (heading "h2" 4 "Next") 2 [nl; para 2 "Run it:"; nl]
                   [nl; heading "h2" 4 "Next"; nl]
                   (Tag "pre" [] 3 [NavigableString "agent.run()"])
                   [] ["Run it:"; "agent.run()"] (Some (heading "h2" 4 "Next"))
                   _ eq_refl eq_refl)).
  repeat constructor.
Defined.

(** C9, as stated, fails: on [code_page] the text of the [pre] block of the
    section "Usage" is listed under the code examples and is also part of
    the content. *)
Lemma pre_text_in_content :
  extract_section code_page "Usage" "https://openai.github.io/openai-agents-python/guide.html"
  = Return (Dumps (JDict
      [("section", JString "Usage");
       ("content", JString ("Run it:" +:+ newline +:+ "agent.run()"));
       ("code_examples", JList [JString "agent.run()"]);
       ("page_url", JString "https://openai.github.io/openai-agents-python/guide.html")])).
Proof. by vm_compute. Qed.

(** When the section is the last of the page there is no boundary heading,
    and no code example is listed at all. *)
Example last_section_lists_no_code :
  extract_section code_page_last "Usage" "https://openai.github.io/openai-agents-python/guide.html"
  = Return (Dumps (JDict
      [("section", JString "Usage");
       ("content", JString ("Run it:" +:+ newline +:+ "agent.run()"));
       ("code_examples", JList []);
       ("page_url", JString "https://openai.github.io/openai-agents-python/guide.html")])).
Proof. by vm_compute. Qed.

(** ** The crawler *)

Section CrawlFacts.

Variable E : collaborators.

Lemma has_note_listing fs ds path :
  has_note (Listing fs ds path) = existsb dir_has_note ds.
Proof. reflexivity. Qed.

Lemma plain_no_note ds : Forall plain ds -> existsb dir_has_note ds = false.
Proof.
  induction 1 as [|[name path contents] ds Hd _ IH]; simpl; [done|].
  unfold plain in Hd. simpl in Hd. by subst.
Qed.

Lemma dir_row_plain dir_path st item :
  Forall plain st.1.2 -> Forall plain (dir_row dir_path st item).1.2.
Proof.
  destruct st as [[fs ds] subdirs]. simpl. intros Hds. unfold dir_row.
  repeat case_match; simpl; try done.
  apply Forall_app. split; [done|]. by repeat constructor.
Qed.

Lemma dir_link_plain dir_path st link :
  Forall plain st.1.2 -> Forall plain (dir_link dir_path st link).1.2.
Proof.
  destruct st as [[fs ds] subdirs]. simpl. intros Hds. unfold dir_link.
  repeat case_match; simpl; try done.
  apply Forall_app. split; [done|]. by repeat constructor.
Qed.

Lemma foldl_plain (f : scan -> node -> scan) items st :
  (forall st item, Forall plain st.1.2 -> Forall plain (f st item).1.2) ->
  Forall plain st.1.2 -> Forall plain (foldl f st items).1.2.
Proof.
  intros Hf. revert st. induction items as [|item items IH]; intros st Hst; simpl; [done|].
  apply IH, Hf, Hst.
Qed.

(** A scanned page has no entry with contents. *)
Lemma scan_page_plain dir_path doc : Forall plain (scan_page dir_path doc).1.2.
Proof.
  unfold scan_page.
  set (st := match file_items doc with [] => _ | _ => _ end).
  assert (Hst : Forall plain st.1.2).
  { unfold st. destruct (file_items doc) as [|item items].
    - destruct (repo_content_area doc); [|by constructor].
      apply foldl_plain; [apply dir_link_plain|by constructor].
    - apply foldl_plain; [apply dir_row_plain|by constructor]. }
  clearbody st. destruct st as [[fs ds] subdirs]. unfold with_defaults.
  destruct fs; [|done]. destruct ds; [|done].
  repeat case_decide; simpl; by repeat constructor.
Qed.

Lemma attach_no_note subdir result ds :
  has_note result = false ->
  existsb dir_has_note ds = false ->
  existsb dir_has_note (attach subdir result ds) = false.
Proof.
  intros Hr. induction ds as [|d ds IH]; simpl; [done|].
  intros [Hd Hds]%orb_false_elim.
  destruct (_ || _); simpl.
  - by rewrite Hr.
  - by rewrite Hd, IH.
Qed.

Lemma attach_all_no_note results ds :
  Forall (fun r => has_note r.2 = false) results ->
  existsb dir_has_note ds = false ->
  existsb dir_has_note (attach_all results ds) = false.
Proof.
  unfold attach_all. intros Hr. revert ds.
  induction Hr as [|[subdir result] results Hres _ IH]; intros ds Hds; simpl; [done|].
  apply IH. by apply attach_no_note.
Qed.

(** Tasks that return and whose results satisfy [P] give a list of such
    results, one for each argument. *)
Lemma gather_Forall {A : Type} (P : A -> Prop) (task : string -> io A) args w :
  (forall arg w', match (task arg w').1 with Return r => P r | Raise _ => False end) ->
  match (gather task args w).1 with
  | Return results => Forall P results /\ length results = length args
  | Raise _ => False
  end.
Proof.
  intros Htask. revert w. induction args as [|arg args IH]; intros w; simpl.
  - by split.
  - unfold bind. specialize (Htask arg w).
    destruct (task arg w) as [[r|e] w1]; simpl in Htask; [|done].
    specialize (IH w1). destruct (gather task args w1) as [[rs|e] w2]; simpl in *; [|done].
    destruct IH as [Hrs Hlen]. split; [by constructor|by rewrite Hlen].
Qed.

Lemma process_directory_no_note depth dir_path w :
  match (process_directory E dir_path (S depth) w).1 with
  | Return l => has_note l = false
  | Raise _ => False
  end.
Proof.
  revert dir_path w. induction depth as [|depth IH]; intros dir_path w.
  - cbn [process_directory]. unfold try_except, bind, client_get, raise_for_status, ret, raise.
    destruct (http_get E (requests w) _) as [e|code html]; [done|].
    destruct (decide (code = 404)); [done|].
    destruct (status_error E code _); [done|].
    pose proof (scan_page_plain dir_path (parse E html)) as Hplain.
    destruct (scan_page dir_path (parse E html)) as [[fs ds] subdirs]. simpl in *.
    by apply plain_no_note.
  - cbn [process_directory]. unfold try_except, bind, client_get, raise_for_status, ret, raise.
    destruct (http_get E (requests w) _) as [e|code html]; [done|].
    destruct (decide (code = 404)); [done|].
    destruct (status_error E code _); [done|].
    pose proof (scan_page_plain dir_path (parse E html)) as Hplain.
    destruct (scan_page dir_path (parse E html)) as [[fs ds] subdirs]. simpl in *.
    pose proof (gather_Forall (fun l => has_note l = false)
                  (fun subdir => process_directory E subdir (S depth)) subdirs
                  (log_request (GITHUB_URL +:+ "/tree/main/" +:+ dir_path) w) IH) as Hg.
    destruct (gather _ subdirs _) as [[results|e] w']; simpl in *; [|done].
    destruct Hg as [Hres Hlen].
    apply attach_all_no_note; [|by apply plain_no_note].
    clear -Hres. revert subdirs. induction Hres as [|r rs Hr _ IHr]; intros [|sd sds]; simpl;
      try by constructor.
Qed.

(** C6 (as amended).  Called with [max_depth] 0, [process_directory] sends
    no request and returns only the note.  The crawl never makes that call:
    it descends only while [max_depth > 1], so a directory reached with
    [max_depth] 1 is listed with one request and its subdirectories stay
    plain entries without contents, and no listing returned for a positive
    [max_depth] carries the note anywhere. *)
Theorem depth_limit (dir_path : string) (w : world) :
  process_directory E dir_path 0 w = (Return (Note "Max depth reached"), w)
  /\ (forall max_depth,
         match (process_directory E dir_path (S max_depth) w).1 with
         | Return l => has_note l = false
         | Raise _ => False
         end)
  /\ match (process_directory E dir_path 1 w).1 with
     | Return (Listing _ ds _) => Forall (fun d => dir_contents d = None) ds
     | Return (Failed _) => True
     | _ => False
     end
  /\ requests (process_directory E dir_path 1 w).2
     = requests w ++ [GITHUB_URL +:+ "/tree/main/" +:+ dir_path].
Proof.
  split_and!.
  - done.
  - intros max_depth. apply process_directory_no_note.
  - cbn [process_directory]. unfold try_except, bind, client_get, raise_for_status, ret, raise.
    destruct (http_get E (requests w) _) as [e|code html]; [done|].
    destruct (decide (code = 404)); [done|].
    destruct (status_error E code _); [done|].
    pose proof (scan_page_plain dir_path (parse E html)) as Hplain.
    by destruct (scan_page dir_path (parse E html)) as [[fs ds] subdirs].
  - cbn [process_directory]. unfold try_except, bind, client_get, raise_for_status, ret, raise.
    destruct (http_get E (requests w) _) as [e|code html]; [done|].
    destruct (decide (code = 404)); [done|].
    destruct (status_error E code _); [done|].
    by destruct (scan_page dir_path (parse E html)) as [[fs ds] subdirs].
Qed.

End CrawlFacts.

(** C6, as stated, fails.  In the crawl of [src] with [max_depth] 2 the
    child [src/examples] is listed and its subdirectory [nested] is a plain
    entry: no contents, hence no note, and no request was sent for it.  In
    the crawl of [src/examples] with [max_depth] 2 the same [nested] is
    listed in full.  The note appears in neither tree. *)
Lemma nested_directory_without_note :
  process_directory crawl_site "src" 2 empty_world
  = (Return (Listing
       [new_file "a.py" "src/a.py"]
       [DirInfo "examples" "src/examples"
          (Some (Listing [new_file "b.py" "src/examples/b.py"]
                         [DirInfo "nested" "src/examples/nested" None]
                         "src/examples"))]
       "src"),
     World ∅ ∅ [GITHUB_URL +:+ "/tree/main/src"; GITHUB_URL +:+ "/tree/main/src/examples"])
  /\ (process_directory crawl_site "src/examples" 2 empty_world).1
     = Return (Listing
         [new_file "b.py" "src/examples/b.py"]
         [DirInfo "nested" "src/examples/nested"
            (Some (Listing [new_file "c.py" "src/examples/nested/c.py"]
                           [DirInfo "deeper" "src/examples/nested/deeper" None]
                           "src/examples/nested"))]
         "src/examples").
Proof. split; by vm_compute. Qed.

(** ** Searches that find nothing *)


Section EmptyResults.

Variable E : collaborators.

Section Silent.

Variable query_terms : list string.

Lemma post_client_get url w :
  post (client_get E url) w
    (fun r w' => http_get E (requests w) url = Response r.1 r.2 /\ w' = log_request url w)
    (fun _ w' => w' = log_request url w).
Proof.
  unfold post, client_get. by destruct (http_get E (requests w) url).
Qed.

Lemma silent_page url title content :
  silent query_terms content -> search_page query_terms url title content = [].
Proof. unfold silent, search_page. by intros ->. Qed.

Lemma silent_file path content :
  silent query_terms content -> search_file query_terms path content = [].
Proof. unfold silent, search_file. by intros ->. Qed.

Lemma cache_silent_insert cache key content :
  cache_silent query_terms cache -> silent query_terms content ->
  cache_silent query_terms (<[key:=content]> cache).
Proof.
  intros Hc Hs k c. rewrite lookup_insert. case_decide; [|apply Hc].
  by intros [= <-].
Qed.

(** *** Documentation *)

Lemma fetch_doc_page_silent url w :
  docs_silent E query_terms ->
  cache_silent query_terms (doc_cache w) ->
  post (fetch_doc_page E url) w
    (fun content w' => silent query_terms content
                       /\ cache_silent query_terms (doc_cache w'))
    (fun _ w' => cache_silent query_terms (doc_cache w')).
Proof.
  intros Hnet Hcache. unfold post, fetch_doc_page.
  destruct (doc_cache w !! url) as [content|] eqn:Hw; [by split; [eapply Hcache|]|].
  unfold bind, client_get, raise_for_status, ret, raise.
  destruct (http_get E (requests w) _) as [e|code html] eqn:Hget; [done|].
  destruct (status_error E code _); [done|]. simpl.
  split; [by eapply Hnet|]. apply cache_silent_insert; [done|by eapply Hnet].
Qed.

Lemma search_links_silent links w :
  docs_silent E query_terms ->
  cache_silent query_terms (doc_cache w) ->
  post (search_links E query_terms links []) w
    (fun results w' => results = [] /\ cache_silent query_terms (doc_cache w'))
    (fun _ _ => False).
Proof.
  intros Hnet. revert w. induction links as [|link links IH]; intros w Hcache; simpl.
  - by apply post_ret.
  - apply post_bind.
    apply (post_mono _ w
             (fun results w' => results = [] /\ cache_silent query_terms (doc_cache w'))
             (fun _ _ => False)).
    + apply post_try, post_bind.
      eapply post_mono; [by apply fetch_doc_page_silent| |].
      * intros content w' [Hs Hc]. apply post_ret. by rewrite silent_page.
      * intros e w' Hc. by apply post_ret.
    + intros results w' [-> Hc]. by apply IH.
    + done.
Qed.

(** *** The repository *)

Lemma fetch_github_file_silent path w :
  repo_silent E query_terms ->
  cache_silent query_terms (github_cache w) ->
  post (fetch_github_file E path) w
    (fun content w' => silent query_terms content
                       /\ cache_silent query_terms (github_cache w'))
    (fun _ w' => cache_silent query_terms (github_cache w')).
Proof.
  intros Hnet Hcache. unfold post, fetch_github_file.
  destruct (github_cache w !! path) as [content|] eqn:Hw; [by split; [eapply Hcache|]|].
  unfold bind, client_get, raise_for_status, ret, raise.
  destruct (http_get E (requests w) _) as [e|code html] eqn:Hget; [done|].
  destruct (status_error E code _); [done|]. simpl.
  split; [by eapply (Hnet _ _ _ _ Hget)|].
  apply cache_silent_insert; [done|by eapply (Hnet _ _ _ _ Hget)].
Qed.

Lemma search_root_files_silent fs acc w :
  repo_silent E query_terms ->
  nothing_found query_terms acc w ->
  post (search_root_files E query_terms fs acc) w (nothing_found query_terms) (fun _ _ => False).
Proof.
  intros Hnet. revert acc w. induction fs as [|file fs IH]; intros acc w Hacc; simpl.
  - by apply post_ret.
  - apply post_bind.
    apply (post_mono _ w (nothing_found query_terms) (fun _ _ => False)); [|by intros; apply IH|done].
    apply post_try. destruct Hacc as [Hres Hcache].
    destruct (Py.truthy (entry_path file)); simpl; [|by apply post_ret].
    apply post_bind.
    eapply post_mono; [by apply fetch_github_file_silent| |].
    + intros content w' [Hs Hc]. apply post_ret. split; [|done].
      simpl. by rewrite Hres, silent_file.
    + intros e w' Hc. by apply post_ret.
Qed.

Lemma search_rows_silent items acc w :
  repo_silent E query_terms ->
  nothing_found query_terms acc w ->
  post (search_rows E query_terms items acc) w (nothing_found query_terms) (fun _ _ => False).
Proof.
  intros Hnet. revert acc w. induction items as [|item items IH]; intros acc w Hacc; simpl.
  - by apply post_ret.
  - destruct (head (select_in _ item)) as [link|]; [|by apply IH].
    destruct (is_text_file _); [|by apply IH].
    apply post_bind.
    apply (post_mono _ w (nothing_found query_terms) (fun _ _ => False)); [|by intros; apply IH|done].
    apply post_try. destruct Hacc as [Hres Hcache].
    apply post_bind.
    eapply post_mono; [by apply fetch_github_file_silent| |].
    + intros content w' [Hs Hc]. apply post_ret. split; [|done].
      simpl. by rewrite Hres, silent_file.
    + intros e w' Hc. by apply post_ret.
Qed.

Lemma search_directory_silent dir_path search_errors w :
  repo_silent E query_terms ->
  cache_silent query_terms (github_cache w) ->
  post (search_directory E query_terms dir_path search_errors) w
       (nothing_found query_terms) (fun _ _ => False).
Proof.
  intros Hnet Hcache. unfold post, search_directory, client_get.
  destruct (http_get E (requests w) _) as [e|code html]; [done|].
  destruct (decide (code = 404)); [done|].
  destruct (status_error E code _); [done|].
  by apply search_rows_silent.
Qed.

Lemma search_directories_silent dirs acc w :
  repo_silent E query_terms ->
  nothing_found query_terms acc w ->
  post (search_directories E query_terms dirs acc) w (nothing_found query_terms) (fun _ _ => False).
Proof.
  intros Hnet. revert acc w. induction dirs as [|dir_name dirs IH]; intros acc w Hacc; simpl.
  - by apply post_ret.
  - destruct Hacc as [Hres Hcache]. apply post_bind.
    eapply post_mono; [by apply search_directory_silent| |done].
    intros [dir_results errs] w1 [Hd Hc1]. simpl in Hd. subst dir_results.
    apply post_bind.
    eapply post_mono; [by apply (IH ([], errs))| |done].
    intros [rest_results errs'] w2 [Hr Hc2]. simpl in Hr. subst rest_results.
    apply post_ret. split; [|done]. simpl. by rewrite Hres.
Qed.

End Silent.

(** [get_github_structure] returns, leaves the caches alone, and its
    structure is an error without entries or the listing of a page that the
    network served. *)
Lemma post_get_github_structure w :
  post (get_github_structure E) w
    (fun s w' =>
       doc_cache w' = doc_cache w /\ github_cache w' = github_cache w
       /\ ((exists e, s = Structure (Some e) [] [])
           \/ (structure_error s = None
               /\ exists log url code body,
                    http_get E log url = Response code body
                    /\ s = root_structure_of (parse E body))))
    (fun _ _ => False).
Proof.
  unfold post, get_github_structure, try_except, bind, client_get,
    raise_for_status, ret, raise.
  destruct (http_get E (requests w) _) as [e|code html] eqn:Hget; simpl.
  - split_and!; try done. left. by eexists.
  - destruct (status_error E code _); simpl.
    + split_and!; try done. left. by eexists.
    + split_and!; try done. right. split.
      * unfold root_structure_of. by repeat case_match.
      * by eexists _, _, _, _.
Qed.

Lemma search_docs_silent query w :
  Py.lower (Py.strip query) <> EmptyString ->
  docs_silent E (Py.split (Py.lower (Py.strip query))) ->
  cache_silent (Py.split (Py.lower (Py.strip query))) (doc_cache w) ->
  (search_docs E query w).1
  = Return (Text ("No results found for your query: '" +:+ Py.lower (Py.strip query)
                  +:+ "'. Try a different search term or check the documentation index."))
  \/ exists e, (search_docs E query w).1
               = Return (Text ("Error searching documentation: " +:+ e)).
Proof.
  intros Hq Hnet Hcache. unfold search_docs.
  rewrite (truthy_nonempty _ Hq). simpl.
  set (terms := Py.split (Py.lower (Py.strip query))) in *.
  unfold try_except, bind.
  pose proof (fetch_doc_page_silent terms DOCS_URL w Hnet Hcache) as Hroot.
  unfold post in Hroot.
  destruct (fetch_doc_page E DOCS_URL w) as [[content|e] w1]; [|right; by eexists].
  destruct Hroot as [Hs Hc]. rewrite silent_page by done.
  pose proof (search_links_silent terms (take 20 (page_links (parse E content))) w1
                Hnet Hc) as Hlinks.
  unfold post in Hlinks.
  destruct (search_links _ _ _ _ _) as [[results|e] w2]; [|done].
  destruct Hlinks as [-> _]. by left.
Qed.

Lemma search_github_silent query w :
  Py.lower (Py.strip query) <> EmptyString ->
  repo_silent E (Py.split (Py.lower (Py.strip query))) ->
  cache_silent (Py.split (Py.lower (Py.strip query))) (github_cache w) ->
  exists errors,
    (search_github E query w).1
    = Return (Dumps (JDict
        [("error", JString ("No results found in the GitHub repository for query: '"
                            +:+ Py.lower (Py.strip query)
                            +:+ "'. Try different search terms."));
         ("debug_info", JDict
            [("search_query", JString (Py.lower (Py.strip query)));
             ("search_terms", JStrings (Py.split (Py.lower (Py.strip query))));
             ("directories_searched", JStrings github_key_dirs);
             ("errors", errors_or_none errors)])])).
Proof.
  intros Hq Hnet Hcache. unfold search_github.
  rewrite (truthy_nonempty _ Hq). cbn [negb].
  set (terms := Py.split (Py.lower (Py.strip query))) in *.
  unfold try_except, bind.
  pose proof (post_get_github_structure w) as Hroot. unfold post in Hroot.
  destruct (get_github_structure E w) as [[structure0|e] w1]; [|done].
  destruct Hroot as (_ & Hg & _).
  set (start := match structure_error structure0 with Some _ => _ | None => _ end).
  destruct start as [search_errors structure1].
  assert (Hc1 : cache_silent terms (github_cache w1)) by by rewrite Hg.
  pose proof (search_root_files_silent terms (files structure1) ([], search_errors) w1
                Hnet (conj eq_refl Hc1)) as Hfiles.
  unfold post in Hfiles.
  destruct (search_root_files _ _ _ _ _) as [[acc|e] w2]; [|done].
  pose proof (search_directories_silent terms github_key_dirs acc w2 Hnet Hfiles) as Hdirs.
  unfold post in Hdirs.
  destruct (search_directories _ _ _ _ _) as [[[results errors]|e] w3]; [|done].
  destruct Hdirs as [Hres _]. simpl in Hres. subst results.
  by exists errors.
Qed.

(** *** File names *)

Section SilentNames.

Variable filename_pattern : string.
Hypothesis Hnames : names_silent E filename_pattern.

Lemma root_matches_silent fs :
  (forall file, file ∈ fs ->
                Py.contains filename_pattern (Py.lower (entry_name file)) = false) ->
  root_matches filename_pattern fs = [].
Proof.
  induction fs as [|file fs IH]; intros Hfs; simpl; [done|].
  rewrite Hfs by set_solver. simpl. apply IH. intros f Hf. apply Hfs. set_solver.
Qed.

Lemma files_row_silent dir_path st item :
  (forall link, head (select_in (sel_attr "a" "data-pjax") item) = Some link ->
                Py.contains filename_pattern (Py.lower (get_text_strip link)) = false) ->
  (files_row filename_pattern dir_path st item).1.1 = st.1.1.
Proof.
  intros Hitem. destruct st as [[matches errs] subdirs]. unfold files_row.
  destruct (head (select_in _ item)) as [link|]; [|done].
  rewrite (Hitem link eq_refl).
  by repeat case_match.
Qed.

Lemma files_rows_silent dir_path items st :
  (forall item link, item ∈ items ->
      head (select_in (sel_attr "a" "data-pjax") item) = Some link ->
      Py.contains filename_pattern (Py.lower (get_text_strip link)) = false) ->
  (foldl (files_row filename_pattern dir_path) st items).1.1 = st.1.1.
Proof.
  revert st. induction items as [|item items IH]; intros st Hitems; simpl; [done|].
  rewrite IH; [|intros i l Hi; apply Hitems; by right].
  apply files_row_silent. intros link. apply Hitems. by left.
Qed.

Lemma descend_silent search subdirs acc w :
  (forall subdir acc w, no_match acc w ->
                        post (search subdir acc) w no_match (fun _ _ => False)) ->
  no_match acc w ->
  post (descend search subdirs acc) w no_match (fun _ _ => False).
Proof.
  intros Hsearch. revert acc w.
  induction subdirs as [|subdir subdirs IH]; intros acc w Hacc; simpl.
  - by apply post_ret.
  - destruct (within_depth subdir); [|by apply IH].
    apply post_bind. eapply post_mono; [by apply Hsearch| |done].
    intros acc' w' Hacc'. by apply IH.
Qed.

Lemma files_search_directory_silent fuel dir_path acc w :
  no_match acc w ->
  post (files_search_directory E fuel filename_pattern dir_path acc) w
       no_match (fun _ _ => False).
Proof.
  revert dir_path acc w. induction fuel as [|fuel IH]; intros dir_path acc w Hacc.
  - by apply post_ret.
  - cbn [files_search_directory]. unfold post at 1, client_get.
    destruct (http_get E (requests w) _) as [e|code html] eqn:Hget; [done|].
    destruct (decide (code = 404)); [done|].
    destruct (status_error E code _); [done|].
    pose proof (files_rows_silent dir_path
                  (select (sel_class "div" "Box-row") (parse E html))
                  (acc.1, acc.2, [])) as Hrows.
    destruct (foldl _ _ _) as [[matches errs] subdirs]. simpl in Hrows.
    assert (Hm : matches = []).
    { rewrite Hrows; [done|]. intros item link. by apply (Hnames _ _ _ _ Hget). }
    subst matches.
    by apply (descend_silent _ subdirs ([], errs)).
Qed.

Lemma files_search_all_silent dirs acc w :
  no_match acc w ->
  post (files_search_all E filename_pattern dirs acc) w no_match (fun _ _ => False).
Proof.
  revert acc w. induction dirs as [|directory dirs IH]; intros acc w Hacc;
    cbn [files_search_all].
  - by apply post_ret.
  - apply post_bind.
    eapply post_mono; [by apply files_search_directory_silent| |done].
    intros acc' w' Hacc'. by apply IH.
Qed.

End SilentNames.

Lemma search_files_silent filename_pattern w :
  Py.lower (Py.strip filename_pattern) <> EmptyString ->
  names_silent E (Py.lower (Py.strip filename_pattern)) ->
  exists message errors,
    (search_files E filename_pattern w).1
    = Return (Dumps (JDict
        [("error", JString message);
         ("debug_info", JDict
            [("search_pattern", JString (Py.lower (Py.strip filename_pattern)));
             ("directories_searched", JStrings files_key_dirs);
             ("errors", errors_or_none errors)])])).
Proof.
  intros Hq Hnames. unfold search_files.
  rewrite (truthy_nonempty _ Hq). cbn [negb].
  set (pattern := Py.lower (Py.strip filename_pattern)) in *.
  unfold try_except at 1 2, bind.
  pose proof (post_get_github_structure w) as Hroot. unfold post in Hroot.
  destruct (get_github_structure E w) as [[structure0|e] w1]; [|done].
  destruct Hroot as (_ & _ & Hs).
  assert (Hfiles : forall file, file ∈ files structure0 ->
            Py.contains pattern (Py.lower (entry_name file)) = false).
  { destruct Hs as [[e ->]|[_ (log & url & code & body & Hget & ->)]]; [set_solver|].
    by apply (Hnames _ _ _ _ Hget). }
  set (start := match structure_error structure0 with Some _ => _ | None => _ end).
  assert (Hstart : exists errs structure1,
             start w1 = (Return (errs, structure1), w1)
             /\ root_matches pattern (files structure1) = []).
  { unfold start. destruct (structure_error structure0).
    - by eexists _, _.
    - eexists _, _. split; [done|]. by apply root_matches_silent. }
  destruct Hstart as (errs & structure1 & -> & Hroot_matches). rewrite Hroot_matches.
  pose proof (files_search_all_silent pattern Hnames files_key_dirs ([], errs) w1 eq_refl)
    as Hall.
  unfold post in Hall.
  destruct (files_search_all _ _ files_key_dirs _ _) as [[[matches errs1]|e] w2]; [|done].
  unfold no_match in Hall. simpl in Hall. subst matches. cbn [fst].
  pose proof (files_search_all_silent pattern Hnames direct_paths ([], errs1) w2 eq_refl)
    as Hdirect.
  unfold post in Hdirect.
  destruct (files_search_all _ _ direct_paths _ _) as [[[matches errs2]|e] w3]; [|done].
  unfold no_match in Hdirect. simpl in Hdirect. subst matches.
  destruct errs2; by eexists _, _.
Qed.

(** C5 (as amended).  For a query that is not empty after trimming, when
    no text of the corpus contains a term of the query (for [search_files]:
    no listed file name contains the pattern): [search_github] and
    [search_files] return a JSON object with an "error" message and a
    "debug_info" that names the query and lists the fixed key directories
    of the tool; [search_docs] returns a plain message, either the one that
    names the query or the error of the fetch of the main page, with no
    list of pages.  None of the three raises. *)
Theorem empty_result_payloads (query : string) (w : world) :
  let q := Py.lower (Py.strip query) in
  q <> EmptyString ->
  (repo_silent E (Py.split q) ->
   cache_silent (Py.split q) (github_cache w) ->
   exists errors,
     (search_github E query w).1
     = Return (Dumps (JDict
         [("error", JString ("No results found in the GitHub repository for query: '"
                             +:+ q +:+ "'. Try different search terms."));
          ("debug_info", JDict
             [("search_query", JString q);
              ("search_terms", JStrings (Py.split q));
              ("directories_searched",
                JStrings ["openai"; "examples"; "docs"; "src"; "src/agents"; "tests"]);
              ("errors", errors_or_none errors)])])))
  /\ (names_silent E q ->
      exists message errors,
        (search_files E query w).1
        = Return (Dumps (JDict
            [("error", JString message);
             ("debug_info", JDict
                [("search_pattern", JString q);
                 ("directories_searched",
                   JStrings ["examples"; "src"; "docs"; "test"; "tests"]);
                 ("errors", errors_or_none errors)])])))
  /\ (docs_silent E (Py.split q) ->
      cache_silent (Py.split q) (doc_cache w) ->
      (search_docs E query w).1
      = Return (Text ("No results found for your query: '" +:+ q
                      +:+ "'. Try a different search term or check the documentation index."))
      \/ exists e, (search_docs E query w).1
                   = Return (Text ("Error searching documentation: " +:+ e))).
Proof.
  intros q Hq. split_and!.
  - by apply search_github_silent.
  - by apply search_files_silent.
  - by apply search_docs_silent.
Qed.

End EmptyResults.

Lemma welcome_site_silent :
  repo_silent welcome_site ["zebra"]
  /\ names_silent welcome_site "zebra"
  /\ docs_silent welcome_site ["zebra"].
Proof.
  split_and!.
  - intros log url code body [= <- <-]. by vm_compute.
  - intros log url code body [= <- <-]. split.
    + intros file Hfile. vm_compute in Hfile. by apply elem_of_nil in Hfile.
    + intros item link Hitem. vm_compute in Hitem. by apply elem_of_nil in Hitem.
  - intros log url code body [= <- <-]. by vm_compute.
Qed.

Lemma empty_result_payloads_witness :
  Py.lower (Py.strip " Zebra ") <> EmptyString
  /\ (exists message errors,
        (search_files welcome_site " Zebra " empty_world).1
        = Return (Dumps (JDict
            [("error", JString message);
             ("debug_info", JDict
                [("search_pattern", JString "zebra");
                 ("directories_searched",
                   JStrings ["examples"; "src"; "docs"; "test"; "tests"]);
                 ("errors", errors_or_none errors)])])))
  /\ ((search_docs welcome_site " Zebra " empty_world).1
      = Return (Text ("No results found for your query: '" +:+ "zebra"
                      +:+ "'. Try a different search term or check the documentation index."))
      \/ exists e, (search_docs welcome_site " Zebra " empty_world).1
                   = Return (Text ("Error searching documentation: " +:+ e)))
  /\ (exists errors,
        (search_github welcome_site " Zebra " empty_world).1
        = Return (Dumps (JDict
            [("error", JString ("No results found in the GitHub repository for query: '"
                                +:+ "zebra" +:+ "'. Try different search terms."));
             ("debug_info", JDict
                [("search_query", JString "zebra");
                 ("search_terms", JStrings ["zebra"]);
                 ("directories_searched",
                   JStrings ["openai"; "examples"; "docs"; "src"; "src/agents"; "tests"]);
                 ("errors", errors_or_none errors)])]))).
Proof.
  split; [done|].
  destruct (empty_result_payloads welcome_site " Zebra " empty_world)
    as (Hgithub & Hfiles & Hdocs); [done|].
  assert (Hempty : cache_silent ["zebra"] ∅).
  { intros key content Hk. by rewrite lookup_empty in Hk. }
  split_and!.
  - apply Hfiles, welcome_site_silent.
  - apply Hdocs; [apply welcome_site_silent|apply Hempty].
  - apply Hgithub; [apply welcome_site_silent|apply Hempty].
Defined.

(** C5, as stated, fails for [search_docs]: when nothing matches it answers
    with a sentence, not with JSON, and the sentence names the query but no
    page. *)
Lemma search_docs_plain_message :
  search_docs welcome_site "zebra" empty_world
  = (Return (Text "No results found for your query: 'zebra'. Try a different search term or check the documentation index."),
     World {[ DOCS_URL := "Welcome to the SDK." ]} ∅ [DOCS_URL])
  /\ is_json (Text "No results found for your query: 'zebra'. Try a different search term or check the documentation index.") = false.
Proof. split; by vm_compute. Qed.

(** The empty result of [search_files] lists its five key directories; the
    directory [src/agents], which it also asked for, is not among them. *)
Example search_files_empty_result :
  search_files welcome_site "zebra" empty_world
  = (Return (Dumps (JDict
       [("error", JString "No files found matching 'zebra'. Try a different search pattern.");
        ("debug_info", JDict
           [("search_pattern", JString "zebra");
            ("directories_searched", JStrings ["examples"; "src"; "docs"; "test"; "tests"]);
            ("errors", JNull)])])),
     World ∅ ∅
       ((fun d => GITHUB_URL +:+ "/tree/main" +:+ d)
        <$> [""; "/examples"; "/src"; "/docs"; "/test"; "/tests";
             "/examples"; "/src/agents"; "/docs"; "/test"; "/tests"])).
Proof. by vm_compute. Qed.

(** ** The recursion of [search_files] needs no more than three calls *)

Section Fuel.

Variable E : collaborators.

Lemma split_on_go_length sep cur s :
  length (Py.split_on_go sep cur s) = length (Py.split_on sep s).
Proof.
  unfold Py.split_on. generalize EmptyString. revert cur.
  induction s as [|c s IH]; intros cur cur'; simpl; [done|].
  case_decide; simpl; [done|]. apply IH.
Qed.

Lemma split_on_append sep a b :
  length (Py.split_on sep (a +:+ String sep b))
  = (length (Py.split_on sep a) + length (Py.split_on sep b))%nat.
Proof.
  induction a as [|c a IH].
  - unfold Py.split_on. simpl. by rewrite decide_True.
  - change (String c a +:+ String sep b) with (String c (a +:+ String sep b)).
    unfold Py.split_on at 1 2. simpl. case_decide; simpl.
    + f_equal. apply IH.
    + by rewrite !split_on_go_length, IH.
Qed.

Lemma split_on_nonempty sep s : (1 <= length (Py.split_on sep s))%nat.
Proof.
  unfold Py.split_on. generalize EmptyString.
  induction s as [|c s IH]; intros cur; simpl; [lia|].
  case_decide; simpl; [lia|]. apply IH.
Qed.

(** A path one level down has at least one more component. *)
Lemma subdir_deeper dir_path name :
  within_depth (dir_path +:+ "/" +:+ name) = true ->
  (length (Py.split_on "/" dir_path) <= 2)%nat.
Proof.
  unfold within_depth. intros H%Nat.leb_le.
  change ("/" +:+ name) with (String "/" name) in H.
  rewrite split_on_append in H.
  pose proof (split_on_nonempty "/" name). lia.
Qed.

Lemma files_row_subdirs filename_pattern dir_path st item :
  Forall (fun subdir => exists name, subdir = dir_path +:+ "/" +:+ name) st.2 ->
  Forall (fun subdir => exists name, subdir = dir_path +:+ "/" +:+ name)
         (files_row filename_pattern dir_path st item).2.
Proof.
  destruct st as [[matches errs] subdirs]. simpl. intros Hs. unfold files_row.
  repeat case_match; simpl; try done.
  apply Forall_app. split; [done|]. repeat constructor. by eexists.
Qed.

Lemma files_rows_subdirs filename_pattern dir_path items st :
  Forall (fun subdir => exists name, subdir = dir_path +:+ "/" +:+ name) st.2 ->
  Forall (fun subdir => exists name, subdir = dir_path +:+ "/" +:+ name)
         (foldl (files_row filename_pattern dir_path) st items).2.
Proof.
  revert st. induction items as [|item items IH]; intros st Hst; simpl; [done|].
  by apply IH, files_row_subdirs.
Qed.

Lemma descend_ext search1 search2 subdirs acc w :
  Forall (fun subdir => within_depth subdir = true ->
                        forall acc w, search1 subdir acc w = search2 subdir acc w) subdirs ->
  descend search1 subdirs acc w = descend search2 subdirs acc w.
Proof.
  intros Hs. revert acc w. induction Hs as [|subdir subdirs Hsub _ IH]; intros acc w;
    simpl; [done|].
  destruct (within_depth subdir); [|apply IH].
  unfold bind. rewrite Hsub by done.
  destruct (search2 subdir acc w) as [[acc'|e] w']; [apply IH|done].
Qed.

(** Any two amounts of fuel that are positive and at least four minus the
    number of components of the path give the same run: the depth test of
    the source stops the recursion before the fuel does. *)
Lemma files_search_directory_fuel fuel1 fuel2 filename_pattern dir_path acc w :
  (1 <= fuel1)%nat -> (4 - length (Py.split_on "/" dir_path) <= fuel1)%nat ->
  (1 <= fuel2)%nat -> (4 - length (Py.split_on "/" dir_path) <= fuel2)%nat ->
  files_search_directory E fuel1 filename_pattern dir_path acc w
  = files_search_directory E fuel2 filename_pattern dir_path acc w.
Proof.
  revert fuel2 dir_path acc w.
  induction fuel1 as [|fuel1 IH]; intros fuel2 dir_path acc w H1 H1' H2 H2'; [lia|].
  destruct fuel2 as [|fuel2]; [lia|].
  cbn [files_search_directory].
  destruct (client_get E _ w) as [[[code html]|e] w']; [|done].
  destruct (decide (code = 404)); [done|].
  destruct (status_error E code _); [done|].
  pose proof (files_rows_subdirs filename_pattern dir_path
                (select (sel_class "div" "Box-row") (parse E html))
                (acc.1, acc.2, [])) as Hsub.
  destruct (foldl _ _ _) as [[matches errs] subdirs]. simpl in Hsub.
  apply descend_ext.
  eapply Forall_impl; [apply Hsub; constructor|].
  intros subdir [name ->] Hdepth acc' w''.
  pose proof (subdir_deeper _ _ Hdepth) as Hdir.
  unfold within_depth in Hdepth. apply Nat.leb_le in Hdepth.
  change ("/" +:+ name) with (String "/" name) in *.
  pose proof (split_on_append "/" dir_path name) as Hlen.
  pose proof (split_on_nonempty "/" name).
  pose proof (split_on_nonempty "/" dir_path).
  apply IH; lia.
Qed.

End Fuel.

(** * Further properties *)

(** ** The world only grows *)

Section Growth.

Variable E : collaborators.

Lemma extends_refl w : extends w w.
Proof. by split_and!. Qed.

Lemma extends_trans w1 w2 w3 : extends w1 w2 -> extends w2 w3 -> extends w1 w3.
Proof.
  intros (? & ? & ?) (? & ? & ?). split_and!; by etrans.
Qed.

Lemma extends_log url w : extends w (log_request url w).
Proof. split_and!; try done. by apply prefix_app_r. Qed.

Lemma grows_ret {A : Type} (a : A) : grows (ret a).
Proof. intros w. apply extends_refl. Qed.

Lemma grows_raise {A : Type} e : grows (@raise A e).
Proof. intros w. apply extends_refl. Qed.

Lemma grows_lift {A : Type} (o : outcome A) : grows (lift o).
Proof. intros w. apply extends_refl. Qed.

Lemma grows_bind {A B : Type} (m : io A) (k : A -> io B) :
  grows m -> (forall a, grows (k a)) -> grows (bind m k).
Proof.
  intros Hm Hk w. unfold bind. specialize (Hm w).
  destruct (m w) as [[a|e] w1]; simpl in *; [|done].
  eapply extends_trans; [done|apply Hk].
Qed.

Lemma grows_try {A : Type} (m : io A) (h : string -> io A) :
  grows m -> (forall e, grows (h e)) -> grows (try_except m h).
Proof.
  intros Hm Hh w. unfold try_except. specialize (Hm w).
  destruct (m w) as [[a|e] w1]; simpl in *; [done|].
  eapply extends_trans; [done|apply Hh].
Qed.

Lemma grows_client_get url : grows (client_get E url).
Proof.
  intros w. unfold client_get.
  destruct (http_get E (requests w) url); apply extends_log.
Qed.

Lemma grows_raise_for_status code url : grows (raise_for_status E code url).
Proof. unfold raise_for_status. destruct (status_error E code url); by intros w. Qed.

Lemma grows_fetch_doc_page url : grows (fetch_doc_page E url).
Proof.
  intros w. unfold fetch_doc_page.
  destruct (doc_cache w !! url) as [content|] eqn:Hw; [apply extends_refl|].
  unfold bind, client_get, raise_for_status, ret, raise.
  destruct (http_get E (requests w) _) as [e|code html]; [apply extends_log|].
  destruct (status_error E code _); [apply extends_log|]. simpl.
  split_and!; simpl; [by apply insert_subseteq|done|by apply prefix_app_r].
Qed.

Lemma grows_fetch_github_file path : grows (fetch_github_file E path).
Proof.
  intros w. unfold fetch_github_file.
  destruct (github_cache w !! path) as [content|] eqn:Hw; [apply extends_refl|].
  unfold bind, client_get, raise_for_status, ret, raise.
  destruct (http_get E (requests w) _) as [e|code html]; [apply extends_log|].
  destruct (status_error E code _); [apply extends_log|]. simpl.
  split_and!; simpl; [done|by apply insert_subseteq|by apply prefix_app_r].
Qed.

(** The steps that build a growing coroutine from growing parts. *)
Ltac grow_with known :=
  repeat first
    [ known
    | apply grows_ret | apply grows_raise | apply grows_lift
    | apply grows_client_get | apply grows_raise_for_status
    | apply grows_fetch_doc_page | apply grows_fetch_github_file
    | assumption
    | apply grows_bind; [|intros]
    | apply grows_try; [|intros]
    | match goal with
      | |- grows (match ?x with _ => _ end) => destruct x
      | |- grows (if ?b then _ else _) => destruct b
      | |- grows (let (_, _) := ?x in _) => destruct x
      end ].

Ltac grow := grow_with fail.

Lemma grows_get_github_structure : grows (get_github_structure E).
Proof. unfold get_github_structure. grow. Qed.

Lemma grows_search_links query_terms links results :
  grows (search_links E query_terms links results).
Proof.
  revert results. induction links as [|link links IH]; intros results; simpl;
    grow_with ltac:(apply IH).
Qed.

Lemma grows_search_docs query : grows (search_docs E query).
Proof. unfold search_docs. grow_with ltac:(apply grows_search_links). Qed.

Lemma grows_search_root_files query_terms fs acc :
  grows (search_root_files E query_terms fs acc).
Proof.
  revert acc. induction fs as [|file fs IH]; intros acc; simpl; grow_with ltac:(apply IH).
Qed.

Lemma grows_search_rows query_terms items acc :
  grows (search_rows E query_terms items acc).
Proof.
  revert acc. induction items as [|item items IH]; intros acc; simpl;
    grow_with ltac:(apply IH).
Qed.

Lemma grows_search_directory query_terms dir_path search_errors :
  grows (search_directory E query_terms dir_path search_errors).
Proof.
  intros w. unfold search_directory.
  pose proof (grows_client_get (GITHUB_URL +:+ "/tree/main/" +:+ dir_path) w) as Hget.
  destruct (client_get E _ w) as [[[code html]|e] w1]; simpl in *; [|done].
  destruct (decide (code = 404)); [done|].
  destruct (status_error E code _); [done|].
  eapply extends_trans; [done|apply grows_search_rows].
Qed.

Lemma grows_search_directories query_terms dirs acc :
  grows (search_directories E query_terms dirs acc).
Proof.
  revert acc. induction dirs as [|dir_name dirs IH]; intros acc; simpl;
    grow_with ltac:(first [apply grows_search_directory | apply IH]).
Qed.

Lemma grows_search_github query : grows (search_github E query).
Proof.
  unfold search_github.
  grow_with ltac:(first [apply grows_get_github_structure | apply grows_search_root_files
                        | apply grows_search_directories]).
Qed.

Lemma grows_descend search subdirs acc :
  (forall subdir acc, grows (search subdir acc)) -> grows (descend search subdirs acc).
Proof.
  intros Hs. revert acc. induction subdirs as [|subdir subdirs IH]; intros acc; simpl;
    grow_with ltac:(first [apply Hs | apply IH]).
Qed.

Lemma grows_files_search_directory fuel filename_pattern dir_path acc :
  grows (files_search_directory E fuel filename_pattern dir_path acc).
Proof.
  revert dir_path acc. induction fuel as [|fuel IH]; intros dir_path acc; [grow|].
  intros w. cbn [files_search_directory].
  pose proof (grows_client_get (GITHUB_URL +:+ "/tree/main/" +:+ dir_path) w) as Hget.
  destruct (client_get E _ w) as [[[code html]|e] w1]; simpl in *; [|done].
  destruct (decide (code = 404)); [done|].
  destruct (status_error E code _); [done|].
  destruct (foldl _ _ _) as [[matches errs] subdirs].
  eapply extends_trans; [done|]. by apply grows_descend.
Qed.

Lemma grows_files_search_all filename_pattern dirs acc :
  grows (files_search_all E filename_pattern dirs acc).
Proof.
  revert acc. induction dirs as [|directory dirs IH]; intros acc;
    cbn [files_search_all];
    grow_with ltac:(first [apply grows_files_search_directory | apply IH]).
Qed.

Lemma grows_search_files filename_pattern : grows (search_files E filename_pattern).
Proof.
  unfold search_files.
  grow_with ltac:(first [apply grows_get_github_structure | apply grows_files_search_all]).
Qed.

Lemma grows_get_section page section : grows (get_section E page section).
Proof. unfold get_section. grow. Qed.

Lemma grows_get_doc path : grows (get_doc E path).
Proof. unfold get_doc. grow. Qed.

Lemma grows_gather {A : Type} (task : string -> io A) args :
  (forall arg, grows (task arg)) -> grows (gather task args).
Proof.
  intros Ht. induction args as [|arg args IH]; simpl;
    grow_with ltac:(first [apply Ht | apply IH]).
Qed.

Lemma grows_process_directory dir_path max_depth :
  grows (process_directory E dir_path max_depth).
Proof.
  revert dir_path. induction max_depth as [|depth IH]; intros dir_path;
    cbn [process_directory]; grow_with ltac:(by apply grows_gather).
Qed.

Lemma grows_list_github_structure : grows (list_github_structure E).
Proof.
  unfold list_github_structure, process_all.
  grow_with ltac:(first [apply grows_get_github_structure
                        | apply grows_gather; intros; apply grows_process_directory]).
Qed.

Lemma grows_probe_page name url : grows (probe_page E name url).
Proof. unfold probe_page. grow. Qed.

Lemma grows_probe_all url_of names : grows (probe_all E url_of names).
Proof.
  induction names as [|name names IH]; simpl;
    grow_with ltac:(first [apply grows_probe_page | apply IH]).
Qed.

Lemma grows_run_diagnostics now : grows (run_diagnostics E now).
Proof.
  unfold run_diagnostics, check_documentation, check_github.
  grow_with ltac:(first [apply grows_probe_all | apply grows_probe_page]).
  intros w. apply extends_refl.
Qed.

Lemma grows_for_each {A S : Type} (body : S -> A -> io S) l st :
  (forall st x, grows (body st x)) -> grows (for_each body l st).
Proof.
  intros Hbody. revert st. induction l as [|x l IH]; intros st; simpl;
    grow_with ltac:(first [apply Hbody | apply IH]).
Qed.

Lemma grows_add_match term st path : grows (add_match E term st path).
Proof. unfold add_match. grow. Qed.

Lemma grows_search_term st term : grows (search_term E st term).
Proof.
  unfold search_term.
  grow_with ltac:(first [ apply grows_search_files
                        | apply grows_for_each; intros; apply grows_add_match ]).
Qed.

Lemma grows_add_direct matched_by st path : grows (add_direct E matched_by st path).
Proof. unfold add_direct. grow. Qed.

Lemma grows_examples_row topic_terms st item : grows (examples_row E topic_terms st item).
Proof. unfold examples_row. grow. Qed.

Lemma grows_additional_row topic_terms dir_path st item :
  grows (additional_row E topic_terms dir_path st item).
Proof. unfold additional_row. grow. Qed.

Lemma grows_core_row topic_terms st item : grows (core_row E topic_terms st item).
Proof. unfold core_row. grow. Qed.

Lemma grows_additional_directory topic_terms st dir_path :
  grows (additional_directory E topic_terms st dir_path).
Proof.
  unfold additional_directory.
  grow_with ltac:(apply grows_for_each; intros; apply grows_additional_row).
Qed.

Lemma grows_get_code_examples topic : grows (get_code_examples E topic).
Proof.
  unfold get_code_examples, collect_examples, by_filename, examples_directory,
    core_directory.
  grow_with ltac:(first
    [ apply grows_for_each; intros;
      first [ apply grows_search_term | apply grows_add_direct
            | apply grows_examples_row | apply grows_additional_directory
            | apply grows_core_row ] ]).
Qed.

Lemma grows_source_row class_or_function source_results item :
  grows (source_row E class_or_function source_results item).
Proof. unfold source_row. grow. Qed.

Lemma grows_source_directory class_or_function source_results dir_path :
  grows (source_directory E class_or_function source_results dir_path).
Proof.
  unfold source_directory.
  grow_with ltac:(apply grows_for_each; intros; apply grows_source_row).
Qed.

Lemma grows_get_api_docs class_or_function : grows (get_api_docs E class_or_function).
Proof.
  unfold get_api_docs.
  grow_with ltac:(first [ apply grows_search_docs
                        | apply grows_for_each; intros; apply grows_source_directory ]).
Qed.

(** Whatever happens, every tool leaves each cached entry as it was and
    only appends to the log of requests. *)
Theorem world_only_grows :
  (forall key, grows (fetch_doc_page E key) /\ grows (fetch_github_file E key)
               /\ grows (get_github_file E key))
  /\ (forall query, grows (search_docs E query) /\ grows (search_github E query)
                    /\ grows (search_files E query))
  /\ (forall page section, grows (get_section E page section) /\ grows (get_doc E page))
  /\ (forall dir_path max_depth, grows (process_directory E dir_path max_depth))
  /\ grows (list_github_structure E)
  /\ grows (get_doc_index E)
  /\ (forall now, grows (run_diagnostics E now)).
Proof.
  split_and!; intros; split_and?;
    first [ apply grows_fetch_doc_page | apply grows_fetch_github_file
          | apply grows_search_docs | apply grows_search_github
          | apply grows_search_files | apply grows_get_section | apply grows_get_doc
          | apply grows_process_directory | apply grows_list_github_structure
          | apply grows_run_diagnostics
          | unfold get_github_file, get_doc_index; grow ].
Qed.

(** The same holds of the two tools that look a name up in several
    places: whatever they find and whatever fails on the way, cached
    entries stay and the log of requests only grows. *)
Theorem lookups_only_grow (name : string) :
  grows (get_code_examples E name) /\ grows (get_api_docs E name).
Proof. split; [apply grows_get_code_examples|apply grows_get_api_docs]. Qed.

End Growth.

(** ** Replies of the search tools *)

Section Replies.

Variable E : collaborators.

Lemma returns_ret {A : Type} (a : A) : returns (ret a).
Proof. by intros w. Qed.

Lemma returns_bind {A B : Type} (m : io A) (k : A -> io B) :
  returns m -> (forall a, returns (k a)) -> returns (bind m k).
Proof.
  intros Hm Hk w. apply post_bind. eapply post_mono; [apply Hm| |done].
  intros a w' _. apply Hk.
Qed.

Lemma returns_try {A : Type} (m : io A) (h : string -> io A) :
  (forall e, returns (h e)) -> returns (try_except m h).
Proof.
  intros Hh w. apply post_try. unfold post at 1.
  destruct (m w) as [[a|e] w']; [done|apply Hh].
Qed.

Ltac return_with known :=
  repeat first
    [ known
    | apply returns_ret
    | apply returns_try; intros
    | apply returns_bind; [|intros]
    | match goal with
      | |- returns (match ?x with _ => _ end) => destruct x
      | |- returns (if ?b then _ else _) => destruct b
      | |- returns (let (_, _) := ?x in _) => destruct x
      end ].

Lemma returns_get_github_structure : returns (get_github_structure E).
Proof. unfold get_github_structure. return_with fail. Qed.

Lemma returns_search_links query_terms links results :
  returns (search_links E query_terms links results).
Proof.
  revert results. induction links as [|link links IH]; intros results; simpl;
    return_with ltac:(apply IH).
Qed.

Lemma returns_search_root_files query_terms fs acc :
  returns (search_root_files E query_terms fs acc).
Proof.
  revert acc. induction fs as [|file fs IH]; intros acc; simpl;
    return_with ltac:(apply IH).
Qed.

Lemma returns_search_rows query_terms items acc :
  returns (search_rows E query_terms items acc).
Proof.
  revert acc. induction items as [|item items IH]; intros acc; simpl;
    return_with ltac:(apply IH).
Qed.

Lemma returns_search_directory query_terms dir_path search_errors :
  returns (search_directory E query_terms dir_path search_errors).
Proof.
  intros w. unfold post, search_directory.
  destruct (client_get E _ w) as [[[code html]|e] w1]; [|done].
  destruct (decide (code = 404)); [done|].
  destruct (status_error E code _); [done|].
  apply returns_search_rows.
Qed.

Lemma returns_search_directories query_terms dirs acc :
  returns (search_directories E query_terms dirs acc).
Proof.
  revert acc. induction dirs as [|dir_name dirs IH]; intros acc; simpl;
    return_with ltac:(first [apply returns_search_directory | apply IH]).
Qed.

Lemma returns_descend search subdirs acc :
  (forall subdir acc, returns (search subdir acc)) -> returns (descend search subdirs acc).
Proof.
  intros Hs. revert acc. induction subdirs as [|subdir subdirs IH]; intros acc; simpl;
    return_with ltac:(first [apply Hs | apply IH]).
Qed.

Lemma returns_files_search_directory fuel filename_pattern dir_path acc :
  returns (files_search_directory E fuel filename_pattern dir_path acc).
Proof.
  revert dir_path acc. induction fuel as [|fuel IH]; intros dir_path acc;
    [apply returns_ret|].
  intros w. cbn [files_search_directory]. unfold post at 1.
  destruct (client_get E _ w) as [[[code html]|e] w1]; [|done].
  destruct (decide (code = 404)); [done|].
  destruct (status_error E code _); [done|].
  destruct (foldl _ _ _) as [[matches errs] subdirs].
  by apply returns_descend.
Qed.

Lemma returns_files_search_all filename_pattern dirs acc :
  returns (files_search_all E filename_pattern dirs acc).
Proof.
  revert acc. induction dirs as [|directory dirs IH]; intros acc;
    cbn [files_search_all];
    return_with ltac:(first [apply returns_files_search_directory | apply IH]).
Qed.

(** The listing of the root never fails: one request, then either an error
    with empty lists or a structure that is not empty (the four default
    directories stand in for an empty page). *)
Theorem root_structure_never_empty (w : world) :
  exists s,
    get_github_structure E w = (Return s, log_request (GITHUB_URL +:+ "/tree/main") w)
    /\ match structure_error s with
       | Some _ => files s = [] /\ directories s = []
       | None => files s <> [] \/ directories s <> []
       end.
Proof.
  unfold get_github_structure, try_except, bind, client_get, raise_for_status, ret, raise.
  destruct (http_get E (requests w) _) as [e|code html]; simpl; [by eexists|].
  destruct (status_error E code _); simpl; [by eexists|].
  eexists. split; [done|]. unfold root_structure_of.
  destruct (match file_items (parse E html) with [] => _ | _ => _ end) as [fs ds].
  destruct fs, ds; simpl; auto.
Qed.

Lemma fetch_doc_page_sent url w :
  (length (requests (fetch_doc_page E url w).2) <= length (requests w) + 1)%nat.
Proof.
  unfold fetch_doc_page. destruct (doc_cache w !! url); simpl; [lia|].
  unfold bind, client_get, raise_for_status, ret, raise.
  destruct (http_get E (requests w) _) as [e|code html]; simpl;
    [rewrite length_app; simpl; lia|].
  destruct (status_error E code _); simpl; rewrite length_app; simpl; lia.
Qed.

Lemma search_page_length query_terms url title content :
  (length (search_page query_terms url title content) <= 1)%nat.
Proof.
  unfold search_page. repeat case_match; simpl; lia.
Qed.

Lemma search_links_bound query_terms links results w :
  post (search_links E query_terms links results) w
    (fun results' w' =>
       (length results' <= length results + length links)%nat
       /\ (length (requests w') <= length (requests w) + length links)%nat)
    (fun _ _ => False).
Proof.
  revert results w. induction links as [|link links IH]; intros results w; simpl.
  - apply post_ret. lia.
  - apply post_bind. unfold post at 1, try_except, bind, ret.
    pose proof (fetch_doc_page_sent (urljoin E DOCS_URL link) w) as Hsent.
    destruct (fetch_doc_page E _ w) as [[content|e] w1]; simpl in Hsent.
    + eapply post_mono; [apply IH| |done]. intros results' w' [Hr Hw].
      rewrite length_app in Hr.
      pose proof (search_page_length query_terms (urljoin E DOCS_URL link) link content).
      lia.
    + eapply post_mono; [apply IH| |done]. intros results' w' [Hr Hw]. lia.
Qed.

(** [search_docs] reads the main page and at most twenty linked pages: it
    sends at most 21 requests, and answers with a message or with a JSON
    list of 1 to 21 results. *)
Theorem search_docs_bounded (query : string) (w : world) :
  (length (requests (search_docs E query w).2) <= length (requests w) + 21)%nat
  /\ exists r,
       (search_docs E query w).1 = Return r
       /\ match r with
          | Text _ => True
          | Dumps (JList results) => (1 <= length results <= 21)%nat
          | Dumps _ => False
          end.
Proof.
  unfold search_docs. destruct (negb _); [simpl; split; [lia|by eexists]|].
  set (terms := Py.split _). unfold try_except, bind, ret.
  pose proof (fetch_doc_page_sent DOCS_URL w) as Hsent.
  destruct (fetch_doc_page E DOCS_URL w) as [[content|e] w1]; simpl in Hsent;
    [|simpl; split; [lia|by eexists]].
  pose proof (search_links_bound terms (take 20 (page_links (parse E content)))
                (search_page terms DOCS_URL "Main Page" content) w1) as Hlinks.
  unfold post in Hlinks.
  destruct (search_links _ _ _ _ _) as [[results|e] w2]; [|done].
  destruct Hlinks as [Hr Hw].
  pose proof (List.firstn_le_length 20 (page_links (parse E content))) as Htake.
  pose proof (search_page_length terms DOCS_URL "Main Page" content).
  destruct results as [|r results]; simpl in *; (split; [lia|eexists; split; [done|]]);
    [done|simpl; lia].
Qed.

(** For a query that is not blank [search_github] always answers with
    JSON: an object with the results found, or with an error message when
    there is none, and in both cases the debug information that lists the
    six key directories.  Its outer handler is never reached. *)
Theorem search_github_always_json (query : string) (w : world) :
  Py.lower (Py.strip query) <> EmptyString ->
  exists key payload errors,
    (search_github E query w).1
    = Return (Dumps (JDict
        [(key, payload);
         ("debug_info", JDict
            [("search_query", JString (Py.lower (Py.strip query)));
             ("search_terms", JStrings (Py.split (Py.lower (Py.strip query))));
             ("directories_searched",
               JStrings ["openai"; "examples"; "docs"; "src"; "src/agents"; "tests"]);
             ("errors", errors_or_none errors)])]))
    /\ ((key = "error" /\ exists message, payload = JString message)
        \/ (key = "results" /\ exists r rs, payload = JList (r :: rs))).
Proof.
  intros Hq. unfold search_github.
  rewrite (truthy_nonempty _ Hq). cbn [negb].
  set (terms := Py.split _). unfold try_except, bind.
  pose proof (returns_get_github_structure w) as Hroot. unfold post in Hroot.
  destruct (get_github_structure E w) as [[structure0|e] w1]; [|done].
  destruct (match structure_error structure0 with Some _ => _ | None => _ end)
    as [search_errors structure1].
  pose proof (returns_search_root_files terms (files structure1) ([], search_errors) w1)
    as Hfiles. unfold post in Hfiles.
  destruct (search_root_files _ _ _ _ _) as [[acc|e] w2]; [|done].
  pose proof (returns_search_directories terms github_key_dirs acc w2) as Hdirs.
  unfold post in Hdirs.
  destruct (search_directories _ _ _ _ _) as [[[results errors]|e] w3]; [|done].
  destruct results as [|r rs]; simpl.
  - eexists _, _, errors. split; [done|]. left. split; [done|by eexists].
  - eexists _, _, errors. split; [done|]. right. split; [done|by eexists _, _].
Qed.

(** [search_files] rejects a blank pattern before any request and leaves
    the world as it was; for any other pattern it always answers with JSON
    whose debug information lists its five key directories, with the
    matches or, when there is none, an error message. *)
Theorem search_files_replies (filename_pattern : string) (w : world) :
  (blank filename_pattern = true \/ Py.strip filename_pattern = EmptyString ->
   search_files E filename_pattern w
   = (Return (Text "Please provide a filename pattern to search for."), w))
  /\ (Py.lower (Py.strip filename_pattern) <> EmptyString ->
      exists key payload errors,
        (search_files E filename_pattern w).1
        = Return (Dumps (JDict
            [(key, payload);
             ("debug_info", JDict
                [("search_pattern", JString (Py.lower (Py.strip filename_pattern)));
                 ("directories_searched",
                   JStrings ["examples"; "src"; "docs"; "test"; "tests"]);
                 ("errors", errors_or_none errors)])]))
        /\ ((key = "error" /\ exists message, payload = JString message)
            \/ (key = "matches" /\ exists m ms, payload = JList (m :: ms)))).
Proof.
  split.
  - intros Hq. unfold search_files.
    assert (Py.strip filename_pattern = EmptyString) as ->; [|done].
    destruct Hq as [Hb|Hs]; [by apply strip_blank|done].
  - intros Hq. unfold search_files.
    rewrite (truthy_nonempty _ Hq). cbn [negb].
    set (pattern := Py.lower (Py.strip filename_pattern)) in *.
    unfold try_except at 1 2, bind.
    pose proof (returns_get_github_structure w) as Hroot. unfold post in Hroot.
    destruct (get_github_structure E w) as [[structure0|e] w1]; [|done].
    set (start := match structure_error structure0 with Some _ => _ | None => _ end).
    assert (Hstart : exists errs structure1, start w1 = (Return (errs, structure1), w1)).
    { unfold start. destruct (structure_error structure0); by eexists _, _. }
    destruct Hstart as (errs & structure1 & ->).
    pose proof (returns_files_search_all pattern files_key_dirs
                  (root_matches pattern (files structure1), errs) w1) as Hall.
    unfold post in Hall.
    destruct (files_search_all _ _ files_key_dirs _ _) as [[[matches errs1]|e] w2];
      [|done].
    cbn [fst].
    destruct matches as [|m ms].
    + pose proof (returns_files_search_all pattern direct_paths ([], errs1) w2) as Hdirect.
      unfold post in Hdirect.
      destruct (files_search_all _ _ direct_paths _ _) as [[[matches errs2]|e] w3];
        [|done].
      destruct matches as [|m ms]; simpl.
      * destruct errs2; eexists _, _, _; (split; [done|]); left; split; try done;
          by eexists.
      * eexists _, _, errs2. split; [done|]. right. split; [done|by eexists _, _].
    + simpl. eexists _, _, errs1. split; [done|]. right. split; [done|by eexists _, _].
Qed.

End Replies.

Lemma search_github_always_json_witness :
  exists key payload errors,
    (search_github offline " Agent " empty_world).1
    = Return (Dumps (JDict
        [(key, payload);
         ("debug_info", JDict
            [("search_query", JString "agent");
             ("search_terms", JStrings ["agent"]);
             ("directories_searched",
               JStrings ["openai"; "examples"; "docs"; "src"; "src/agents"; "tests"]);
             ("errors", errors_or_none errors)])]))
    /\ ((key = "error" /\ exists message, payload = JString message)
        \/ (key = "results" /\ exists r rs, payload = JList (r :: rs))).
Proof. apply (search_github_always_json offline " Agent " empty_world). done. Defined.

Lemma search_files_replies_witness :
  search_files offline white_space empty_world
  = (Return (Text "Please provide a filename pattern to search for."), empty_world)
  /\ exists key payload errors,
       (search_files welcome_site "Agent.py" empty_world).1
       = Return (Dumps (JDict
           [(key, payload);
            ("debug_info", JDict
               [("search_pattern", JString "agent.py");
                ("directories_searched",
                  JStrings ["examples"; "src"; "docs"; "test"; "tests"]);
                ("errors", errors_or_none errors)])]))
       /\ ((key = "error" /\ exists message, payload = JString message)
           \/ (key = "matches" /\ exists m ms, payload = JList (m :: ms))).
Proof.
  split.
  - apply (search_files_replies offline white_space empty_world). left. reflexivity.
  - apply (search_files_replies welcome_site "Agent.py" empty_world). done.
Defined.

(** ** Pages and sections *)

Section Pages.

Variable E : collaborators.

Lemma drop_append s p : Py.drop (String.length s) (s +:+ p) = p.
Proof. induction s as [|c s IH]; simpl; [by destruct p|done]. Qed.

Lemma endswith_append s p : Py.endswith (s +:+ p) p = true.
Proof.
  unfold Py.endswith. rewrite length_append.
  replace (String.length s + String.length p - String.length p)%nat
    with (String.length s) by lia.
  rewrite drop_append. apply andb_true_intro. split.
  - apply Nat.leb_le. lia.
  - by apply bool_decide_eq_true.
Qed.

(** The address that [get_section] and [get_doc] request always ends in
    ".html", and an address that already does is requested as it is. *)
Theorem page_url_ends_in_html (page : string) :
  Py.endswith (page_url E page) ".html" = true
  /\ (Py.startswith page "http" = true -> Py.endswith page ".html" = true ->
      page_url E page = page).
Proof.
  split.
  - unfold page_url.
    destruct (Py.endswith (if Py.startswith page "http" then _ else _) ".html") eqn:Hend;
      simpl; [done|apply endswith_append].
  - intros Hhttp Hend. unfold page_url. rewrite Hhttp, Hend. done.
Qed.

(** [get_section] asks for both arguments before any request; a page that
    is missing gives the message that names the page as it was passed; an
    error of the transport or of the status gives the error message.  In
    each of these cases at most the one request was sent. *)
Theorem get_section_errors (page section : string) (w : world) :
  (page = EmptyString \/ section = EmptyString ->
   get_section E page section w
   = (Return (Text "Please provide both a page path and section name."), w))
  /\ (page <> EmptyString -> section <> EmptyString ->
      match http_get E (requests w) (page_url E page) with
      | ConnectError e =>
          get_section E page section w
          = (Return (Text ("Error retrieving section: " +:+ e)),
             log_request (page_url E page) w)
      | Response code body =>
          if decide (code = 404) then
            get_section E page section w
            = (Return (Text ("Documentation page not found: " +:+ page)),
               log_request (page_url E page) w)
          else
            match status_error E code (page_url E page) with
            | Some e =>
                get_section E page section w
                = (Return (Text ("Error retrieving section: " +:+ e)),
                   log_request (page_url E page) w)
            | None =>
                exists r, get_section E page section w
                          = (Return r, log_request (page_url E page) w)
            end
      end).
Proof.
  split.
  - intros [-> | ->]; unfold get_section; [done|]. by destruct page.
  - intros Hpage Hsection. unfold get_section.
    rewrite (truthy_nonempty page), (truthy_nonempty section) by done. simpl.
    unfold try_except, bind, client_get, raise_for_status, lift, ret, raise.
    destruct (http_get E (requests w) _) as [e|code html]; [done|].
    destruct (decide (code = 404)); [done|].
    destruct (status_error E code _); [done|].
    destruct (extract_section _ _ _); by eexists.
Qed.

(** Every page that [get_doc] suggests and [get_doc_index] lists is a link
    of the site: its address starts with none of "http://", "https://",
    "#" and "javascript:". *)
Lemma site_pages_local doc j :
  In j (site_pages doc) ->
  exists title href,
    j = JDict [("title", JString title); ("href", JString href)]
    /\ is_site_link href = true
    /\ (title = href \/ title <> EmptyString).
Proof.
  unfold site_pages. rewrite in_flat_map. intros (a & _ & Hj).
  destruct (is_site_link (get_attr "href" a)) eqn:Hlocal; [|done].
  destruct Hj as [<-|[]]. eexists _, _. split; [done|]. split; [done|].
  destruct (get_text_strip a); simpl; [by left|by right].
Qed.

(** [get_doc] asks for a path before any request.  When the page is
    missing it fetches the index with a second request and answers with
    JSON: the error and at most twenty pages of the site. *)
Theorem get_doc_errors (path : string) (w : world) :
  get_doc E EmptyString w
  = (Return (Text "Please provide a documentation page path."), w)
  /\ (path <> EmptyString ->
      forall body index_code index_body,
        http_get E (requests w) (page_url E path) = Response 404 body ->
        http_get E (requests w ++ [page_url E path]) DOCS_URL
        = Response index_code index_body ->
        status_error E index_code DOCS_URL = None ->
        exists pages,
          get_doc E path w
          = (Return (Dumps (JDict
               [("error", JString ("Documentation page not found: " +:+ path));
                ("available_pages", JList pages)])),
             log_request DOCS_URL (log_request (page_url E path) w))
          /\ (length pages <= 20)%nat
          /\ forall j, In j pages ->
               exists title href,
                 j = JDict [("title", JString title); ("href", JString href)]
                 /\ is_site_link href = true).
Proof.
  split; [done|].
  intros Hpath body index_code index_body Hget Hindex Hstatus. unfold get_doc.
  rewrite (truthy_nonempty path) by done. simpl.
  unfold try_except, bind, client_get, raise_for_status, ret, raise.
  rewrite Hget. simpl. rewrite Hindex. simpl. rewrite Hstatus. simpl.
  eexists. split; [done|]. split.
  - apply List.firstn_le_length.
  - intros j Hj. apply list_elem_of_In, elem_of_take in Hj as (i & Hj & _).
    apply list_elem_of_lookup_2, list_elem_of_In, site_pages_local in Hj
      as (title & href & -> & Hlocal & _).
    by eexists _, _.
Qed.

End Pages.

Lemma page_url_ends_in_html_witness :
  Py.startswith "https://openai.github.io/openai-agents-python/agents.html" "http" = true
  /\ page_url offline "https://openai.github.io/openai-agents-python/agents.html"
     = "https://openai.github.io/openai-agents-python/agents.html".
Proof.
  split; [reflexivity|].
  apply (page_url_ends_in_html offline
           "https://openai.github.io/openai-agents-python/agents.html"); reflexivity.
Defined.

Lemma get_section_errors_witness :
  get_section offline "agents" "" empty_world
  = (Return (Text "Please provide both a page path and section name."), empty_world)
  /\ get_section offline "agents" "Usage" empty_world
     = (Return (Text "Error retrieving section: All connection attempts failed"),
        World ∅ ∅ ["https://openai.github.io/openai-agents-python/agents.html"]).
Proof.
  destruct (get_section_errors offline "agents" "" empty_world) as [Hblank _].
  destruct (get_section_errors offline "agents" "Usage" empty_world) as [_ Hfail].
  split; [apply Hblank; by right|].
  apply (Hfail ltac:(done) ltac:(done)).
Defined.


Lemma get_doc_errors_witness :
  exists pages,
    get_doc index_site "tracing" empty_world
    = (Return (Dumps (JDict
         [("error", JString "Documentation page not found: tracing");
          ("available_pages", JList pages)])),
       log_request DOCS_URL (log_request (page_url index_site "tracing") empty_world))
    /\ (length pages <= 20)%nat
    /\ forall j, In j pages ->
         exists title href,
           j = JDict [("title", JString title); ("href", JString href)]
           /\ is_site_link href = true.
Proof.
  destruct (get_doc_errors index_site "tracing" empty_world) as [_ Hmissing].
  apply (Hmissing ltac:(done) EmptyString 200 index_markup); reflexivity.
Defined.

(** On that site the one link into the site is suggested. *)
Example get_doc_suggests_pages :
  (get_doc index_site "tracing" empty_world).1
  = Return (Dumps (JDict
      [("error", JString "Documentation page not found: tracing");
       ("available_pages",
         JList [JDict [("title", JString "Agents"); ("href", JString "agents.html")]])])).
Proof. reflexivity. Qed.

(** ** The second phase of the heading match, and the extracted section *)

Lemma match_score_nonneg section_lower heading : 0 <= match_score section_lower heading.
Proof. unfold match_score. lia. Qed.

(** The fold of the second phase keeps the best score seen and the first
    heading that reached it. *)
Lemma best_match_spec section_lower headings :
  let step := fun (best : option element * Z) (heading : element) =>
                if best.2 <? match_score section_lower heading
                then (Some heading, match_score section_lower heading) else best in
  let best := foldl step (None, 0) headings in
  Forall (fun x => match_score section_lower x <= best.2) headings
  /\ match best.1 with
     | Some h =>
         match_score section_lower h = best.2 /\ 0 < best.2
         /\ exists before after,
              headings = before ++ h :: after
              /\ Forall (fun x => match_score section_lower x < best.2) before
     | None => best.2 = 0
     end.
Proof.
  intros step. induction headings as [|x headings IH] using rev_ind; simpl.
  - by split.
  - rewrite foldl_app. simpl. destruct IH as [Hall Hbest].
    set (best := foldl step (None, 0) headings) in *.
    destruct (Z.ltb_spec best.2 (match_score section_lower x)) as [Hlt|Hge].
    + assert (step best x = (Some x, match_score section_lower x)) as ->.
      { unfold step. by rewrite (proj2 (Z.ltb_lt _ _) Hlt). }
      simpl. split.
      * apply Forall_app. split; [|by repeat constructor].
        eapply Forall_impl; [done|]. simpl. intros; lia.
      * split; [done|]. split.
        -- destruct best.1 as [h|]; [lia|]. lia.
        -- exists headings, []. split; [done|].
           eapply Forall_impl; [done|]. simpl. intros; lia.
    + assert (step best x = best) as ->.
      { unfold step. by rewrite (proj2 (Z.ltb_ge _ _) Hge). }
      split.
      * apply Forall_app. split; [done|]. repeat constructor. done.
      * destruct best.1 as [h|]; [|done].
        destruct Hbest as (Hs & Hpos & before & after & -> & Hbefore).
        split; [done|]. split; [done|].
        exists before, (after ++ [x]). split; [|done]. by rewrite <- app_assoc.
Qed.

(** The second phase of [get_section] accepts the heading with the most
    words of the section name in its text, the first of the scan among
    equals, and only with at least one word; it accepts none exactly when
    no heading contains a word. *)
Theorem partial_match_best (doc : soup) (section_lower : string) :
  match partial_match doc section_lower with
  | Some h =>
      0 < match_score section_lower h
      /\ Forall (fun x => match_score section_lower x <= match_score section_lower h)
                (all_headings doc)
      /\ exists before after,
           all_headings doc = before ++ h :: after
           /\ Forall (fun x => match_score section_lower x < match_score section_lower h)
                     before
  | None => Forall (fun x => match_score section_lower x = 0) (all_headings doc)
  end.
Proof.
  unfold partial_match.
  pose proof (best_match_spec section_lower (all_headings doc)) as Hspec.
  cbv zeta in Hspec.
  set (best := foldl _ (None, 0) (all_headings doc)) in *.
  destruct Hspec as [Hall Hbest].
  destruct (Z.ltb_spec 0 best.2) as [Hpos|Hzero].
  - destruct best.1 as [h|]; [|lia].
    destruct Hbest as (Hs & _ & before & after & Heq & Hbefore).
    rewrite Hs. split; [done|]. split; [done|]. by exists before, after.
  - eapply Forall_impl; [done|]. simpl. intros x Hx.
    pose proof (match_score_nonneg section_lower x). lia.
Qed.

(** The section below a heading, where the walk meets no tag that it takes
    for a heading by mistake.  The walk passes the siblings that are true
    and no boundary; each adds its text to the content: a tag its stripped
    text, a string or a comment its stripped text when that is not empty.
    It ends at the first heading of the same or a higher rank, which is
    left out and bounds the code examples, or at a string or comment that
    is empty, or after the last sibling; in the last two cases there are
    no code examples. *)
Theorem section_up_to_boundary
    (doc : soup) (section full_url : string) (found_heading : element)
    (heading_level : Z) (before : list node) :
  find_heading doc (Py.lower section) = Some found_heading ->
  level_of (el found_heading) = Return heading_level ->
  Forall (passed heading_level) before ->
  flat_map node_content before <> [] ->
  (forall boundary after,
      next_siblings found_heading = before ++ boundary :: after ->
      is_boundary heading_level boundary = Return true ->
      extract_section doc section full_url
      = Return (Dumps (JDict
          [("section", JString (get_text (el found_heading)));
           ("content", JString (Py.join newline (flat_map node_content before)));
           ("code_examples",
             JStrings (section_code_examples doc (el found_heading) (Some boundary)));
           ("page_url", JString full_url)])))
  /\ (forall last after,
      next_siblings found_heading = before ++ last :: after ->
      node_truthy last = false ->
      extract_section doc section full_url
      = Return (Dumps (JDict
          [("section", JString (get_text (el found_heading)));
           ("content", JString (Py.join newline (flat_map node_content before)));
           ("code_examples", JList []);
           ("page_url", JString full_url)])))
  /\ (next_siblings found_heading = before ->
      extract_section doc section full_url
      = Return (Dumps (JDict
          [("section", JString (get_text (el found_heading)));
           ("content", JString (Py.join newline (flat_map node_content before)));
           ("code_examples", JList []);
           ("page_url", JString full_url)])))
  /\ (forall s,
      node_content (NavigableString s) = node_content (Comment s)
      /\ node_content (Comment s)
         = if Py.truthy (Py.strip s) then [Py.strip s] else []).
Proof.
  intros Hfound Hlevel Hbefore Hcontent. split_and!.
  - intros boundary after Hsiblings Hboundary. unfold extract_section.
    rewrite Hfound, Hlevel, Hsiblings, walk_siblings_boundary by done.
    by destruct (flat_map node_content before).
  - intros last after Hsiblings Hlast. unfold extract_section.
    rewrite Hfound, Hlevel, Hsiblings, walk_siblings_false by done.
    destruct (flat_map node_content before) eqn:Hc; [done|].
    by rewrite section_code_examples_none.
  - intros Hsiblings. unfold extract_section.
    rewrite Hfound, Hlevel, Hsiblings, walk_siblings_end by done.
    destruct (flat_map node_content before) eqn:Hc; [done|].
    by rewrite section_code_examples_none.
  - done.
Qed.

(** On [comment_page] the comment after the heading is part of the
    content of the section. *)
Lemma section_up_to_boundary_witness :
  extract_section comment_page "Usage" "https://openai.github.io/openai-agents-python/guide.html"
  = Return (Dumps (JDict
      [("section", JString "Usage");
       ("content", JString (Py.join newline ["hidden"; "First."]));
       ("code_examples", JStrings []);
       ("page_url", JString "https://openai.github.io/openai-agents-python/guide.html")])).
Proof.
  destruct (section_up_to_boundary comment_page "Usage"
              "https://openai.github.io/openai-agents-python/guide.html"
              (Element (heading "h2" 1 "Usage") (tail comment_page) []) 2
              [Comment " hidden "; para 1 "First."; nl]) as [H _].
  - reflexivity.
  - reflexivity.
  - repeat constructor.
  - discriminate.
  - apply (H (heading "h2" 2 "Next") [nl; para 3 "Other."; nl]); reflexivity.
Defined.

(** ** The sections of the API reference *)

Lemma api_boundary_spec heading_level n :
  api_boundary heading_level n = true
  <-> exists tag level,
        In (tag, level) heading_levels /\ node_name n = Some tag /\ level <= heading_level.
Proof.
  unfold api_boundary, tag_level. destruct (node_name n) as [name|]; split.
  - destruct (bool_decide (name ∈ heading_tags)) eqn:Hin; [|done].
    apply bool_decide_eq_true in Hin.
    repeat (apply elem_of_cons in Hin as [->|Hin]);
      try (simpl; intros Hle%bool_decide_eq_true; eexists _, _;
           split; [|split; [done|exact Hle]]; simpl; tauto).
    by apply elem_of_nil in Hin.
  - intros (tag & level & Hin & [= ->] & Hle).
    simpl in Hin. repeat (destruct Hin as [[= <- <-]|Hin]; [by apply bool_decide_eq_true|]).
    done.
  - done.
  - by intros (tag & level & _ & ? & _).
Qed.

Lemma api_walk_app heading_level before rest st :
  Forall (api_passed heading_level) before ->
  api_walk heading_level (before ++ rest) st
  = api_walk heading_level rest (st.1 ++ prose_of before, st.2 ++ code_of before).
Proof.
  intros Hb. revert st. induction Hb as [|n before [Ht Hn] _ IH]; intros [content code].
  - unfold prose_of, code_of. simpl. by rewrite !app_nil_r.
  - simpl. rewrite Ht, Hn. simpl. rewrite IH. unfold api_step, prose_of, code_of.
    rewrite !filter_cons. destruct (is_code n) eqn:Hcode; simpl.
    + by rewrite <- app_assoc.
    + by rewrite <- app_assoc.
Qed.

(** In [get_api_docs] the walk below a heading of level L stops at the
    first sibling that is one of h1 to h6 with a level of at most L, or at
    a string or comment that is empty, or after the last sibling.  Of the
    siblings before, [pre] and [code] go to the code examples and all the
    others to the content: a tag with its stripped text, a string or a
    comment with its stripped text when that is not empty. *)
Theorem api_section_split (heading_level : Z) (before : list node) :
  Forall (api_passed heading_level) before ->
  (forall boundary after,
      api_boundary heading_level boundary = true ->
      api_walk heading_level (before ++ boundary :: after) ([], [])
      = (prose_of before, code_of before))
  /\ (forall last after,
        node_truthy last = false ->
        api_walk heading_level (before ++ last :: after) ([], [])
        = (prose_of before, code_of before))
  /\ api_walk heading_level before ([], []) = (prose_of before, code_of before)
  /\ (forall n,
        api_boundary heading_level n = true
        <-> exists tag level,
              In (tag, level) heading_levels /\ node_name n = Some tag
              /\ level <= heading_level)
  /\ (forall s,
        prose_of [Comment s] = prose_of [NavigableString s]
        /\ prose_of [Comment s] = if Py.truthy (Py.strip s) then [Py.strip s] else []).
Proof.
  intros Hb. split_and!.
  - intros boundary after Hboundary. rewrite api_walk_app by done. simpl.
    rewrite Hboundary.
    by destruct (node_truthy boundary).
  - intros last after Hlast. rewrite api_walk_app by done. simpl.
    by rewrite Hlast.
  - rewrite <- (app_nil_r before) at 1. by rewrite api_walk_app.
  - intros n. apply api_boundary_spec.
  - intros s. unfold prose_of. simpl. by rewrite !app_nil_r.
Qed.

(** On the page where [get_section] fails, the rule is prose and the
    section ends at the next [h2]; on the page with a code block, the block
    is a code example and not content; on the page with a comment, the
    comment is content. *)
Lemma api_section_split_witness :
  api_walk 2 (tail rule_page) ([], []) = (["First."; ""; "Second."], [])
  /\ api_walk 2 (tail code_page) ([], []) = (["Run it:"], ["agent.run()"])
  /\ api_walk 2 (tail comment_page) ([], []) = (["hidden"; "First."], []).
Proof.
  split_and!.
  - refine (proj1 (api_section_split 2
                     [nl; para 2 "First."; nl; Tag "hr" [] 3 []; nl; para 4 "Second."; nl]
                     _) (heading "h2" 5 "Next") [nl; para 6 "Other."; nl] eq_refl).
    repeat constructor.
  - refine (proj1 (api_section_split 2
                     [nl; para 2 "Run it:"; nl;
                      Tag "pre" [] 3 [NavigableString "agent.run()"]; nl]
                     _) (heading "h2" 4 "Next") [nl] eq_refl).
    repeat constructor.
  - refine (proj1 (api_section_split 2
                     [Comment " hidden "; para 1 "First."; nl]
                     _) (heading "h2" 2 "Next") [nl; para 3 "Other."; nl] eq_refl).
    repeat constructor.
Defined.

(** ** The listing of a directory *)

Section Listing.

Variable E : collaborators.

Lemma startswith_append a b : Py.startswith (a +:+ b) a = true.
Proof.
  induction a as [|c a IH]; simpl; [by destruct b|]. by rewrite decide_True.
Qed.

Lemma append_assoc (a b c : string) : a +:+ b +:+ c = (a +:+ b) +:+ c.
Proof.
  induction a as [|x a IH]; [done|].
  change (String x (a +:+ b +:+ c) = String x ((a +:+ b) +:+ c)). by f_equal.
Qed.

Lemma scan_ok_add_dir dir_path fs ds subdirs name path :
  scan_ok dir_path (fs, ds, subdirs) ->
  Py.startswith path (dir_path +:+ "/") = true ->
  scan_ok dir_path (fs, ds ++ [DirInfo name path None], subdirs ++ [path]).
Proof.
  intros (Hf & Hd & Hs) Hp. split_and!; simpl in *.
  - done.
  - apply Forall_app. split; [done|]. by repeat constructor.
  - apply Forall_app. split.
    + eapply Forall_impl; [done|]. simpl. intros x Hin.
      rewrite fmap_app. apply elem_of_app. by left.
    + repeat constructor. rewrite fmap_app. apply elem_of_app. right. by left.
Qed.

Lemma scan_ok_add_file dir_path fs ds subdirs name path :
  scan_ok dir_path (fs, ds, subdirs) ->
  Py.startswith path (dir_path +:+ "/") = true ->
  scan_ok dir_path (fs ++ [new_file name path], ds, subdirs).
Proof.
  intros (Hf & Hd & Hs) Hp. split_and!; simpl in *; try done.
  apply Forall_app. split; [done|]. by repeat constructor.
Qed.

Lemma dir_row_ok dir_path st item :
  scan_ok dir_path st -> scan_ok dir_path (dir_row dir_path st item).
Proof.
  destruct st as [[fs ds] subdirs]. intros Hst. unfold dir_row.
  destruct (row_link item) as [link|]; [|done].
  destruct (Py.startswith _ (dir_path +:+ "/")) eqn:Hp; [|done].
  destruct (negb _); [|done].
  destruct (row_is_dir _ _); [by apply scan_ok_add_dir|by apply scan_ok_add_file].
Qed.

Lemma dir_link_ok dir_path st link :
  scan_ok dir_path st -> scan_ok dir_path (dir_link dir_path st link).
Proof.
  destruct st as [[fs ds] subdirs]. intros Hst. unfold dir_link.
  destruct (_ && _); [|done].
  destruct (Py.contains "/tree/main/" _).
  - destruct (_ && _); [|done]. apply scan_ok_add_dir; [done|].
    rewrite append_assoc. apply startswith_append.
  - destruct (_ && _); [|done]. apply scan_ok_add_file; [done|].
    rewrite append_assoc. apply startswith_append.
Qed.

Lemma foldl_scan_ok dir_path (f : scan -> node -> scan) items st :
  (forall st item, scan_ok dir_path st -> scan_ok dir_path (f st item)) ->
  scan_ok dir_path st -> scan_ok dir_path (foldl f st items).
Proof.
  intros Hf. revert st. induction items as [|item items IH]; intros st Hst; simpl; [done|].
  apply IH, Hf, Hst.
Qed.

(** Every file and directory that the scan of a directory page lists has a
    path below that directory, the entries made up for an empty page
    included, and every subdirectory it marks for a visit is one of the
    listed directories. *)
Theorem listed_below_directory (dir_path : string) (doc : soup) :
  Forall (fun f => Py.startswith (file_path f) (dir_path +:+ "/") = true)
         (scan_page dir_path doc).1.1
  /\ Forall (fun d => Py.startswith (dir_path_of d) (dir_path +:+ "/") = true)
            (scan_page dir_path doc).1.2
  /\ Forall (fun subdir => subdir ∈ dir_path_of <$> (scan_page dir_path doc).1.2)
            (scan_page dir_path doc).2.
Proof.
  change (scan_ok dir_path (scan_page dir_path doc)). unfold scan_page.
  set (st := match file_items doc with [] => _ | _ => _ end).
  assert (Hst : scan_ok dir_path st).
  { assert (Hnil : scan_ok dir_path ([], [], [])) by by split_and!.
    unfold st. destruct (file_items doc) as [|item items].
    - destruct (repo_content_area doc); [|done].
      apply foldl_scan_ok; [apply dir_link_ok|done].
    - apply foldl_scan_ok; [apply dir_row_ok|done]. }
  clearbody st. destruct st as [[fs ds] subdirs]. unfold with_defaults.
  destruct fs; [|done]. destruct ds; [|done].
  destruct Hst as (_ & _ & Hs). simpl in Hs.
  assert (subdirs = []) as ->.
  { destruct subdirs as [|sd ?]; [done|]. apply Forall_cons in Hs as [Hs _]. set_solver. }
  repeat case_decide; subst; split_and!; simpl; by repeat constructor.
Qed.

Lemma attach_names subdir result ds :
  (fun d => (dir_name d, dir_path_of d)) <$> attach subdir result ds
  = (fun d => (dir_name d, dir_path_of d)) <$> ds.
Proof.
  induction ds as [|d ds IH]; [done|]. cbn [attach].
  destruct (_ || _); rewrite !fmap_cons; [done|]. by rewrite IH.
Qed.

Lemma attach_contents subdir result ds d' :
  d' ∈ attach subdir result ds ->
  d' ∈ ds
  \/ exists d, d ∈ ds /\ d' = DirInfo (dir_name d) (dir_path_of d) (Some result)
               /\ (dir_name d = default EmptyString (last (Py.split_on "/" subdir))
                   \/ dir_path_of d = subdir).
Proof.
  induction ds as [|d ds IH]; cbn [attach]; [by left|].
  destruct (_ || _) eqn:Hmatch.
  - intros [->|Hin]%elem_of_cons; [|left; by right].
    right. exists d. split; [by left|]. split; [done|].
    apply orb_prop in Hmatch as [Hm%bool_decide_eq_true|Hm%bool_decide_eq_true]; auto.
  - intros [->|Hin]%elem_of_cons; [left; by left|].
    destruct (IH Hin) as [?|(d0 & ? & ? & ?)]; [left; by right|].
    right. exists d0. split; [by right|done].
Qed.

Lemma attach_all_names results ds :
  (fun d => (dir_name d, dir_path_of d)) <$> attach_all results ds
  = (fun d => (dir_name d, dir_path_of d)) <$> ds.
Proof.
  unfold attach_all. revert ds.
  induction results as [|[subdir result] results IH]; intros ds; simpl; [done|].
  by rewrite IH, attach_names.
Qed.

(** Attaching the results of the subdirectories never adds, removes,
    renames or moves an entry: names and paths stay as the scan found them,
    in the same order, and an entry that is not as the scan left it holds
    under ["contents"] one of the results, that of a subdirectory with the
    name or the path of the entry. *)
Theorem attach_keeps_entries (results : list (string * listing)) (ds : list dir_info) :
  (fun d => (dir_name d, dir_path_of d)) <$> attach_all results ds
  = (fun d => (dir_name d, dir_path_of d)) <$> ds
  /\ forall d', d' ∈ attach_all results ds ->
       d' ∈ ds
       \/ exists subdir result,
            (subdir, result) ∈ results
            /\ dir_contents d' = Some result
            /\ (dir_name d' = default EmptyString (last (Py.split_on "/" subdir))
                \/ dir_path_of d' = subdir).
Proof.
  split; [apply attach_all_names|].
  unfold attach_all. revert ds.
  induction results as [|[subdir result] results IH]; intros ds d'; simpl.
  - by left.
  - intros Hd'. destruct (IH _ _ Hd') as [Hin|(sd & r & Hin & Hc & Hm)].
    + apply attach_contents in Hin as [?|(d & Hd & -> & Hm)]; [by left|].
      right. exists subdir, result. split; [by left|done].
    + right. exists sd, r. split; [by right|done].
Qed.

(** A directory that cannot be listed gives an error entry and never an
    exception: after the one request, a page that is missing gives
    "Directory not found", and an error of the transport or of the status
    gives "Error processing directory"; nothing below it is requested. *)
Theorem process_directory_errors (dir_path : string) (depth : nat) (w : world) :
  match http_get E (requests w) (tree_url dir_path) with
  | ConnectError e =>
      process_directory E dir_path (S depth) w
      = (Return (Failed ("Error processing directory " +:+ dir_path +:+ ": " +:+ e)),
         log_request (tree_url dir_path) w)
  | Response code body =>
      if decide (code = 404) then
        process_directory E dir_path (S depth) w
        = (Return (Failed ("Directory not found: " +:+ dir_path)),
           log_request (tree_url dir_path) w)
      else
        match status_error E code (tree_url dir_path) with
        | Some e =>
            process_directory E dir_path (S depth) w
            = (Return (Failed ("Error processing directory " +:+ dir_path
                               +:+ ": " +:+ e)),
               log_request (tree_url dir_path) w)
        | None =>
            exists fs ds,
              (process_directory E dir_path (S depth) w).1
              = Return (Listing fs ds dir_path)
        end
  end.
Proof.
  unfold tree_url. cbn [process_directory].
  unfold try_except, bind, client_get, raise_for_status, ret, raise.
  destruct (http_get E (requests w) _) as [e|code html]; [done|].
  destruct (decide (code = 404)); [done|].
  destruct (status_error E code _); [done|].
  destruct (scan_page dir_path (parse E html)) as [[fs ds] subdirs].
  destruct (1 <? S depth)%nat; [|by eexists _, _].
  destruct depth as [|depth].
  - assert (Hnote : forall subdirs w0,
              exists rs, (gather (fun subdir => process_directory E subdir 0) subdirs w0).1
                         = Return rs).
    { clear. induction subdirs as [|sd sds IH]; intros w0; simpl; [by eexists|].
      unfold bind, ret. simpl. destruct (IH w0) as [rs Hrs].
      destruct (gather _ sds w0) as [[rs'|e] w1]; simpl in *; [by eexists|done]. }
    destruct (Hnote subdirs (log_request (GITHUB_URL +:+ "/tree/main/" +:+ dir_path) w))
      as [rs Hrs].
    destruct (gather _ subdirs _) as [[rs'|e] w1]; simpl in *; [by eexists _, _|done].
  - pose proof (gather_Forall (fun l => has_note l = false)
                  (fun subdir => process_directory E subdir (S depth)) subdirs
                  (log_request (GITHUB_URL +:+ "/tree/main/" +:+ dir_path) w)
                  (fun arg w' => process_directory_no_note E depth arg w')) as Hg.
    destruct (gather _ subdirs _) as [[rs|e] w1]; simpl in *; [by eexists _, _|done].
Qed.

(** A directory that can be listed gives, whatever happens below it, a
    listing under its own path with the files of its page and, by name and
    path, the directories of its page in the order of the page. *)
Theorem process_directory_listing
    (dir_path body : string) (code : Z) (depth : nat) (w : world) :
  http_get E (requests w) (tree_url dir_path) = Response code body ->
  code <> 404 ->
  status_error E code (tree_url dir_path) = None ->
  exists ds,
    (process_directory E dir_path (S depth) w).1
    = Return (Listing (scan_page dir_path (parse E body)).1.1 ds dir_path)
    /\ (fun d => (dir_name d, dir_path_of d)) <$> ds
       = (fun d => (dir_name d, dir_path_of d)) <$> (scan_page dir_path (parse E body)).1.2.
Proof.
  intros Hget Hcode Hstatus. cbn [process_directory].
  unfold try_except at 1, bind at 1 2, client_get at 1, raise_for_status at 1.
  fold (tree_url dir_path). rewrite Hget. simpl.
  rewrite decide_False by done. rewrite Hstatus. simpl.
  destruct (scan_page dir_path (parse E body)) as [[fs ds] subdirs]. simpl.
  destruct depth as [|depth]; simpl; [by eexists|].
  unfold bind.
  pose proof (gather_Forall (fun l => has_note l = false)
                (fun subdir => process_directory E subdir (S depth)) subdirs
                (log_request (tree_url dir_path) w)
                (fun arg w' => process_directory_no_note E depth arg w')) as Hg.
  destruct (gather _ subdirs _) as [[rs|e] w1]; simpl in *; [|done].
  eexists. split; [done|]. apply attach_all_names.
Qed.

Lemma process_directory_one_request dir_path w :
  requests (process_directory E dir_path 1 w).2 = requests w ++ [tree_url dir_path].
Proof.
  unfold tree_url. cbn [process_directory].
  unfold try_except, bind, client_get, raise_for_status, ret, raise.
  destruct (http_get E (requests w) _) as [e|code html]; [done|].
  destruct (decide (code = 404)); [done|].
  destruct (status_error E code _); [done|].
  by destruct (scan_page dir_path (parse E html)) as [[fs ds] subdirs].
Qed.

Lemma gather_one_request subdirs w :
  requests (gather (fun subdir => process_directory E subdir 1) subdirs w).2
  = requests w ++ (tree_url <$> subdirs).
Proof.
  revert w. induction subdirs as [|subdir subdirs IH]; intros w.
  - simpl. by rewrite app_nil_r.
  - cbn [gather]. rewrite fmap_cons. unfold bind.
    pose proof (process_directory_one_request subdir w) as Hone.
    pose proof (process_directory_no_note E 0 subdir w) as Hret.
    destruct (process_directory E subdir 1 w) as [[l|e] w1]; cbn in Hone, Hret; [|done].
    specialize (IH w1).
    destruct (gather _ subdirs w1) as [[ls|e] w2]; cbn in IH; cbn [ret snd];
      rewrite IH, Hone, <- app_assoc; done.
Qed.

(** A crawl with [max_depth] 2 of a directory that can be listed visits
    the directory and then each subdirectory that the scan marked, once
    each and in the order of the page; nothing else is requested. *)
Theorem crawl_visits_each_subdirectory_once (dir_path body : string) (code : Z) (w : world) :
  http_get E (requests w) (tree_url dir_path) = Response code body ->
  code <> 404 ->
  status_error E code (tree_url dir_path) = None ->
  requests (process_directory E dir_path 2 w).2
  = requests w ++ tree_url dir_path
      :: (tree_url <$> (scan_page dir_path (parse E body)).2).
Proof.
  intros Hget Hcode Hstatus. change 2%nat with (S 1).
  cbn [process_directory].
  unfold try_except at 1, bind at 1 2, client_get at 1, raise_for_status at 1.
  fold (tree_url dir_path). rewrite Hget. simpl.
  rewrite decide_False by done. rewrite Hstatus. simpl.
  destruct (scan_page dir_path (parse E body)) as [[fs ds] subdirs]. simpl.
  unfold bind.
  pose proof (gather_one_request subdirs (log_request (tree_url dir_path) w)) as Hg.
  destruct (gather _ subdirs _) as [[ls|e] w2]; simpl in *;
    rewrite Hg, <- app_assoc; done.
Qed.

End Listing.

Lemma attach_keeps_entries_witness :
  (fun d => (dir_name d, dir_path_of d))
    <$> attach_all [("src/agents", Failed "Directory not found: src/agents")]
          [DirInfo "examples" "src/examples" None; DirInfo "agents" "src/agents" None]
  = [("examples", "src/examples"); ("agents", "src/agents")]
  /\ (DirInfo "agents" "src/agents" (Some (Failed "Directory not found: src/agents"))
      ∈ [DirInfo "examples" "src/examples" None; DirInfo "agents" "src/agents" None]
      \/ exists subdir result,
           (subdir, result) ∈ [("src/agents", Failed "Directory not found: src/agents")]
           /\ dir_contents
                (DirInfo "agents" "src/agents"
                         (Some (Failed "Directory not found: src/agents")))
              = Some result
           /\ (dir_name (DirInfo "agents" "src/agents"
                                 (Some (Failed "Directory not found: src/agents")))
               = default EmptyString (last (Py.split_on "/" subdir))
               \/ dir_path_of (DirInfo "agents" "src/agents"
                                       (Some (Failed "Directory not found: src/agents")))
                  = subdir)).
Proof.
  destruct (attach_keeps_entries
              [("src/agents", Failed "Directory not found: src/agents")]
              [DirInfo "examples" "src/examples" None; DirInfo "agents" "src/agents" None])
    as [Hnames Hcontents].
  split; [exact Hnames|]. apply Hcontents.
  constructor. constructor.
Defined.

Lemma process_directory_listing_witness :
  exists ds,
    (process_directory crawl_site "src" 2 empty_world).1
    = Return (Listing (scan_page "src" (parse crawl_site (tree_url "src"))).1.1 ds "src")
    /\ (fun d => (dir_name d, dir_path_of d)) <$> ds
       = (fun d => (dir_name d, dir_path_of d))
           <$> (scan_page "src" (parse crawl_site (tree_url "src"))).1.2.
Proof.
  apply (process_directory_listing crawl_site "src" (tree_url "src") 200 1
           empty_world); [reflexivity|done|reflexivity].
Defined.

Lemma crawl_visits_each_subdirectory_once_witness :
  requests (process_directory crawl_site "src" 2 empty_world).2
  = [tree_url "src"; tree_url "src/examples"].
Proof.
  apply (crawl_visits_each_subdirectory_once crawl_site "src" (tree_url "src") 200
           empty_world); [reflexivity|done|reflexivity].
Defined.

(** ** The structure of the repository *)

Section Structure.

Variable E : collaborators.

Lemma root_structure_of_nonempty doc :
  structure_error (root_structure_of doc) = None
  /\ (files (root_structure_of doc) <> [] \/ directories (root_structure_of doc) <> []).
Proof.
  unfold root_structure_of.
  destruct (match file_items doc with [] => _ | _ => _ end) as [fs ds].
  destruct fs, ds; simpl; auto.
Qed.

Lemma gather_Forall2 {A : Type} (P : string -> A -> Prop) (task : string -> io A) args w :
  (forall arg w', match (task arg w').1 with Return r => P arg r | Raise _ => False end) ->
  match (gather task args w).1 with
  | Return results => Forall2 P args results
  | Raise _ => False
  end.
Proof.
  intros Htask. revert w. induction args as [|arg args IH]; intros w; simpl.
  - constructor.
  - unfold bind. specialize (Htask arg w).
    destruct (task arg w) as [[r|e] w1]; simpl in Htask; [|done].
    specialize (IH w1). destruct (gather task args w1) as [[rs|e] w2]; simpl in *; [|done].
    by constructor.
Qed.

Lemma process_directory_result dir_path depth w :
  match (process_directory E dir_path (S depth) w).1 with
  | Return l => (exists e, l = Failed e) \/ (exists fs ds, l = Listing fs ds dir_path)
  | Raise _ => False
  end.
Proof.
  cbn [process_directory].
  unfold try_except, bind at 1 2, client_get, raise_for_status, ret, raise.
  destruct (http_get E (requests w) _) as [e|code html]; [left; by eexists|].
  destruct (decide (code = 404)); [left; by eexists|].
  destruct (status_error E code _); [left; by eexists|].
  destruct (scan_page dir_path (parse E html)) as [[fs ds] subdirs].
  destruct depth as [|depth]; [right; by eexists _, _|].
  change (1 <? S (S depth))%nat with true. cbv iota.
  pose proof (gather_Forall (fun l => has_note l = false)
                (fun subdir => process_directory E subdir (S depth)) subdirs
                (log_request (GITHUB_URL +:+ "/tree/main/" +:+ dir_path) w)
                (fun arg w' => process_directory_no_note E depth arg w')) as Hg.
  unfold bind.
  destruct (gather _ subdirs _) as [[rs|e] w1]; simpl in *; [|done].
  right. by eexists _, _.
Qed.

(** [list_github_structure] always answers with JSON of one shape: a root
    without error that is never empty (the four default directories stand
    in for a root that cannot be listed), and, under ["directories"], the
    four key directories in their order, each with its listing or with an
    error; the four are also what the summary reports as explored.  *)
Theorem list_github_structure_shape (w : world) :
  exists root examples src docs tests,
    (list_github_structure E w).1
    = Return (Dumps (JDict
        [("repository", JString "openai/openai-agents-python");
         ("url", JString GITHUB_URL);
         ("root", structure_json root);
         ("directories", JDict [("examples", listing_json examples);
                                ("src", listing_json src);
                                ("docs", listing_json docs);
                                ("tests", listing_json tests)]);
         ("summary", JDict
            [("total_root_files", JInt (Z.of_nat (length (files root))));
             ("total_root_directories", JInt (Z.of_nat (length (directories root))));
             ("explored_directories", JStrings ["examples"; "src"; "docs"; "tests"])])]))
    /\ structure_error root = None
    /\ (files root <> [] \/ directories root <> [])
    /\ Forall2 (fun dir_path l =>
                  (exists e, l = Failed e) \/ (exists fs ds, l = Listing fs ds dir_path))
               ["examples"; "src"; "docs"; "tests"] [examples; src; docs; tests].
Proof.
  unfold list_github_structure, process_all, try_except, bind.
  pose proof (post_get_github_structure E w) as Hroot. unfold post in Hroot.
  destruct (get_github_structure E w) as [[root0|e] w1]; [|done].
  destruct Hroot as (_ & _ & Hroot).
  set (root := match structure_error root0 with Some _ => _ | None => root0 end).
  assert (Hok : structure_error root = None
                /\ (files root <> [] \/ directories root <> [])).
  { unfold root. destruct Hroot as [[e ->]|[Hnone (log & url & code & body & _ & ->)]].
    - simpl. split; [done|]. by right.
    - rewrite Hnone. apply root_structure_of_nonempty. }
  clearbody root.
  pose proof (gather_Forall2
                (fun dir_path l =>
                   (exists e, l = Failed e) \/ (exists fs ds, l = Listing fs ds dir_path))
                (fun dir_name => process_directory E dir_name 2) structure_key_dirs w1
                (fun arg w' => process_directory_result arg 1 w')) as Hg.
  unfold bind in Hg.
  destruct (gather _ structure_key_dirs w1) as [[results|e] w2]; simpl in Hg; [|done].
  unfold structure_key_dirs in Hg.
  apply Forall2_cons_inv_l in Hg as (examples & rs1 & H1 & Hg & ->).
  apply Forall2_cons_inv_l in Hg as (src & rs2 & H2 & Hg & ->).
  apply Forall2_cons_inv_l in Hg as (docs & rs3 & H3 & Hg & ->).
  apply Forall2_cons_inv_l in Hg as (tests & rs4 & H4 & Hg & ->).
  apply Forall2_nil_inv_l in Hg as ->.
  exists root, examples, src, docs, tests. simpl.
  destruct Hok as [? ?]. split_and!; [done..|].
  repeat (constructor; [done|]). constructor.
Qed.

End Structure.

(** ** The diagnostics *)

Section Diagnostics.

Variable E : collaborators.

Lemma probe_page_run name url w :
  exists p, probe_page E name url w = (Return p, log_request url w).
Proof.
  unfold probe_page, try_except, bind, client_get, ret.
  destruct (http_get E (requests w) url); by eexists.
Qed.

Lemma probe_all_run url_of names w :
  exists ps,
    probe_all E url_of names w
    = (Return ps,
       World (doc_cache w) (github_cache w) (requests w ++ (url_of <$> names)))
    /\ length ps = length names.
Proof.
  revert w. induction names as [|name names IH]; intros w.
  - exists []. simpl. rewrite app_nil_r. by destruct w.
  - cbn [probe_all]. unfold bind.
    destruct (probe_page_run name (url_of name) w) as [p ->].
    destruct (IH (log_request (url_of name) w)) as (ps & -> & Hlen).
    exists (p :: ps). simpl. rewrite <- app_assoc. split; [done|]. by rewrite Hlen.
Qed.

Lemma count_available_all entries :
  count_available entries = length entries <-> Forall (fun p => available p = true) entries.
Proof.
  unfold count_available. split.
  - intros Hlen. apply Forall_forall. intros p Hp.
    destruct (available p) eqn:Hav; [done|].
    assert (length (filter (fun p => available p = true) entries) < length entries)%nat;
      [|lia].
    clear Hlen. induction entries as [|q entries IH]; [by apply elem_of_nil in Hp|].
    pose proof (length_filter (fun p => available p = true) entries).
    apply elem_of_cons in Hp as [->|Hp].
    + rewrite filter_cons_False by by rewrite Hav. simpl. lia.
    + specialize (IH Hp). rewrite filter_cons. case_decide; simpl; lia.
  - intros Hall. f_equal. induction Hall as [|p entries Hp _ IH]; [done|].
    rewrite filter_cons_True by done. by rewrite IH.
Qed.

Lemma count_available_none entries :
  count_available entries = O <-> Forall (fun p => available p = false) entries.
Proof.
  unfold count_available. split.
  - induction entries as [|p entries IH]; [done|].
    rewrite filter_cons. case_decide as Hp; simpl; [done|].
    intros Hlen. constructor; [by destruct (available p)|by apply IH].
  - induction 1 as [|p entries Hp _ IH]; [done|].
    rewrite filter_cons_False by by rewrite Hp. done.
Qed.

Lemma health_status_good entries :
  entries <> [] ->
  (health_status (count_available entries) (length entries) = "good" <->
   Forall (fun p => available p = true) entries)
  /\ (health_status (count_available entries) (length entries) = "down" <->
      Forall (fun p => available p = false) entries)
  /\ health_status (count_available entries) (length entries) <> "unknown".
Proof.
  intros Hne. rewrite <- count_available_all, <- count_available_none.
  unfold health_status.
  assert (length entries <> O) by by destruct entries.
  destruct (Nat.eqb_spec (count_available entries) (length entries)) as [Heq|Hneq].
  - split_and!; [done| |done]. split; [done|lia].
  - destruct (Nat.ltb_spec 0 (count_available entries)).
    + split_and!; [done| |done]. split; [done|lia].
    + split_and!; [done| |done]. split; [lia|done].
Qed.

(** What the check of the documentation does. *)
Lemma check_documentation_run w :
  exists s errors,
    check_documentation E w
    = (Return (s, errors),
       World (doc_cache w) (github_cache w)
             (requests w ++ check_requests DOCS_URL (urljoin E DOCS_URL <$> key_pages) s))
    /\ match s with
       | Examined _ entries available_count total_checked status raw_access =>
           length entries = 4%nat
           /\ status = health_status (count_available entries) (length entries)
           /\ raw_access = None /\ errors = []
       | Unreachable e => errors = ["Documentation check error: " +:+ e]
       end.
Proof.
  unfold check_documentation, try_except, bind, client_get.
  destruct (http_get E (requests w) DOCS_URL) as [e|code html].
  - exists (Unreachable e). eexists. split; reflexivity.
  - destruct (probe_all_run (fun page => urljoin E DOCS_URL page) key_pages
                (log_request DOCS_URL w)) as (ps & -> & Hlen).
    eexists (Examined code ps _ _ _ None), []. split.
    + unfold ret, check_requests. simpl. by rewrite <- app_assoc.
    + simpl. by rewrite Hlen.
Qed.

Lemma check_github_run w :
  exists s errors,
    check_github E w
    = (Return (s, errors),
       World (doc_cache w) (github_cache w)
             (requests w
              ++ check_requests GITHUB_URL
                   (((fun section => GITHUB_URL +:+ "/" +:+ section) <$> key_sections)
                    ++ [RAW_GITHUB_URL +:+ "README.md"]) s))
    /\ match s with
       | Examined _ entries available_count total_checked status raw_access =>
           length entries = 3%nat
           /\ status = health_status (count_available entries) (length entries)
           /\ is_Some raw_access /\ errors = []
       | Unreachable e => errors = ["GitHub check error: " +:+ e]
       end.
Proof.
  unfold check_github, try_except, bind, client_get.
  destruct (http_get E (requests w) GITHUB_URL) as [e|code html].
  - exists (Unreachable e). eexists. split; reflexivity.
  - destruct (probe_all_run (fun section => GITHUB_URL +:+ "/" +:+ section) key_sections
                (log_request GITHUB_URL w)) as (ps & -> & Hlen).
    match goal with
    | |- context [probe_page E ?n ?u ?w0] =>
        destruct (probe_page_run n u w0) as [raw ->]
    end.
    eexists (Examined code ps _ _ _ (Some raw)), []. split.
    + unfold ret, check_requests, log_request. simpl. by rewrite <- !app_assoc.
    + simpl. by rewrite Hlen.
Qed.

(** [run_diagnostics] always answers with its report and never touches
    the caches: the report counts the entries they had at the start.  It
    asks for the main page of the documentation and, when that request
    went through, for the four key pages; then the same for the
    repository, its three key sections and the raw file.  So it sends
    between two and ten requests, and it reports one error for each main
    page that could not be requested. *)
Theorem diagnostics_report (now : string) (w : world) :
  exists r,
    run_diagnostics E now w
    = (Return (Diagnosis r),
       World (doc_cache w) (github_cache w)
         (requests w
          ++ check_requests DOCS_URL (urljoin E DOCS_URL <$> key_pages) (documentation r)
          ++ check_requests GITHUB_URL
               (((fun section => GITHUB_URL +:+ "/" +:+ section) <$> key_sections)
                ++ [RAW_GITHUB_URL +:+ "README.md"]) (github r)))
    /\ diagnostics_run_at r = now
    /\ doc_cache_entries r = size (doc_cache w)
    /\ github_cache_entries r = size (github_cache w)
    /\ report_errors r
       = match documentation r with
         | Unreachable e => ["Documentation check error: " +:+ e]
         | _ => []
         end
         ++ match github r with
            | Unreachable e => ["GitHub check error: " +:+ e]
            | _ => []
            end.
Proof.
  unfold run_diagnostics, try_except, bind.
  destruct (check_documentation_run w) as (docs & doc_errors & -> & Hdocs).
  match goal with
  | |- context [check_github E ?w0] =>
      destruct (check_github_run w0) as (repo & repo_errors & -> & Hrepo)
  end.
  eexists (Report _ docs repo _ _ _ _). split; [|split_and!].
  - cbn [doc_cache github_cache requests documentation github ret].
    by rewrite app_assoc.
  - done.
  - done.
  - done.
  - cbn [report_errors documentation github]. f_equal.
    + destruct docs; [by destruct Hdocs as (_ & _ & _ & ->)|done].
    + destruct repo; [by destruct Hrepo as (_ & _ & _ & ->)|done].
Qed.

Lemma overall_spec d g :
  d ∈ ["good"; "degraded"; "down"; "unknown"] ->
  g ∈ ["good"; "degraded"; "down"; "unknown"] ->
  (overall d g = "good" <-> d = "good" /\ g = "good")
  /\ (overall d g = "down" <-> d = "down" /\ g = "down")
  /\ (overall d g = "unknown" <-> d = "unknown" /\ g = "unknown")
  /\ (overall d g = "degraded" \/ overall d g = "good" \/ overall d g = "down"
      \/ overall d g = "unknown").
Proof.
  intros Hd Hg.
  repeat (apply elem_of_cons in Hd as [->|Hd]); [..|by apply elem_of_nil in Hd];
    (repeat (apply elem_of_cons in Hg as [->|Hg]); [..|by apply elem_of_nil in Hg]);
    vm_compute; split_and!; try done; try (by intros [? ?]); auto.
Qed.

Lemma examined_status s n :
  match s with
  | Examined _ entries _ _ status _ =>
      length entries = S n
      /\ status = health_status (count_available entries) (length entries)
  | Unreachable _ => True
  end ->
  subsystem_status s ∈ ["good"; "degraded"; "down"; "unknown"]
  /\ (subsystem_status s = "good" <-> all_available s)
  /\ (subsystem_status s = "down" <-> none_available s)
  /\ (subsystem_status s = "unknown" <-> unreachable s).
Proof.
  destruct s as [code entries a t status raw|e]; simpl.
  - intros [Hlen ->].
    assert (Hne : entries <> []) by by destruct entries.
    destruct (health_status_good entries Hne) as (Hgood & Hdown & Hunknown).
    split_and!; [|done|done|by split].
    unfold health_status. repeat case_match; rewrite !elem_of_cons; auto.
  - intros _. split_and!; [rewrite !elem_of_cons; auto|by split|by split|by split].
Qed.

(** The overall health is read off the key pages and the key sections
    alone: it is "good" exactly when each of them answered with status 200,
    "down" exactly when none did, "unknown" exactly when neither main page
    could be requested, and "degraded" in every other case; the status of
    the main pages and of the raw file plays no part. *)
Theorem diagnostics_overall (now : string) (w : world) :
  match (run_diagnostics E now w).1 with
  | Return (Diagnosis r) =>
      (overall_health r = "good"
       <-> all_available (documentation r) /\ all_available (github r))
      /\ (overall_health r = "down"
          <-> none_available (documentation r) /\ none_available (github r))
      /\ (overall_health r = "unknown"
          <-> unreachable (documentation r) /\ unreachable (github r))
      /\ (overall_health r = "degraded" \/ overall_health r = "good"
          \/ overall_health r = "down" \/ overall_health r = "unknown")
  | _ => False
  end.
Proof.
  unfold run_diagnostics, try_except, bind.
  destruct (check_documentation_run w) as (docs & doc_errors & -> & Hdocs).
  match goal with
  | |- context [check_github E ?w0] =>
      destruct (check_github_run w0) as (repo & repo_errors & -> & Hrepo)
  end.
  cbn [fst overall_health documentation github].
  destruct (examined_status docs 3) as (Hd & Hd1 & Hd2 & Hd3);
    [destruct docs; [by destruct Hdocs as (? & ? & _)|done]|].
  destruct (examined_status repo 2) as (Hg & Hg1 & Hg2 & Hg3);
    [destruct repo; [by destruct Hrepo as (? & ? & _)|done]|].
  destruct (overall_spec _ _ Hd Hg) as (H1 & H2 & H3 & H4).
  split_and!; [by rewrite H1, Hd1, Hg1|by rewrite H2, Hd2, Hg2|by rewrite H3, Hd3, Hg3|done].
Qed.

End Diagnostics.

Example diagnostics_offline :
  (run_diagnostics offline "2025-01-01 00:00:00" empty_world).1
  = Return (Diagnosis
      (Report "2025-01-01 00:00:00"
         (Unreachable "All connection attempts failed")
         (Unreachable "All connection attempts failed") 0 0 "unknown"
         ["Documentation check error: All connection attempts failed";
          "GitHub check error: All connection attempts failed"])).
Proof. reflexivity. Qed.

(** ** The definition found in a source file *)

Lemma definition_start_from_spec class_or_function lines i :
  0 <= i ->
  let start := definition_start_from class_or_function lines i in
  (start = -1 /\ Forall (fun line => defines class_or_function line = false) lines)
  \/ exists before first after,
       lines = before ++ first :: after
       /\ start = i + Z.of_nat (length before)
       /\ Forall (fun line => defines class_or_function line = false) before
       /\ defines class_or_function first = true.
Proof.
  revert i. induction lines as [|line lines IH]; intros i Hi; simpl.
  - left. by split.
  - destruct (defines class_or_function line) eqn:Hline.
    + right. exists [], line, lines. simpl. split_and!; [done|lia|done|done].
    + destruct (IH (i + 1)) as [[Hnone Hall]|(before & first & after & -> & Hs & Hb & Hf)];
        [lia| |].
      * left. split; [done|by constructor].
      * right. exists (line :: before), first, after. simpl.
        split_and!; [done|lia|by constructor|done].
Qed.

Lemma definition_body_spec indentation lines :
  exists after,
    lines = definition_body indentation lines ++ after
    /\ Forall (fun line => Py.strip line = EmptyString \/ indentation < indentation_of line)
              (definition_body indentation lines)
    /\ match after with
       | [] => True
       | line :: _ => Py.strip line <> EmptyString /\ indentation_of line <= indentation
       end.
Proof.
  induction lines as [|line lines IH]; simpl.
  - exists []. by split_and!.
  - destruct (bool_decide (Py.strip line = EmptyString) || (indentation <? indentation_of line))
      eqn:Hline.
    + destruct IH as (after & Hlines & Hbody & Hafter). exists after. simpl.
      split; [by f_equal|]. split; [|done].
      constructor; [|done].
      apply orb_prop in Hline as [H%bool_decide_eq_true|H%Z.ltb_lt]; auto.
    + exists (line :: lines). simpl. split; [done|]. split; [done|].
      apply orb_false_elim in Hline as [H1%bool_decide_eq_false H2%Z.ltb_ge]. done.
Qed.

(** The definition that [get_api_docs] shows from a source file is a run
    of consecutive lines of the file: it starts with the first line that
    names the class or the function, goes on over the lines that are blank
    or indented deeper than that line, and ends before the first line that
    is neither (or with the file); the line number reported is that of the
    first line. *)
Theorem definition_extracted
    (class_or_function file_content : string) (start : Z) (content : list string) :
  source_definition class_or_function file_content = Some (start, content) ->
  exists before first body after,
    Py.split_on (ascii_of_nat 10) file_content = before ++ first :: body ++ after
    /\ start = Z.of_nat (length before)
    /\ content = first :: body
    /\ Forall (fun line => defines class_or_function line = false) before
    /\ defines class_or_function first = true
    /\ Forall (fun line => Py.strip line = EmptyString
                           \/ indentation_of first < indentation_of line) body
    /\ match after with
       | [] => True
       | line :: _ =>
           Py.strip line <> EmptyString /\ indentation_of line <= indentation_of first
       end.
Proof.
  unfold source_definition.
  destruct (defines class_or_function file_content); [|done].
  set (lines := Py.split_on _ file_content).
  pose proof (definition_start_from_spec class_or_function lines 0 ltac:(lia)) as Hstart.
  simpl in Hstart.
  destruct (Z.leb_spec 0 (definition_start_from class_or_function lines 0)) as [Hpos|];
    [|done].
  destruct Hstart as [[Hnone _]|(before & first & rest & Hlines & Hs & Hbefore & Hfirst)];
    [lia|].
  rewrite Hs, Z.add_0_l, Nat2Z.id, Hlines, drop_app_length.
  intros [= <- <-].
  destruct (definition_body_spec (indentation_of first) rest)
    as (after & Hrest & Hbody & Hafter).
  exists before, first, (definition_body (indentation_of first) rest), after.
  split_and!; try done. by rewrite <- Hrest.
Qed.

Lemma definition_extracted_witness :
  exists before first body after,
    Py.split_on (ascii_of_nat 10) agent_source = before ++ first :: body ++ after
    /\ 1 = Z.of_nat (length before)
    /\ ["class Agent:"; "    def run(self):"; "        pass"; "";
        "    def stop(self):"; "        pass"] = first :: body
    /\ Forall (fun line => defines "Agent" line = false) before
    /\ defines "Agent" first = true
    /\ Forall (fun line => Py.strip line = EmptyString
                           \/ indentation_of first < indentation_of line) body
    /\ match after with
       | [] => True
       | line :: _ =>
           Py.strip line <> EmptyString /\ indentation_of line <= indentation_of first
       end.
Proof.
  apply (definition_extracted "Agent" agent_source). reflexivity.
Defined.

(** The entry of the file in ["source_code"] names the line after
    [definition_start], counted from one. *)
Example source_result_example :
  source_result "Agent" "src/agents/agent.py" agent_source
  = [JDict [("source_file", JString "src/agents/agent.py");
            ("url", JString "https://github.com/openai/openai-agents-python/blob/main/src/agents/agent.py#L2");
            ("definition",
              JString (Py.join newline
                         ["class Agent:"; "    def run(self):"; "        pass"; "";
                          "    def stop(self):"; "        pass"]))]].
Proof. reflexivity. Qed.

(** ** The index of the documentation *)

Section Index.

Variable E : collaborators.

(** [get_doc_index] looks for the links in what [fetch_doc_page] returns,
    which is the text of the main page and not its markup: the index holds
    the links that the parser finds in that text, and it is empty when the
    text holds no anchor, whatever links the page has.  The text is cached,
    and a second call answers from the cache without a request. *)
Theorem doc_index_reads_page_text (code : Z) (html : string) (w : world) :
  doc_cache w !! DOCS_URL = None ->
  http_get E (requests w) DOCS_URL = Response code html ->
  status_error E code DOCS_URL = None ->
  let text := page_text (parse E html) in
  let w' := set_doc_cache (insert DOCS_URL text) (log_request DOCS_URL w) in
  get_doc_index E w = (Return (Dumps (JList (site_pages (parse E text)))), w')
  /\ get_doc_index E w' = (Return (Dumps (JList (site_pages (parse E text)))), w')
  /\ (select (sel_attr "a" "href") (parse E text) = [] ->
      get_doc_index E w = (Return (Dumps (JList [])), w')).
Proof.
  intros Hcache Hget Hstatus text w'.
  assert (Hfirst : get_doc_index E w
                   = (Return (Dumps (JList (site_pages (parse E text)))), w')).
  { unfold get_doc_index, try_except, bind, fetch_doc_page. rewrite Hcache.
    change (Py.startswith DOCS_URL "http") with true. cbv iota.
    unfold bind, client_get, raise_for_status. rewrite Hget, Hstatus. done. }
  split_and!; [done| |].
  - unfold get_doc_index, try_except, bind, fetch_doc_page.
    unfold w' at 1 2. simpl. by rewrite lookup_insert_eq.
  - intros Hnone. rewrite Hfirst. unfold site_pages. by rewrite Hnone.
Qed.

End Index.

Lemma doc_index_reads_page_text_witness :
  site_pages (parse index_site index_markup)
  = [JDict [("title", JString "Agents"); ("href", JString "agents.html")]]
  /\ get_doc_index index_site empty_world
     = (Return (Dumps (JList [])),
        World (<[DOCS_URL := "Agents" +:+ newline +:+ "Elsewhere"]> ∅) ∅ [DOCS_URL]).
Proof.
  split; [reflexivity|].
  destruct (doc_index_reads_page_text index_site 200 index_markup empty_world)
    as (_ & _ & Hempty); [reflexivity..|].
  rewrite Hempty; [|reflexivity]. reflexivity.
Defined.

(** ** The code examples *)

Lemma slice_prefix s n :
  0 <= n -> Py.slice s 0 n = Py.take (Z.to_nat (Z.min n (Py.len s))) s.
Proof.
  intros Hn. unfold Py.slice, Py.bound. pose proof (len_nonneg s).
  change (0 <? 0) with false. cbv iota.
  destruct (Z.ltb_spec n 0); [lia|].
  rewrite (Z.min_l 0) by lia. by rewrite Z.sub_0_r.
Qed.

Lemma example_content_bound content : Py.len (example_content content) <= 1503.
Proof.
  unfold example_content. rewrite slice_prefix by lia. unfold Py.len.
  rewrite length_append, length_take.
  destruct (_ <? _); simpl; lia.
Qed.

Lemma example_content_whole content :
  Py.len content <= 1500 -> example_content content = content.
Proof.
  intros Hlen. unfold example_content. rewrite slice_prefix by lia.
  destruct (Z.ltb_spec 1500 (Py.len content)); [lia|].
  rewrite Z.min_r by lia. unfold Py.len. rewrite Nat2Z.id, take_all by done.
  clear. induction content as [|c s IH]; [done|].
  change (String c (s +:+ EmptyString) = String c s). by f_equal.
Qed.

Section Examples.

Variable E : collaborators.

Lemma examples_ok_nil : examples_ok [].
Proof. split; constructor. Qed.

Lemma examples_ok_append examples path content matched_by :
  examples_ok examples -> listed path examples = false ->
  examples_ok (examples ++ [new_example path content matched_by]).
Proof.
  intros [Hnodup Hall] Hnew%bool_decide_eq_false. split.
  - rewrite fmap_app. apply NoDup_app. split; [done|]. split.
    + intros p Hp Hp'. apply list_elem_of_singleton in Hp'. by subst.
    + apply NoDup_singleton.
  - apply Forall_app. split; [done|]. repeat constructor.
    apply example_content_bound.
Qed.

Lemma examples_ok_add examples path content matched_by :
  examples_ok examples -> examples_ok (add_example path content matched_by examples).
Proof.
  intros Hok. unfold add_example. destruct (listed path examples) eqn:Hl; [done|].
  by apply examples_ok_append.
Qed.

Lemma keeps_ret P st : examples_ok st.1 -> keeps P (ret st).
Proof. by intros Hok w. Qed.

Lemma keeps_try P m h :
  keeps True m -> (forall e, keeps P (h e)) -> keeps P (try_except m h).
Proof.
  intros Hm Hh w. apply post_try. eapply post_mono; [apply Hm|done|].
  intros e w' _. apply Hh.
Qed.

Lemma keeps_bind_any {A : Type} (m : io A) k :
  (forall a, keeps True (k a)) -> keeps True (bind m k).
Proof.
  intros Hk w. apply post_bind. unfold post at 1.
  destruct (m w) as [[a|e] w']; [apply Hk|done].
Qed.

Lemma keeps_bind P m k :
  keeps P m -> (forall st, examples_ok st.1 -> keeps P (k st)) -> keeps P (bind m k).
Proof.
  intros Hm Hk w. apply post_bind. eapply post_mono; [apply Hm| |done].
  intros st w' Hst. by apply Hk.
Qed.

Lemma keeps_for_each {A : Type} P (body : list example * list string -> A -> _) l st :
  (forall st x, examples_ok st.1 -> keeps P (body st x)) ->
  examples_ok st.1 -> keeps P (for_each body l st).
Proof.
  intros Hbody. revert st. induction l as [|x l IH]; intros st Hst; simpl.
  - by apply keeps_ret.
  - apply keeps_bind; [by apply Hbody|]. intros st' Hst'. by apply IH.
Qed.

(** The steps that build a search which keeps the list in order. *)
Ltac keep_with known :=
  repeat first
    [ known
    | apply keeps_ret; simpl; first [assumption | by apply examples_ok_add]
    | apply keeps_try; [|intros]
    | apply keeps_bind_any; intros
    | apply keeps_for_each; [intros|assumption]
    | match goal with
      | |- keeps _ (match ?x with _ => _ end) => destruct x
      | |- keeps _ (if ?b then _ else _) => destruct b
      | |- keeps _ (let (_, _) := ?x in _) => destruct x
      end ].

Ltac keep := keep_with fail.

Lemma keeps_add_match P term st path :
  examples_ok st.1 -> keeps P (add_match E term st path).
Proof.
  intros Hst. unfold add_match.
  destruct (negb (listed path st.1)) eqn:Hnew.
  - apply negb_true_iff in Hnew. rewrite andb_true_r.
    destruct (_ || _); [|by apply keeps_ret].
    apply keeps_try; [|intros; by apply keeps_ret].
    apply keeps_bind_any. intros content. apply keeps_ret. simpl.
    by apply examples_ok_append.
  - rewrite andb_false_r. by apply keeps_ret.
Qed.

Lemma keeps_search_term st term :
  examples_ok st.1 -> keeps True (search_term E st term).
Proof.
  intros Hst. unfold search_term. destruct (3 <=? Py.len term); [|by apply keeps_ret].
  apply keeps_bind_any. intros r. destruct (matched_paths r) as [paths|].
  - apply keeps_for_each; [|done]. intros. by apply keeps_add_match.
  - by apply keeps_ret.
Qed.

Lemma keeps_by_filename topic_terms st :
  examples_ok st.1 -> keeps False (by_filename E topic_terms st).
Proof.
  intros Hst. unfold by_filename. apply keeps_try; [|intros; by apply keeps_ret].
  apply keeps_for_each; [|done]. intros. by apply keeps_search_term.
Qed.

Lemma keeps_add_direct matched_by st path :
  examples_ok st.1 -> keeps False (add_direct E matched_by st path).
Proof. intros Hst. unfold add_direct. keep. Qed.

Lemma keeps_examples_row P topic_terms st item :
  examples_ok st.1 -> keeps P (examples_row E topic_terms st item).
Proof. intros Hst. unfold examples_row. keep. Qed.

Lemma keeps_examples_directory topic_terms st :
  examples_ok st.1 -> keeps False (examples_directory E topic_terms st).
Proof.
  intros Hst. unfold examples_directory.
  keep_with ltac:(by apply keeps_examples_row).
Qed.

Lemma keeps_additional_row P topic_terms dir_path st item :
  examples_ok st.1 -> keeps P (additional_row E topic_terms dir_path st item).
Proof. intros Hst. unfold additional_row. keep. Qed.

Lemma keeps_additional_directory topic_terms st dir_path :
  examples_ok st.1 -> keeps False (additional_directory E topic_terms st dir_path).
Proof.
  intros Hst. unfold additional_directory.
  keep_with ltac:(by apply keeps_additional_row).
Qed.

Lemma keeps_core_row P topic_terms st item :
  examples_ok st.1 -> keeps P (core_row E topic_terms st item).
Proof. intros Hst. unfold core_row. keep. Qed.

Lemma keeps_core_directory topic_terms st :
  examples_ok st.1 -> keeps False (core_directory E topic_terms st).
Proof.
  intros Hst. unfold core_directory.
  keep_with ltac:(by apply keeps_core_row).
Qed.

Lemma keeps_collect_examples topic topic_terms :
  keeps False (collect_examples E topic topic_terms).
Proof.
  unfold collect_examples.
  apply keeps_bind; [apply keeps_by_filename, examples_ok_nil|]. intros st1 H1.
  apply keeps_bind;
    [apply keeps_for_each; [intros; by apply keeps_add_direct|done]|]. intros st2 H2.
  apply keeps_bind; [by apply keeps_examples_directory|]. intros st3 H3.
  apply keeps_bind;
    [apply keeps_for_each; [intros; by apply keeps_additional_directory|done]|].
  intros st4 H4.
  apply keeps_bind; [by apply keeps_core_directory|]. intros st5 H5.
  destruct (Py.contains _ _); [|by apply keeps_ret].
  apply keeps_for_each; [intros; by apply keeps_add_direct|done].
Qed.

(** [get_code_examples] rejects a blank topic before any request.  For
    every other topic it answers with JSON, an error when it found nothing
    and otherwise the examples, and these list every file once: no two
    entries share a path, however many of the searches found the file.  No
    content shown is longer than 1503 characters, and each entry links to
    the file of its path. *)
Theorem code_examples_listed_once (topic : string) (w : world) :
  (blank topic = true \/ Py.strip topic = EmptyString ->
   get_code_examples E topic w
   = (Return (Text "Please provide a topic to search for code examples."), w))
  /\ (Py.lower (Py.strip topic) <> EmptyString ->
      exists key payload errors,
        (get_code_examples E topic w).1
        = Return (Dumps (JDict
            [(key, payload);
             ("debug_info", JDict
                [("search_topic", JString (Py.lower (Py.strip topic)));
                 ("search_terms", JStrings (Py.split (Py.lower (Py.strip topic))));
                 ("errors", errors_or_none errors)])]))
        /\ ((key = "error" /\ exists message, payload = JString message)
            \/ (key = "examples"
                /\ exists examples,
                     payload = JList (example_json <$> examples)
                     /\ examples <> []
                     /\ NoDup (example_path <$> examples)
                     /\ Forall (fun ex =>
                                  Py.len (example_text ex) <= 1503
                                  /\ example_url ex
                                     = GITHUB_URL +:+ "/blob/main/" +:+ example_path ex)
                               examples))).
Proof.
  split.
  - intros Hblank. unfold get_code_examples.
    assert (Py.strip topic = EmptyString) as ->; [|done].
    destruct Hblank as [Hb|Hs]; [by apply strip_blank|done].
  - intros Htopic. unfold get_code_examples.
    rewrite (truthy_nonempty _ Htopic). cbn [negb].
    unfold try_except, bind.
    pose proof (keeps_collect_examples (Py.lower (Py.strip topic))
                  (Py.split (Py.lower (Py.strip topic))) w) as Hkeeps.
    unfold post in Hkeeps.
    destruct (collect_examples _ _ _ _) as [[[examples errors]|e] w']; [|done].
    destruct Hkeeps as [Hnodup Hall]. simpl in Hnodup, Hall.
    destruct examples as [|ex examples].
    + eexists _, _, errors. split; [done|]. left. split; [done|by eexists].
    + eexists _, _, errors. split; [done|]. right. split; [done|].
      by eexists.
Qed.

End Examples.

Lemma code_examples_listed_once_witness :
  get_code_examples offline white_space empty_world
  = (Return (Text "Please provide a topic to search for code examples."), empty_world)
  /\ exists key payload errors,
       (get_code_examples handoffs_site "Handoffs" empty_world).1
       = Return (Dumps (JDict
           [(key, payload);
            ("debug_info", JDict
               [("search_topic", JString "handoffs");
                ("search_terms", JStrings ["handoffs"]);
                ("errors", errors_or_none errors)])]))
       /\ ((key = "error" /\ exists message, payload = JString message)
           \/ (key = "examples"
               /\ exists examples,
                    payload = JList (example_json <$> examples)
                    /\ examples <> []
                    /\ NoDup (example_path <$> examples)
                    /\ Forall (fun ex =>
                                 Py.len (example_text ex) <= 1503
                                 /\ example_url ex
                                    = GITHUB_URL +:+ "/blob/main/" +:+ example_path ex)
                              examples)).
Proof.
  split.
  - apply (code_examples_listed_once offline white_space empty_world). left. reflexivity.
  - apply (code_examples_listed_once handoffs_site "Handoffs" empty_world). done.
Defined.

(** On a repository where four of the searches find the one file, it is
    listed once, under the search that found it first. *)
Example handoffs_listed_once :
  (get_code_examples handoffs_site "handoffs" empty_world).1
  = Return (Dumps (JDict
      [("examples",
         JList [JDict [("path", JString "examples/handoffs.py");
                       ("url", JString (GITHUB_URL +:+ "/blob/main/examples/handoffs.py"));
                       ("content", JString (RAW_GITHUB_URL +:+ "examples/handoffs.py"));
                       ("matched_by", JString "filename contains 'handoffs'")]]);
       ("debug_info", JDict [("search_topic", JString "handoffs");
                             ("search_terms", JStrings ["handoffs"]);
                             ("errors", JNull)])])).
Proof. reflexivity. Qed.

(** ** The API documentation *)

Section ApiDocs.

Variable E : collaborators.

Lemma returns_for_each {A S : Type} (body : S -> A -> io S) l st :
  (forall st x, returns (body st x)) -> returns (for_each body l st).
Proof.
  intros Hbody. revert st. induction l as [|x l IH]; intros st; simpl.
  - apply returns_ret.
  - apply returns_bind; [apply Hbody|apply IH].
Qed.

Lemma returns_source_row class_or_function source_results item :
  returns (source_row E class_or_function source_results item).
Proof.
  unfold source_row. destruct (head _); [|apply returns_ret].
  destruct (Py.endswith _ _); [|apply returns_ret].
  apply returns_try. intros. apply returns_ret.
Qed.

(** What the search of the sources leaves in [results]. *)
Lemma source_search_run class_or_function w :
  exists source w',
    try_except
      (bind (for_each (source_directory E class_or_function) api_source_dirs [])
            (fun source_results =>
               match source_results with
               | [] => ret []
               | _ => ret [("source_code", JList source_results)]
               end))
      (fun e => ret [("source_error", JString e)]) w
    = (Return source, w')
    /\ (source = []
        \/ (exists e, source = [("source_error", JString e)])
        \/ exists source_results, source = [("source_code", JList source_results)]).
Proof.
  unfold try_except, bind.
  destruct (for_each _ _ _ w) as [[source_results|e] w'].
  - destruct source_results; eexists _, _; (split; [done|]); auto.
    right. right. by eexists.
  - eexists _, _. split; [done|]. right. left. by eexists.
Qed.

(** [search_docs] answers with a message or with a JSON list. *)
Lemma search_docs_shape query w :
  exists r w',
    search_docs E query w = (Return r, w')
    /\ match r with
       | Text _ => True
       | Dumps (JList _) => True
       | Dumps _ => False
       end.
Proof.
  unfold search_docs. destruct (negb _); [by eexists _, _|].
  unfold try_except, bind.
  destruct (fetch_doc_page E DOCS_URL w) as [[content|e] w1]; [|by eexists _, _].
  match goal with
  | |- context [search_links E ?terms ?links ?results w1] =>
      pose proof (returns_search_links E terms links results w1) as Hlinks
  end.
  unfold post in Hlinks.
  destruct (search_links _ _ _ _ _) as [[results|e] w2]; [|done].
  destruct results; by eexists _, _.
Qed.

(** [get_api_docs] rejects a blank name before any request, and answers
    with an error when the reference page is missing or cannot be read.
    Otherwise it always answers with the results for the name as it was
    passed, and these are never bare: when no heading, no text and no
    source file matched, they hold what [search_docs] answered, be it only
    its message that nothing was found.  So the error "Could not find API
    documentation" is never returned. *)
Theorem api_docs_replies (class_or_function : string) (w : world) :
  (blank class_or_function = true \/ Py.strip class_or_function = EmptyString ->
   get_api_docs E class_or_function w
   = (Return (Text "Please provide a class or function name to look up."), w))
  /\ (Py.strip class_or_function <> EmptyString ->
      let api_doc_url := urljoin E DOCS_URL "api_reference.html" in
      match http_get E (requests w) api_doc_url with
      | ConnectError e =>
          get_api_docs E class_or_function w
          = (Return (Text ("Error retrieving API documentation: " +:+ e)),
             log_request api_doc_url w)
      | Response code html =>
          if decide (code = 404) then
            get_api_docs E class_or_function w
            = (Return (Dumps (JDict
                 [("error", JString "API reference page not found. The documentation structure might have changed.");
                  ("query", JString (Py.strip class_or_function))])),
               log_request api_doc_url w)
          else
            match status_error E code api_doc_url with
            | Some e =>
                get_api_docs E class_or_function w
                = (Return (Text ("Error retrieving API documentation: " +:+ e)),
                   log_request api_doc_url w)
            | None =>
                exists matches extra,
                  (get_api_docs E class_or_function w).1
                  = Return (Dumps (JDict
                      ([("query", JString (Py.strip class_or_function));
                        ("matches", JList matches)] ++ extra)))
                  /\ (matches = [] ->
                      is_Some (dict_get "source_code" extra)
                      \/ is_Some (dict_get "documentation_search" extra))
            end
      end).
Proof.
  split.
  - intros Hblank. unfold get_api_docs.
    assert (Py.strip class_or_function = EmptyString) as ->; [|done].
    destruct Hblank as [Hb|Hs]; [by apply strip_blank|done].
  - intros Hname api_doc_url.
    destruct (http_get E (requests w) api_doc_url) as [e|code html] eqn:Hget;
      [|destruct (decide (code = 404)) as [Hcode|Hcode];
        [|destruct (status_error E code api_doc_url) as [e|] eqn:Hstatus]];
      unfold get_api_docs; rewrite (truthy_nonempty _ Hname); cbn [negb];
      fold api_doc_url; unfold try_except at 1, bind at 1, client_get;
      rewrite Hget; [done| | |].
    { by rewrite decide_True. }
    { rewrite decide_False by done. unfold bind at 1, raise_for_status.
      by rewrite Hstatus. }
    rewrite decide_False by done. unfold bind at 1, raise_for_status.
    rewrite Hstatus. unfold ret at 1.
    set (matches := match api_matches _ _ _ _ with [] => _ | _ => _ end).
    unfold bind at 1.
    destruct (source_search_run (Py.strip class_or_function)
                (log_request api_doc_url w)) as (source & w1 & -> & Hsource).
    exists matches.
    destruct matches as [|m ms].
    + destruct Hsource as [->|[[e ->]|[source_results ->]]]; simpl.
      * unfold bind.
        destruct (search_docs_shape (Py.strip class_or_function) w1)
          as (r & w2 & -> & Hr).
        destruct r as [message|[]]; try done; simpl;
          (eexists; split; [done|]); intros _; right; by eexists.
      * unfold bind.
        destruct (search_docs_shape (Py.strip class_or_function) w1)
          as (r & w2 & -> & Hr).
        destruct r as [message|[]]; try done; simpl;
          (eexists; split; [done|]); intros _; right; by eexists.
      * eexists. split; [done|]. intros _. left. by eexists.
    + simpl. destruct (dict_get "source_code" source); simpl;
        (eexists; split; [done|]); done.
Qed.

End ApiDocs.

Lemma api_docs_replies_witness :
  get_api_docs offline white_space empty_world
  = (Return (Text "Please provide a class or function name to look up."), empty_world)
  /\ exists matches extra,
       (get_api_docs welcome_site " Runner " empty_world).1
       = Return (Dumps (JDict
           ([("query", JString "Runner"); ("matches", JList matches)] ++ extra)))
       /\ (matches = [] ->
           is_Some (dict_get "source_code" extra)
           \/ is_Some (dict_get "documentation_search" extra)).
Proof.
  split.
  - apply (api_docs_replies offline white_space empty_world). left. reflexivity.
  - destruct (api_docs_replies welcome_site " Runner " empty_world) as [_ Hname].
    apply (Hname ltac:(done)).
Defined.

(** On a site that nowhere names the class, the answer carries the message
    of [search_docs]. *)
Example api_docs_nothing_found :
  (get_api_docs welcome_site "Runner" empty_world).1
  = Return (Dumps (JDict
      [("query", JString "Runner");
       ("matches", JList []);
       ("documentation_search",
         JString "No results found for your query: 'runner'. Try a different search term or check the documentation index.")])).
Proof. reflexivity. Qed.

(** ** The depth of [search_files] *)

Section Depth.

Variable E : collaborators.

Lemma only_pages_refl w : only_pages w w.
Proof. split_and!; [done..|]. exists []. by rewrite app_nil_r. Qed.

Lemma only_pages_trans w1 w2 w3 :
  only_pages w1 w2 -> only_pages w2 w3 -> only_pages w1 w3.
Proof.
  intros (Hd1 & Hg1 & s1 & Hr1 & Hs1) (Hd2 & Hg2 & s2 & Hr2 & Hs2).
  split_and!; [congruence..|]. exists (s1 ++ s2).
  split; [by rewrite Hr2, Hr1, app_assoc|by apply Forall_app].
Qed.

Lemma only_pages_log dir_path w :
  within_depth dir_path = true -> only_pages w (log_request (tree_url dir_path) w).
Proof.
  intros Hdepth. split_and!; [done..|]. exists [tree_url dir_path].
  split; [done|]. repeat constructor. by exists dir_path.
Qed.

Lemma descend_only_pages search subdirs acc w :
  (forall subdir acc w, within_depth subdir = true -> only_pages w (search subdir acc w).2) ->
  only_pages w (descend search subdirs acc w).2.
Proof.
  intros Hsearch. revert acc w. induction subdirs as [|subdir subdirs IH]; intros acc w;
    simpl; [apply only_pages_refl|].
  destruct (within_depth subdir) eqn:Hdepth; [|apply IH].
  unfold bind. specialize (Hsearch subdir acc w Hdepth).
  destruct (search subdir acc w) as [[acc'|e] w1]; simpl in *; [|done].
  eapply only_pages_trans; [done|apply IH].
Qed.

Lemma files_search_directory_only_pages fuel filename_pattern dir_path acc w :
  within_depth dir_path = true ->
  only_pages w (files_search_directory E fuel filename_pattern dir_path acc w).2.
Proof.
  revert dir_path acc w. induction fuel as [|fuel IH]; intros dir_path acc w Hdepth;
    [apply only_pages_refl|].
  cbn [files_search_directory]. unfold client_get. fold (tree_url dir_path).
  pose proof (only_pages_log dir_path w Hdepth) as Hlog.
  destruct (http_get E (requests w) _) as [e|code html]; [done|].
  destruct (decide (code = 404)); [done|].
  destruct (status_error E code _); [done|].
  destruct (foldl _ _ _) as [[matches errs] subdirs].
  eapply only_pages_trans; [done|].
  apply descend_only_pages. intros. by apply IH.
Qed.

Lemma files_search_all_only_pages filename_pattern dirs acc w :
  Forall (fun dir_path => within_depth dir_path = true) dirs ->
  only_pages w (files_search_all E filename_pattern dirs acc w).2.
Proof.
  intros Hdirs. revert acc w. induction Hdirs as [|dir_path dirs Hdir _ IH]; intros acc w;
    cbn [files_search_all]; [apply only_pages_refl|].
  unfold bind.
  pose proof (files_search_directory_only_pages 3 filename_pattern dir_path acc w Hdir)
    as Hone.
  destruct (files_search_directory _ _ _ _ _ _) as [[acc'|e] w1]; simpl in *; [|done].
  eapply only_pages_trans; [done|apply IH].
Qed.

Lemma root_structure_run w :
  exists s,
    get_github_structure E w = (Return s, log_request (GITHUB_URL +:+ "/tree/main") w).
Proof.
  unfold get_github_structure, try_except, bind, client_get, raise_for_status, ret, raise.
  destruct (http_get E (requests w) _) as [e|code html]; simpl; [by eexists|].
  destruct (status_error E code _); simpl; by eexists.
Qed.

Lemma search_files_run filename_pattern w :
  (search_files E filename_pattern w).2 = w
  \/ only_pages (log_request (GITHUB_URL +:+ "/tree/main") w)
                (search_files E filename_pattern w).2.
Proof.
  destruct (search_files E filename_pattern w) as [r w'] eqn:Hrun. simpl.
  revert Hrun. unfold search_files, try_except at 1.
  destruct (negb (Py.truthy _)); [intros [= _ <-]; by left|].
  unfold bind at 1, try_except at 1, bind at 1.
  destruct (root_structure_run w) as (structure0 & ->).
  set (w1 := log_request (GITHUB_URL +:+ "/tree/main") w).
  set (start := match structure_error structure0 with Some _ => _ | None => _ end).
  assert (Hstart : exists errs structure1, start w1 = (Return (errs, structure1), w1)).
  { unfold start. destruct (structure_error structure0); by eexists _, _. }
  destruct Hstart as (errs & structure1 & ->).
  unfold bind at 1.
  match goal with
  | |- context [files_search_all E ?p files_key_dirs ?acc w1] =>
      pose proof (files_search_all_only_pages p files_key_dirs acc w1
                    ltac:(by repeat constructor)) as Hkey;
      pose proof (returns_files_search_all E p files_key_dirs acc w1) as Hret
  end.
  unfold post in Hret.
  destruct (files_search_all _ _ files_key_dirs _ _) as [[[matches errs1]|e] w2];
    [|done].
  cbn [snd fst] in *. unfold bind at 1.
  destruct matches as [|m ms].
  - match goal with
    | |- context [files_search_all E ?p direct_paths ?acc w2] =>
        pose proof (files_search_all_only_pages p direct_paths acc w2
                      ltac:(by repeat constructor)) as Hdirect;
        pose proof (returns_files_search_all E p direct_paths acc w2) as Hret2
    end.
    unfold post in Hret2.
    destruct (files_search_all _ _ direct_paths _ _) as [[[matches errs2]|e] w3];
      [|done].
    cbn [snd] in *.
    assert (only_pages w1 w3) by by eapply only_pages_trans.
    destruct matches, errs2; intros [= _ <-]; by right.
  - intros [= _ <-]. by right.
Qed.

(** [search_files] reads listings only: it asks for the listing of the
    root and then for pages of directories whose path has at most three
    components, so it looks at most two levels below a key directory; it
    fetches no file and leaves both caches as they were. *)
Theorem search_files_stays_shallow (filename_pattern : string) (w : world) :
  let w' := (search_files E filename_pattern w).2 in
  doc_cache w' = doc_cache w /\ github_cache w' = github_cache w
  /\ (requests w' = requests w
      \/ exists sent,
           requests w' = requests w ++ (GITHUB_URL +:+ "/tree/main") :: sent
           /\ Forall (fun url => exists dir_path,
                          url = GITHUB_URL +:+ "/tree/main/" +:+ dir_path
                          /\ (length (Py.split_on "/" dir_path) <= 3)%nat) sent).
Proof.
  cbv zeta. destruct (search_files_run filename_pattern w) as [->|Hrun].
  - split_and!; [done..|by left].
  - destruct Hrun as (Hd & Hg & sent & Hr & Hs). split_and!; [done..|].
    right. exists sent. split; [rewrite Hr; simpl; by rewrite <- app_assoc|].
    eapply Forall_impl; [done|]. intros url (dir_path & -> & Hdepth).
    exists dir_path. split; [done|]. by apply Nat.leb_le.
Qed.

End Depth.

(** In the sample repository the file three directories down is found,
    and the directory below it, four components down, is not read: these
    are the pages requested, in whatever order the searches of the key
    directories send their requests. *)
Example search_files_on_crawl_site :
  requests (search_files crawl_site "c.py" empty_world).2
  ≡ₚ (GITHUB_URL +:+ "/tree/main")
     :: (tree_url <$> ["examples"; "src"; "src/examples"; "src/examples/nested";
                       "docs"; "test"; "tests"]).
Proof. by vm_compute. Qed.

(** ** The matches of [search_files] *)

Lemma lower_char_idemp c : Py.lower_char (Py.lower_char c) = Py.lower_char c.
Proof. by destruct c as [[] [] [] [] [] [] [] []]. Qed.

Lemma lower_idemp s : Py.lower (Py.lower s) = Py.lower s.
Proof.
  induction s as [|c s IH]; simpl; [done|]. by rewrite lower_char_idemp, IH.
Qed.

Section Matches.

Variable E : collaborators.
Variable filename_pattern : string.

Lemma root_matches_match fs :
  Forall (names_match filename_pattern) (root_matches filename_pattern fs).
Proof.
  unfold root_matches. induction fs as [|file fs IH]; simpl; [done|].
  destruct (Py.contains _ _) eqn:Hname; simpl; [|done].
  constructor; [|done]. eexists _, _. split; [done|]. by rewrite lower_idemp.
Qed.

Lemma files_row_match dir_path st item :
  Forall (names_match filename_pattern) st.1.1 ->
  Forall (names_match filename_pattern) (files_row filename_pattern dir_path st item).1.1.
Proof.
  destruct st as [[matches errs] subdirs]. simpl. intros Hst. unfold files_row.
  destruct (head (select_in _ item)) as [link|]; [|done].
  destruct (head (select_in (is_tag "svg") item)) as [svg|]; [|done].
  destruct (if Py.truthy _ then _ else _); [done|].
  destruct (Py.contains _ _) eqn:Hname; [|done]. simpl.
  apply Forall_app. split; [done|]. repeat constructor. by eexists _, _.
Qed.

Lemma files_rows_match dir_path items st :
  Forall (names_match filename_pattern) st.1.1 ->
  Forall (names_match filename_pattern)
         (foldl (files_row filename_pattern dir_path) st items).1.1.
Proof.
  revert st. induction items as [|item items IH]; intros st Hst; simpl; [done|].
  by apply IH, files_row_match.
Qed.

Lemma descend_match search subdirs acc w :
  (forall subdir acc w, all_match filename_pattern acc w ->
      post (search subdir acc) w (all_match filename_pattern) (fun _ _ => False)) ->
  all_match filename_pattern acc w ->
  post (descend search subdirs acc) w (all_match filename_pattern) (fun _ _ => False).
Proof.
  intros Hsearch. revert acc w.
  induction subdirs as [|subdir subdirs IH]; intros acc w Hacc; simpl.
  - by apply post_ret.
  - destruct (within_depth subdir); [|by apply IH].
    apply post_bind. eapply post_mono; [by apply Hsearch| |done].
    intros acc' w' Hacc'. by apply IH.
Qed.

Lemma files_search_directory_match fuel dir_path acc w :
  all_match filename_pattern acc w ->
  post (files_search_directory E fuel filename_pattern dir_path acc) w
       (all_match filename_pattern) (fun _ _ => False).
Proof.
  revert dir_path acc w. induction fuel as [|fuel IH]; intros dir_path acc w Hacc.
  - by apply post_ret.
  - cbn [files_search_directory]. unfold post at 1, client_get.
    destruct (http_get E (requests w) _) as [e|code html]; [done|].
    destruct (decide (code = 404)); [done|].
    destruct (status_error E code _); [done|].
    pose proof (files_rows_match dir_path
                  (select (sel_class "div" "Box-row") (parse E html))
                  (acc.1, acc.2, []) Hacc) as Hrows.
    destruct (foldl _ _ _) as [[matches errs] subdirs]. simpl in Hrows.
    by apply (descend_match _ subdirs (matches, errs)).
Qed.

Lemma files_search_all_match dirs acc w :
  all_match filename_pattern acc w ->
  post (files_search_all E filename_pattern dirs acc) w
       (all_match filename_pattern) (fun _ _ => False).
Proof.
  revert acc w. induction dirs as [|directory dirs IH]; intros acc w Hacc;
    cbn [files_search_all].
  - by apply post_ret.
  - apply post_bind.
    eapply post_mono; [by apply files_search_directory_match| |done].
    intros acc' w' Hacc'. by apply IH.
Qed.

End Matches.

Section MatchesOfSearch.

Variable E : collaborators.

Lemma matched_paths_of_matches filename_pattern file_matches rest :
  Forall (names_match filename_pattern) file_matches ->
  exists paths,
    matched_paths (Dumps (JDict (("matches", JList file_matches) :: rest))) = Some paths
    /\ Forall2 (fun m path =>
                  exists name,
                    m = file_match name path
                    /\ Py.contains filename_pattern (Py.lower name) = true)
               file_matches paths.
Proof.
  intros Hall. simpl. eexists. split; [done|].
  induction Hall as [|m ms (name & path & -> & Hname) _ IH]; simpl; constructor; [|done].
  by exists name.
Qed.

(** Whatever [search_files] reports under ["matches"] is a list of
    entries [{name, path, url}] of files whose lowercased name holds the
    lowercased pattern, each with the address of its path, and the paths
    that [get_code_examples] reads from the reply are the paths of these
    entries, in their order. *)
Theorem search_files_matches (filename_pattern : string) (w : world) :
  exists r,
    (search_files E filename_pattern w).1 = Return r
    /\ match r with
       | Text _ => True
       | Dumps result_data =>
           match json_get "matches" result_data with
           | Some (JList file_matches) =>
               exists paths,
                 matched_paths r = Some paths
                 /\ Forall2 (fun m path =>
                               exists name,
                                 m = file_match name path
                                 /\ Py.contains (Py.lower (Py.strip filename_pattern))
                                                (Py.lower name) = true)
                            file_matches paths
           | Some _ => False
           | None => matched_paths r = Some []
           end
       end.
Proof.
  unfold search_files, try_except at 1.
  destruct (negb (Py.truthy _)); [by eexists|].
  set (pattern := Py.lower (Py.strip filename_pattern)).
  unfold bind at 1, try_except at 1, bind at 1.
  pose proof (returns_get_github_structure E w) as Hroot. unfold post in Hroot.
  destruct (get_github_structure E w) as [[structure0|e] w1]; [|done].
  set (start := match structure_error structure0 with Some _ => _ | None => _ end).
  assert (Hstart : exists errs structure1, start w1 = (Return (errs, structure1), w1)).
  { unfold start. destruct (structure_error structure0); by eexists _, _. }
  destruct Hstart as (errs & structure1 & ->).
  unfold bind at 1.
  pose proof (files_search_all_match E pattern files_key_dirs
                (root_matches pattern (files structure1), errs) w1
                (root_matches_match pattern _)) as Hkey.
  unfold post in Hkey.
  destruct (files_search_all _ _ files_key_dirs _ _) as [[[matches errs1]|e] w2];
    [|done].
  unfold all_match in Hkey. cbn [fst] in *. unfold bind at 1.
  destruct matches as [|m ms].
  - pose proof (files_search_all_match E pattern direct_paths ([], errs1) w2 Hkey)
      as Hdirect.
    unfold post in Hdirect.
    destruct (files_search_all _ _ direct_paths _ _) as [[[matches errs2]|e] w3];
      [|done].
    unfold all_match in Hdirect. cbn [fst] in Hdirect.
    destruct matches as [|m ms]; [destruct errs2; by eexists|].
    eexists. split; [done|]. by apply matched_paths_of_matches.
  - eexists. split; [done|]. by apply matched_paths_of_matches.
Qed.

End MatchesOfSearch.
